(** * aorun: the probabilistic dense layer and its variational loss

    A shallow embedding of [aorun/layers.py] (classes [Dense] and
    [ProbabilisticDense]) together with the loss helpers the layer is used
    with.  Tensors hold real numbers: the arithmetic of the tensor engine is
    taken in exact real arithmetic.  Rounding and overflow of machine floats
    are outside the model, with one exception: the scale of the posterior,
    whose sign depends on them, is also given in single precision (module
    [Float32]).  Python objects are records whose optional
    attributes are [option] fields; every method runs in a small state and
    error monad over the object and the global random generator. *)

From Stdlib Require Import String.
From Stdlib Require Import Reals Lra Lia List ZArith QArith Bool Arith.
Import ListNotations.

Set Implicit Arguments.

(* ===================================================================== *)
(** * Python values and exceptions *)
(* ===================================================================== *)

Module Py.

(** The Python values a dimension argument can be bound to. *)
Inductive pyval : Type :=
| PyNone
| PyBool (b : bool)
| PyInt (z : Z)
| PyFloat (q : Q)
| PyStr (s : string).

(** [bool(v)], as used by [if self.input_dim:]. *)
Definition truthy (v : pyval) : bool :=
  match v with
  | PyNone => false
  | PyBool b => b
  | PyInt z => negb (Z.eqb z 0)
  | PyFloat q => negb (Qeq_bool q 0)
  | PyStr s => negb (String.eqb s EmptyString)
  end.

(** [type(v) is int]: exact type identity, so [bool] does not pass. *)
Definition type_is_int (v : pyval) : bool :=
  match v with
  | PyInt _ => true
  | _ => false
  end.

Inductive exn : Type :=
| AttributeError (attr : string)
| AssertionError
| TypeError
| ValueError
| RuntimeError.

Inductive result (A : Type) : Type :=
| Ok (a : A)
| Err (e : exn).
Arguments Ok {A} a.
Arguments Err {A} e.

Definition rbind {A B} (r : result A) (k : A -> result B) : result B :=
  match r with
  | Ok a => k a
  | Err e => Err e
  end.

Fixpoint rmapM {A B} (f : A -> result B) (l : list A) : result (list B) :=
  match l with
  | [] => Ok []
  | x :: xs => rbind (f x) (fun y => rbind (rmapM f xs) (fun ys => Ok (y :: ys)))
  end.

End Py.
Export Py.

(* ===================================================================== *)
(** * The state and error monad of a method call *)
(* ===================================================================== *)

(** The global generator of the tensor engine, seen as the stream of the
    standard normal variates it is going to deliver. *)
Definition stream : Type := nat -> R.

Record world (O : Type) : Type := World { self : O; rng : stream }.
Arguments World {O} self rng.

(** A method body: it returns a value or raises, and in both cases leaves
    the object and the generator in the state reached so far. *)
Definition M (O A : Type) : Type := world O -> result A * world O.

Definition ret {O A} (a : A) : M O A := fun w => (Ok a, w).

Definition raise {O A} (e : exn) : M O A := fun w => (Err e, w).

Definition bind {O A B} (m : M O A) (k : A -> M O B) : M O B :=
  fun w =>
    match m w with
    | (Ok a, w') => k a w'
    | (Err e, w') => (Err e, w')
    end.

Declare Scope py_scope.
Delimit Scope py_scope with py.
Notation "x <- m ;; k" := (bind m (fun x => k))
  (at level 61, m at next level, right associativity) : py_scope.
Notation "m ;;; k" := (bind m (fun _ => k))
  (at level 61, right associativity) : py_scope.
Open Scope py_scope.

Definition lift {O A} (r : result A) : M O A := fun w => (r, w).

(** [self.name] for an attribute that may not have been assigned yet. *)
Definition getattr {O A} (name : string) (field : O -> option A) : M O A :=
  fun w =>
    match field (self w) with
    | Some a => (Ok a, w)
    | None => (Err (AttributeError name), w)
    end.

(** [self.name] for an attribute every constructor assigns. *)
Definition attr {O A} (field : O -> A) : M O A :=
  fun w => (Ok (field (self w)), w).

(** [self.name = v]. *)
Definition setattr {O} (upd : O -> O) : M O unit :=
  fun w => (Ok tt, World (upd (self w)) (rng w)).

(** Take the next [n] variates off the generator. *)
Definition draw {O} (n : nat) : M O (list R) :=
  fun w => (Ok (map (rng w) (seq 0 n)),
            World (self w) (fun i => rng w (n + i)%nat)).

(** Run a computation that only needs the generator. *)
Definition with_rng {O A} (f : stream -> result A * stream) : M O A :=
  fun w => let (r, g) := f (rng w) in (r, World (self w) g).

(** [m] changes the object only along the relation [R], whether it returns
    or raises. *)
Definition preserves {O A} (R : O -> O -> Prop) (m : M O A) : Prop :=
  forall w r w', m w = (r, w') -> R (self w) (self w').

(** [m] leaves the object and the generator as they are, whether it returns
    or raises. *)
Definition read_only {O A} (m : M O A) : Prop :=
  forall w, snd (m w) = w.

(** [m] neither looks at nor changes the object and the generator: it has
    one outcome. *)
Definition pure_action {O A} (m : M O A) : Prop :=
  exists r, forall w, m w = (r, w).

(* ===================================================================== *)
(** * The tensor engine *)
(* ===================================================================== *)

Module Torch.

Open Scope R_scope.

(** A dense tensor: its sizes and its entries in row-major order. *)
Record tensor : Type := Tensor { shape : list nat; data : list R }.

Definition numel (s : list nat) : nat := fold_right Nat.mul 1%nat s.

Definition well_formed (t : tensor) : Prop :=
  length (data t) = numel (shape t).

Fixpoint shape_eqb (s1 s2 : list nat) : bool :=
  match s1, s2 with
  | [], [] => true
  | a :: r1, b :: r2 => Nat.eqb a b && shape_eqb r1 r2
  | _, _ => false
  end.

(** Entry [j] of a 1-D tensor and entry [(i, j)] of a 2-D tensor with
    [cols] columns. *)
Definition get1 (t : tensor) (j : nat) : R := nth j (data t) 0.
Definition get2 (t : tensor) (cols i j : nat) : R :=
  nth (i * cols + j) (data t) 0.

(** A size argument must be a non-negative [int]. *)
Definition as_size (v : pyval) : result nat :=
  match v with
  | PyInt z => if (z <? 0)%Z then Err RuntimeError else Ok (Z.to_nat z)
  | _ => Err TypeError
  end.

(** [torch.zeros] applied to a list of sizes. *)
Definition zeros (sizes : list pyval) : result tensor :=
  rbind (rmapM as_size sizes)
        (fun s => Ok (Tensor s (repeat 0 (numel s)))).

(** [torch.normal(means, std=std)]: one variate per entry, scaled by
    [std] and shifted by the entry of [means]. *)
Definition normal {O} (means : tensor) (std : R) : M O tensor :=
  z <- draw (length (data means)) ;;
  ret (Tensor (shape means)
              (map (fun mz => fst mz + std * snd mz) (combine (data means) z))).

(** Unary elementwise operations. *)
Definition pointwise (f : R -> R) (t : tensor) : tensor :=
  Tensor (shape t) (map f (data t)).

Definition texp : tensor -> tensor := pointwise exp.
Definition log1p : tensor -> tensor := pointwise (fun x => ln (1 + x)).
Definition tlog : tensor -> tensor := pointwise ln.
Definition tneg : tensor -> tensor := pointwise Ropp.

(** Binary elementwise operations: both operands have the same sizes. *)
Definition pointwise2 (f : R -> R -> R) (a b : tensor) : result tensor :=
  if shape_eqb (shape a) (shape b)
  then Ok (Tensor (shape a)
                  (map (fun xy => f (fst xy) (snd xy)) (combine (data a) (data b))))
  else Err RuntimeError.

Definition add : tensor -> tensor -> result tensor := pointwise2 Rplus.
Definition sub : tensor -> tensor -> result tensor := pointwise2 Rminus.
Definition mul : tensor -> tensor -> result tensor := pointwise2 Rmult.
Definition div : tensor -> tensor -> result tensor := pointwise2 Rdiv.

Definition rsum (l : list R) : R := fold_right Rplus 0 l.

(** [a @ b] for two matrices. *)
Definition matmul (a b : tensor) : result tensor :=
  match shape a, shape b with
  | [n; k], [k'; m] =>
      if Nat.eqb k k'
      then Ok (Tensor [n; m]
             (flat_map (fun i =>
                map (fun j =>
                  rsum (map (fun l => get2 a k i l * get2 b m l j) (seq 0 k)))
                  (seq 0 m))
                (seq 0 n)))
      else Err RuntimeError
  | _, _ => Err RuntimeError
  end.

(** [v.expand_as(target)] for a vector [v] and a matrix [target]: the
    vector is repeated along the rows; a one-entry vector is repeated
    along the columns as well. *)
Definition expand_as (v target : tensor) : result tensor :=
  match shape v, shape target with
  | [u], [n; m] =>
      if Nat.eqb u m
      then Ok (Tensor [n; m] (flat_map (fun _ => data v) (seq 0 n)))
      else if Nat.eqb u 1
      then Ok (Tensor [n; m] (repeat (get1 v 0) (n * m)))
      else Err RuntimeError
  | s, s' => if shape_eqb s s' then Ok v else Err RuntimeError
  end.

(** [t.mean()]. *)
Definition mean (t : tensor) : R :=
  rsum (data t) / INR (length (data t)).

(** ** Broadcasting *)

(** Two sizes go together when they are equal or one of them is 1. *)
Definition broadcast_dim (a b : nat) : option nat :=
  if Nat.eqb a b then Some a
  else if Nat.eqb a 1 then Some b
  else if Nat.eqb b 1 then Some a
  else None.

(** Sizes are aligned at the last dimension: [s] and [t] are given last
    dimension first, and a dimension that one side lacks is taken from
    the other. *)
Fixpoint broadcast_rev (s t : list nat) : option (list nat) :=
  match s, t with
  | [], _ => Some t
  | _, [] => Some s
  | a :: s', b :: t' =>
      match broadcast_dim a b, broadcast_rev s' t' with
      | Some c, Some r => Some (c :: r)
      | _, _ => None
      end
  end.

(** The sizes of the result of an elementwise operation on operands of
    sizes [s] and [t], when they go together. *)
Definition broadcast_shapes (s t : list nat) : option (list nat) :=
  option_map (@rev nat) (broadcast_rev (rev s) (rev t)).

(** The row-major position, in a tensor of sizes [s], of the entry that
    position [i] of its expansion to sizes [t] shows: along a dimension of
    size 1, and along one that [s] lacks, the same entry is repeated.
    Sizes are given last dimension first; [stride] is the distance of two
    neighbours along the current dimension of [s]. *)
Fixpoint source_rev (s t : list nat) (i stride : nat) : nat :=
  match s, t with
  | a :: s', b :: t' =>
      ((if Nat.eqb a 1 then 0 else (i mod b) * stride)
       + source_rev s' t' (i / b) (stride * a))%nat
  | _, _ => 0%nat
  end.

(** The entries of a tensor of sizes [s] and entries [d], expanded to
    sizes [t]. *)
Definition expand (s t : list nat) (d : list R) : list R :=
  map (fun i => nth (source_rev (rev s) (rev t) i 1) d 0) (seq 0 (numel t)).

(** Binary elementwise operations on operands whose sizes go together;
    on operands of the same sizes this is [pointwise2]. *)
Definition broadcast2 (f : R -> R -> R) (a b : tensor) : result tensor :=
  match broadcast_shapes (shape a) (shape b) with
  | Some s =>
      Ok (Tensor s (map (fun xy => f (fst xy) (snd xy))
                        (combine (expand (shape a) s (data a))
                                 (expand (shape b) s (data b)))))
  | None => Err RuntimeError
  end.

End Torch.
Export Torch.

(* ===================================================================== *)
(** * aorun/layers.py *)
(* ===================================================================== *)

(** An initializer takes [(shape, fan_in, fan_out)] and returns the
    initialized tensor; it may use the generator and it may raise. *)
Definition initializer : Type :=
  list pyval -> pyval -> pyval -> stream -> result tensor * stream.

Module Layer.

(** Modelled from the spec: [utils.to_variable] is not part of the
    sources at hand; the forward pass takes and returns a tensor, so the
    conversion of the argument is the identity on tensor values. *)
Definition to_variable (X : tensor) : tensor := X.

(** [Layer.forward]. *)
Definition forward {O} (X : tensor) : M O tensor :=
  ret (to_variable X).

End Layer.

Module Dense.
Section WithLinear.

Open Scope string_scope.

(** [torch.nn.Linear], an external collaborator: the type of its
    instances and its constructor. *)
Variable Linear : Type.
Variable TorchDense : pyval -> pyval -> stream -> result Linear * stream.

Record t : Type := Obj {
  input_dim : pyval;
  init : initializer;
  units : pyval;
  output_dim : pyval;
  layer : option Linear
}.

Definition set_input_dim (v : pyval) (o : t) : t :=
  Obj v (init o) (units o) (output_dim o) (layer o).
Definition set_layer (v : option Linear) (o : t) : t :=
  Obj (input_dim o) (init o) (units o) (output_dim o) v.

(** [Dense.build]. *)
Definition build (input_dim_arg : pyval) : M t unit :=
  (if type_is_int input_dim_arg then ret tt else raise AssertionError) ;;;
  setattr (set_input_dim input_dim_arg) ;;;
  d <- attr input_dim ;;
  u <- attr units ;;
  lin <- with_rng (TorchDense d u) ;;
  setattr (set_layer (Some lin)).

(** [torch.nn.Linear.parameters] and [torch.nn.Linear.forward]. *)
Variable linear_parameters : Linear -> list tensor.
Variable linear_forward : Linear -> tensor -> result tensor.

(** [Dense.__init__], after the initializer name has been resolved to
    the function [init_fn]. *)
Definition __init__ (units_arg : pyval) (init_fn : initializer)
           (input_dim_arg : pyval) (g : stream) : result t * stream :=
  let o := Obj input_dim_arg init_fn units_arg units_arg None in
  if truthy (input_dim o)
  then match build (input_dim o) (World o g) with
       | (Ok _, w) => (Ok (self w), rng w)
       | (Err e, w) => (Err e, rng w)
       end
  else (Ok o, g).

(** The [params] property. *)
Definition params : M t (list tensor) :=
  lin <- getattr "layer" layer ;;
  ret (linear_parameters lin).

(** [Dense.forward]. *)
Definition forward (X0 : tensor) : M t tensor :=
  X <- Layer.forward X0 ;;
  lin <- getattr "layer" layer ;;
  lift (linear_forward lin X).

End WithLinear.
End Dense.

Module ProbabilisticDense.

Open Scope string_scope.

Record t : Type := Obj {
  input_dim : pyval;
  init : initializer;
  units : pyval;
  output_dim : pyval;
  W_mu : option tensor;
  W_rho : option tensor;
  b_mu : option tensor;
  b_rho : option tensor;
  W : option tensor;
  b : option tensor
}.

Definition set_input_dim (v : pyval) (o : t) : t :=
  Obj v (init o) (units o) (output_dim o)
      (W_mu o) (W_rho o) (b_mu o) (b_rho o) (W o) (b o).
Definition set_W_mu (v : option tensor) (o : t) : t :=
  Obj (input_dim o) (init o) (units o) (output_dim o)
      v (W_rho o) (b_mu o) (b_rho o) (W o) (b o).
Definition set_W_rho (v : option tensor) (o : t) : t :=
  Obj (input_dim o) (init o) (units o) (output_dim o)
      (W_mu o) v (b_mu o) (b_rho o) (W o) (b o).
Definition set_b_mu (v : option tensor) (o : t) : t :=
  Obj (input_dim o) (init o) (units o) (output_dim o)
      (W_mu o) (W_rho o) v (b_rho o) (W o) (b o).
Definition set_b_rho (v : option tensor) (o : t) : t :=
  Obj (input_dim o) (init o) (units o) (output_dim o)
      (W_mu o) (W_rho o) (b_mu o) v (W o) (b o).
Definition set_W (v : option tensor) (o : t) : t :=
  Obj (input_dim o) (init o) (units o) (output_dim o)
      (W_mu o) (W_rho o) (b_mu o) (b_rho o) v (b o).
Definition set_b (v : option tensor) (o : t) : t :=
  Obj (input_dim o) (init o) (units o) (output_dim o)
      (W_mu o) (W_rho o) (b_mu o) (b_rho o) (W o) v.

(** The [params] property. *)
Definition params : M t (list tensor) :=
  wm <- getattr "W_mu" W_mu ;;
  wr <- getattr "W_rho" W_rho ;;
  bm <- getattr "b_mu" b_mu ;;
  br <- getattr "b_rho" b_rho ;;
  ret [wm; wr; bm; br].

(** [self.init(shape, self.input_dim, self.output_dim)]. *)
Definition call_init (shp : list pyval) : M t tensor :=
  f <- attr init ;;
  d <- attr input_dim ;;
  o <- attr output_dim ;;
  with_rng (f shp d o).

(** [ProbabilisticDense.build]. *)
Definition build (input_dim_arg : pyval) : M t unit :=
  setattr (set_input_dim input_dim_arg) ;;;
  d <- attr input_dim ;;
  o <- attr output_dim ;;
  let W_shape := [d; o] in
  o' <- attr output_dim ;;
  let b_shape := [o'] in
  wm <- call_init W_shape ;;
  setattr (set_W_mu (Some wm)) ;;;
  wr <- call_init W_shape ;;
  setattr (set_W_rho (Some wr)) ;;;
  bm <- call_init b_shape ;;
  setattr (set_b_mu (Some bm)) ;;;
  br <- call_init b_shape ;;
  setattr (set_b_rho (Some br)).

(** [ProbabilisticDense.__init__], after the initializer name has been
    resolved to the function [init_fn]. *)
Definition __init__ (units_arg : pyval) (init_fn : initializer)
           (input_dim_arg : pyval) (g : stream) : result t * stream :=
  let o := Obj input_dim_arg init_fn units_arg units_arg
               None None None None None None in
  if truthy (input_dim o)
  then match build (input_dim o) (World o g) with
       | (Ok _, w) => (Ok (self w), rng w)
       | (Err e, w) => (Err e, rng w)
       end
  else (Ok o, g).

(** The fixed scale of the noise, [math.exp(-3)]. *)
Definition sigma_prior : R := exp (- 3).

(** [mu + torch.log1p(torch.exp(rho)) * eps]. *)
Definition reparameterize (mu rho eps : tensor) : result tensor :=
  rbind (mul (log1p (texp rho)) eps) (fun s => add mu s).

(** [ProbabilisticDense.forward]. *)
Definition forward (X0 : tensor) : M t tensor :=
  X <- Layer.forward X0 ;;
  d <- attr input_dim ;;
  o <- attr output_dim ;;
  W_zero <- lift (zeros [d; o]) ;;
  W_eps <- normal W_zero sigma_prior ;;
  wm <- getattr "W_mu" W_mu ;;
  wr <- getattr "W_rho" W_rho ;;
  Wv <- lift (reparameterize wm wr W_eps) ;;
  setattr (set_W (Some Wv)) ;;;
  o' <- attr output_dim ;;
  b_zero <- lift (zeros [o']) ;;
  b_eps <- normal b_zero sigma_prior ;;
  bm <- getattr "b_mu" b_mu ;;
  br <- getattr "b_rho" b_rho ;;
  bv <- lift (reparameterize bm br b_eps) ;;
  setattr (set_b (Some bv)) ;;;
  XW <- lift (matmul X Wv) ;;
  be <- lift (expand_as bv XW) ;;
  lift (add XW be).

End ProbabilisticDense.

(* ===================================================================== *)
(** * The loss helpers *)
(* ===================================================================== *)

Module Losses.

Open Scope R_scope.
Open Scope string_scope.

(** An argument of the density helper: a tensor, or a Python number,
    which goes with a tensor of any sizes. *)
Inductive operand : Type :=
| Full (t : tensor)
| Scalar (r : R).

Definition as_tensor (a : operand) : tensor :=
  match a with
  | Full t => t
  | Scalar r => Tensor [] [r]
  end.

(** The sizes of the result of an elementwise operation on three
    operands. *)
Definition broadcast3 (s1 s2 s3 : list nat) : option (list nat) :=
  match broadcast_shapes s1 s2 with
  | Some s => broadcast_shapes s s3
  | None => None
  end.

(** The log-density of [Normal(mu, sigma)] at [x]. *)
Definition gaussian_logpdf (x mu sigma : R) : R :=
  - ln sigma - 0.5 * ln (2 * PI) - (x - mu) ^ 2 / (2 * sigma ^ 2).

(** Modelled from the spec: [log_gaussian] of [aorun/losses.py], which is
    not part of the sources at hand.  Section 4.2 of the specification: a
    pure function of a value tensor, a mean and a standard deviation that
    are broadcast-compatible, computing the log-density elementwise and
    producing a tensor of the broadcast shape. *)
Definition log_gaussian (x : tensor) (mu sigma : operand) : result tensor :=
  let m := as_tensor mu in
  let sg := as_tensor sigma in
  match broadcast3 (shape x) (shape m) (shape sg) with
  | Some s =>
      Ok (Tensor s
            (map (fun xms =>
                    gaussian_logpdf (fst xms) (fst (snd xms)) (snd (snd xms)))
                 (combine (expand (shape x) s (data x))
                    (combine (expand (shape m) s (data m))
                             (expand (shape sg) s (data sg))))))
  | None => Err RuntimeError
  end.

(** Modelled from the spec: the [Model] container of [aorun/models.py],
    which is not part of the sources at hand.  To the loss it is the
    enumeration of its layers, each one either a Bayesian layer or a
    conventional layer of some other kind. *)
Inductive layer (Other : Type) : Type :=
| Bayesian (l : ProbabilisticDense.t)
| Conventional (o : Other).
Arguments Bayesian {Other} l.
Arguments Conventional {Other} o.

Definition model (Other : Type) : Type := list (layer Other).

(** The standard deviation of the fixed prior. *)
Definition prior_sigma : R := exp (- 3).

(** The sign adjustment of the data term: the loss is minimized, the
    likelihood is maximized. *)
Definition data_term (log_lik : R) : R := - log_lik.

(** An attribute of a layer of the model that must have been assigned. *)
Definition slot {O} (name : string) (o : option tensor) : M O tensor :=
  match o with
  | Some v => ret v
  | None => raise (AttributeError name)
  end.

(** The contribution of one sampled tensor: posterior log-density minus
    prior log-density at the sample, reduced by the mean. *)
Definition tensor_term (sample mu rho : tensor) : result R :=
  rbind (log_gaussian sample (Full mu) (Full (log1p (texp rho)))) (fun post =>
  rbind (log_gaussian sample (Scalar 0) (Scalar prior_sigma)) (fun prior =>
  rbind (sub post prior) (fun diff =>
  Ok (mean diff)))).

Definition layer_term {O} (l : ProbabilisticDense.t) : M O R :=
  Wv <- slot "W" (ProbabilisticDense.W l) ;;
  wm <- slot "W_mu" (ProbabilisticDense.W_mu l) ;;
  wr <- slot "W_rho" (ProbabilisticDense.W_rho l) ;;
  tW <- lift (tensor_term Wv wm wr) ;;
  bv <- slot "b" (ProbabilisticDense.b l) ;;
  bm <- slot "b_mu" (ProbabilisticDense.b_mu l) ;;
  br <- slot "b_rho" (ProbabilisticDense.b_rho l) ;;
  tb <- lift (tensor_term bv bm br) ;;
  ret (tW + tb).

Fixpoint complexity {O Other} (ls : list (layer Other)) (acc : R) : M O R :=
  match ls with
  | [] => ret acc
  | Bayesian l :: rest => c <- layer_term l ;; complexity rest (acc + c)
  | Conventional _ :: rest => complexity rest acc
  end.

(** Modelled from the spec: [variational_loss] of [aorun/losses.py], which
    is not part of the sources at hand.  Section 4.3 of the specification:
    the data term is the output of [log_likelihood] on the labels and the
    predictions with its sign adjusted; the complexity term sums, over the
    Bayesian layers of the model and their two sampled tensors, the mean
    of the difference of the two log-densities at the retained sample. *)
Definition variational_loss {Other} (true pred : tensor)
           (log_likelihood : tensor -> tensor -> result R)
  : M (model Other) R :=
  ll <- lift (log_likelihood true pred) ;;
  layers <- attr (fun m : model Other => m) ;;
  kl <- complexity layers 0 ;;
  ret (data_term ll + kl).

(** The Bayesian layers of a model, in order. *)
Definition bayesian_layers {Other} (ls : model Other)
  : list ProbabilisticDense.t :=
  flat_map (fun x => match x with
                     | Bayesian l => [l]
                     | Conventional _ => []
                     end) ls.

End Losses.

(* ===================================================================== *)
(** * The forward pass as the specification words it *)
(* ===================================================================== *)

Module Contract.

Import ProbabilisticDense.
Open Scope R_scope.

(** A layer that [build] has completed for input width [d] and output
    width [u]: the two dimensions are those integers and the four
    parameter tensors exist with the shapes of their roles. *)
Record built (d u : nat) (wm wr bm br : tensor) (l : t) : Prop := Built {
  built_input_dim : input_dim l = PyInt (Z.of_nat d);
  built_output_dim : output_dim l = PyInt (Z.of_nat u);
  built_W_mu : W_mu l = Some wm;
  built_W_rho : W_rho l = Some wr;
  built_b_mu : b_mu l = Some bm;
  built_b_rho : b_rho l = Some br;
  built_W_mu_shape : shape wm = [d; u];
  built_W_rho_shape : shape wr = [d; u];
  built_b_mu_shape : shape bm = [u];
  built_b_rho_shape : shape br = [u];
  built_W_mu_wf : well_formed wm;
  built_W_rho_wf : well_formed wr;
  built_b_mu_wf : well_formed bm;
  built_b_rho_wf : well_formed br
}.

(** [l'] is [l] up to the two retained samples. *)
Definition only_samples (l l' : t) : Prop :=
  exists Wo bo, l' = set_b bo (set_W Wo l).

(** [l2] has the attributes of [l], the two retained samples apart. *)
Definition same_but_samples (l l2 : t) : Prop :=
  input_dim l2 = input_dim l /\ init l2 = init l
  /\ units l2 = units l /\ output_dim l2 = output_dim l
  /\ W_mu l2 = W_mu l /\ W_rho l2 = W_rho l
  /\ b_mu l2 = b_mu l /\ b_rho l2 = b_rho l.

(** An initializer that keeps the sizes it is asked for: whenever it
    returns, the tensor is well formed and has those sizes. *)
Definition shape_respecting (f : initializer) : Prop :=
  forall (s : list nat) (fan_in fan_out : pyval) (g g' : stream) (v : tensor),
    f (map (fun n => PyInt (Z.of_nat n)) s) fan_in fan_out g = (Ok v, g') ->
    shape v = s /\ well_formed v.

(** The noise of one forward call on generator [g]: the first [d * u]
    variates scaled by [exp(-3)] for the weights, the next [u] for the
    bias. *)
Definition noise_W (g : stream) (d u : nat) : tensor :=
  Tensor [d; u] (map (fun k => exp (- 3) * g k) (seq 0 (d * u))).
Definition noise_b (g : stream) (d u : nat) : tensor :=
  Tensor [u] (map (fun k => exp (- 3) * g k) (seq (d * u) u)).

(** The generator after one forward call. *)
Definition after_noise (g : stream) (d u : nat) : stream :=
  fun i => g (d * u + (u + i))%nat.

(** [mu + softplus(rho) * eps], entry by entry. *)
Definition sample (mu rho eps : tensor) : tensor :=
  Tensor (shape mu)
    (map (fun t => fst t + ln (1 + exp (fst (snd t))) * snd (snd t))
         (combine (data mu) (combine (data rho) (data eps)))).

(** [X @ Wv + broadcast(bv)] for [X] of sizes [n, d], [Wv] of sizes
    [d, u] and [bv] of size [u]. *)
Definition affine (n d u : nat) (X Wv bv : tensor) : tensor :=
  Tensor [n; u]
    (flat_map (fun i =>
       map (fun j =>
         rsum (map (fun k => get2 X d i k * get2 Wv u k j) (seq 0 d))
         + get1 bv j)
         (seq 0 u))
       (seq 0 n)).

(** The sizes [Conv2D.build] works with, and the channels it hands to
    the convolution: two sizes get the channel count 1 in front. *)
Definition conv_dims (dims : list Z) : list Z :=
  if (List.length dims =? 2)%nat then 1%Z :: dims else dims.
Definition conv_channels (dims : list Z) : Z :=
  if (List.length dims =? 2)%nat then 1%Z else nth 0 dims 0%Z.

End Contract.

(* ===================================================================== *)
(** * Concrete initializers, generators and layers *)
(* ===================================================================== *)

Module Examples.

Import ProbabilisticDense.
Open Scope R_scope.

(** The initializer that ignores the fans and returns [torch.zeros] of the
    requested sizes. *)
Definition zeros_init : initializer :=
  fun shp _ _ g => (zeros shp, g).

(** [operator.index(v)]: an [int], or a [bool] taken as 0 or 1. *)
Definition index (v : pyval) : result pyval :=
  match v with
  | PyInt z => Ok (PyInt z)
  | PyBool b => Ok (PyInt (if b then 1 else 0))
  | _ => Err TypeError
  end.

(** The initializer that passes each size through [operator.index]
    before it allocates the zero tensor. *)
Definition index_zeros_init : initializer :=
  fun shp _ _ g => (rbind (rmapM index shp) zeros, g).

(** A generator that delivers the variate [1] forever. *)
Definition ones : stream := fun _ => 1.

Definition vec (l : list R) : tensor := Tensor [length l] l.
Definition mat11 (x : R) : tensor := Tensor [1; 1]%nat [x].

(** A layer of input width 1 and output width 1 as [build] leaves it
    with [zeros_init]. *)
Definition unit_layer : t :=
  Obj (PyInt 1) zeros_init (PyInt 1) (PyInt 1)
      (Some (mat11 0)) (Some (mat11 0)) (Some (vec [0])) (Some (vec [0]))
      None None.

(** The same layer as [__init__] leaves it when no input width is
    given. *)
Definition fresh_layer : t :=
  Obj PyNone zeros_init (PyInt 1) (PyInt 1) None None None None None None.

(** A Gaussian log-likelihood of unit scale, summed over the entries. *)
Definition unit_log_likelihood (true pred : tensor) : result R :=
  rbind (Losses.log_gaussian true (Losses.Full pred) (Losses.Scalar 1))
        (fun v => Ok (rsum (data v))).

End Examples.

(* ===================================================================== *)
(** * More exceptions, more of the tensor engine *)
(* ===================================================================== *)

Module PyExt.

(** What a method raises: one of the exceptions above, or one of the two
    other built-in exceptions the remaining layers can run into. *)
Inductive raised : Type :=
| Builtin (e : exn)
| IndexError
| ZeroDivisionError.

Inductive outcome (A : Type) : Type :=
| Returns (a : A)
| Raises (r : raised).
Arguments Returns {A} a.
Arguments Raises {A} r.

(** A method body over the wider exceptions. *)
Definition MX (O A : Type) : Type := world O -> outcome A * world O.

Definition xret {O A} (a : A) : MX O A := fun w => (Returns a, w).

Definition xraise {O A} (r : raised) : MX O A := fun w => (Raises r, w).

Definition xbind {O A B} (m : MX O A) (k : A -> MX O B) : MX O B :=
  fun w =>
    match m w with
    | (Returns a, w') => k a w'
    | (Raises r, w') => (Raises r, w')
    end.

(** A body of the narrower monad, run as it is. *)
Definition call {O A} (m : M O A) : MX O A :=
  fun w =>
    match m w with
    | (Ok a, w') => (Returns a, w')
    | (Err e, w') => (Raises (Builtin e), w')
    end.

(** [seq[i]] on a Python sequence of integers, for [i >= 0]. *)
Definition index {O} (l : list Z) (i : nat) : MX O Z :=
  match nth_error l i with
  | Some z => xret z
  | None => xraise IndexError
  end.

(** [a / s] on two integers: the true division of Python 3, whose
    result is a float; here the exact quotient. *)
Definition true_div {O} (a s : Z) : MX O Q :=
  if (s =? 0)%Z then xraise ZeroDivisionError
  else xret (inject_Z a / inject_Z s)%Q.

End PyExt.
Export PyExt.

Declare Scope pyx_scope.
Delimit Scope pyx_scope with pyx.
Notation "x <- m ;; k" := (xbind m (fun x => k))
  (at level 61, m at next level, right associativity) : pyx_scope.
Notation "m ;;; k" := (xbind m (fun _ => k))
  (at level 61, right associativity) : pyx_scope.

Module Tensors.

Open Scope R_scope.

(** How many sizes are [-1], and the product of the other ones. *)
Definition holes (sizes : list Z) : nat :=
  List.length (filter (fun z => (z =? -1)%Z) sizes).
Definition known_product (sizes : list Z) : Z :=
  fold_right Z.mul 1%Z (filter (fun z => negb (z =? -1)%Z) sizes).

(** [t.view(sizes...)]: the same entries in the same order under other
    sizes with the same number of entries; one size may be [-1] and is
    then inferred. *)
Definition view (t : tensor) (sizes : list Z) : result tensor :=
  let n := Z.of_nat (numel (shape t)) in
  let p := known_product sizes in
  if existsb (fun z => (z <? -1)%Z) sizes then Err RuntimeError
  else match holes sizes with
       | O =>
           if (p =? n)%Z
           then Ok (Tensor (map Z.to_nat sizes) (data t))
           else Err RuntimeError
       | S O =>
           if (p =? 0)%Z then Err RuntimeError
           else if (n mod p =? 0)%Z
           then Ok (Tensor (map (fun z => if (z =? -1)%Z
                                          then Z.to_nat (n / p)
                                          else Z.to_nat z) sizes)
                           (data t))
           else Err RuntimeError
       | _ => Err RuntimeError
       end.

(** [t.size(i)] for [i >= 0]. *)
Definition size_at {O} (t : tensor) (i : nat) : MX O nat :=
  match nth_error (shape t) i with
  | Some n => xret n
  | None => xraise IndexError
  end.

(** [torch.Tensor(sizes...)] followed by [fill_(v)]; without sizes the
    constructor gives the empty tensor, which has the one size 0. *)
Definition full (sizes : list nat) (v : R) : tensor :=
  match sizes with
  | [] => Tensor [0%nat] []
  | _ :: _ => Tensor sizes (repeat v (numel sizes))
  end.

Definition is_probability (p : R) : bool :=
  if Rle_dec 0 p then (if Rle_dec p 1 then true else false) else false.

(** [torch.bernoulli(probs)]: every entry of [probs] must lie in
    [0, 1]; entry [i] of the result is 1 when the variate the generator
    delivers for it, read as uniform on [0, 1), is below [probs_i], and
    0 otherwise. *)
Definition bernoulli {O} (probs : tensor) : M O tensor :=
  if forallb is_probability (data probs)
  then u <- draw (List.length (data probs)) ;;
       ret (Tensor (shape probs)
              (map (fun pu => if Rlt_dec (snd pu) (fst pu) then 1 else 0)
                   (combine (data probs) u)))
  else raise RuntimeError.

End Tensors.
Export Tensors.

(* ===================================================================== *)
(** * aorun/layers.py, the other layers *)
(* ===================================================================== *)

Module Dropout.

Open Scope string_scope.

Record t : Type := Obj {
  input_dim : pyval;
  init : initializer;
  p : R;
  output_dim : option pyval
}.

Definition set_output_dim (v : option pyval) (o : t) : t :=
  Obj (input_dim o) (init o) (p o) v.

(** [Dropout.__init__]. *)
Definition __init__ (p_arg : R) (init_fn : initializer) (input_dim_arg : pyval)
  : t :=
  Obj input_dim_arg init_fn p_arg None.

(** [Layer.build], which the class inherits. *)
Definition build (input_dim_arg : pyval) : M t unit :=
  setattr (set_output_dim (Some input_dim_arg)).

(** [Dropout.forward]. *)
Definition forward (X0 : tensor) : M t tensor :=
  X <- Layer.forward X0 ;;
  prob <- attr p ;;
  let eps := full (shape X) prob in
  mask <- bernoulli eps ;;
  lift (broadcast2 Rmult X mask).

End Dropout.

Module Recurrent.
Section WithRNN.

Open Scope string_scope.

(** [torch.nn.RNN], an external collaborator: its instances, the hidden
    states it returns, its constructor and its [forward], whose last
    argument is the initial hidden state or [None]. *)
Variable RNN : Type.
Variable Hidden : Type.
Variable TorchRecurrent :
  pyval -> pyval -> pyval -> stream -> result RNN * stream.
Variable rnn_forward : RNN -> tensor -> option Hidden -> result (tensor * Hidden).

Record t : Type := Obj {
  input_dim : pyval;
  init : initializer;
  units : pyval;
  length : pyval;
  output_dim : list pyval;
  stateful : bool;
  states : option Hidden;
  layer : option RNN
}.

Definition set_input_dim (v : pyval) (o : t) : t :=
  Obj v (init o) (units o) (length o) (output_dim o) (stateful o)
      (states o) (layer o).
Definition set_states (v : option Hidden) (o : t) : t :=
  Obj (input_dim o) (init o) (units o) (length o) (output_dim o) (stateful o)
      v (layer o).
Definition set_layer (v : option RNN) (o : t) : t :=
  Obj (input_dim o) (init o) (units o) (length o) (output_dim o) (stateful o)
      (states o) v.

(** [Recurrent.build]. *)
Definition build (input_dim_arg : pyval) : M t unit :=
  setattr (set_input_dim input_dim_arg) ;;;
  d <- attr input_dim ;;
  u <- attr units ;;
  n <- attr length ;;
  rnn <- with_rng (TorchRecurrent d u n) ;;
  setattr (set_layer (Some rnn)).

(** [Recurrent.__init__]: the layer is built unless [input_dim] is
    [None]. *)
Definition __init__ (units_arg length_arg : pyval) (stateful_arg : bool)
           (init_fn : initializer) (input_dim_arg : pyval) (g : stream)
  : result t * stream :=
  let o := Obj input_dim_arg init_fn units_arg length_arg
               [length_arg; units_arg] stateful_arg None None in
  match input_dim o with
  | PyNone => (Ok o, g)
  | d => match build d (World o g) with
         | (Ok _, w) => (Ok (self w), rng w)
         | (Err e, w) => (Err e, rng w)
         end
  end.

(** [Recurrent.clear_states]. *)
Definition clear_states : M t unit :=
  setattr (set_states None).

(** [Recurrent.forward]. *)
Definition forward (X0 : tensor) : M t tensor :=
  X <- Layer.forward X0 ;;
  st <- attr stateful ;;
  s <- attr states ;;
  if st && match s with Some _ => true | None => false end
  then rnn <- getattr "layer" layer ;;
       s' <- attr states ;;
       r <- lift (rnn_forward rnn X s') ;;
       setattr (set_states (Some (snd r))) ;;;
       ret (fst r)
  else rnn <- getattr "layer" layer ;;
       r <- lift (rnn_forward rnn X None) ;;
       setattr (set_states (Some (snd r))) ;;;
       ret (fst r).

End WithRNN.
End Recurrent.

Module Flatten.
Section WithNumpy.

Open Scope string_scope.
Open Scope pyx_scope.

(** [int(np.prod(dims))], computed by an external library in its own
    integer arithmetic. *)
Variable np_prod : list Z -> Z.

Record t : Type := Obj {
  input_dim : option (list Z);
  init : initializer;
  output_dim : option Z
}.

Definition set_input_dim (v : option (list Z)) (o : t) : t :=
  Obj v (init o) (output_dim o).
Definition set_output_dim (v : option Z) (o : t) : t :=
  Obj (input_dim o) (init o) v.

(** [Flatten.__init__]: it never builds. *)
Definition __init__ (init_fn : initializer) (input_dim_arg : option (list Z))
  : t :=
  Obj input_dim_arg init_fn None.

(** [Flatten.build]. *)
Definition build (dims : list Z) : M t unit :=
  (setattr (set_input_dim (Some dims)) ;;;
   setattr (set_output_dim (Some (np_prod dims))))%py.

(** [Flatten.forward]. *)
Definition forward (X0 : tensor) : MX t tensor :=
  X <- call (Layer.forward X0) ;;
  n <- match shape X with
       | n :: _ => xret n
       | [] => xraise IndexError
       end ;;
  m <- call (getattr "output_dim" output_dim) ;;
  call (lift (view X [Z.of_nat n; m])).

End WithNumpy.
End Flatten.

Module Conv2D.
Section WithConv.

Open Scope string_scope.
Open Scope pyx_scope.

(** [torch.nn.Conv2d], an external collaborator: its instances, its
    constructor on [(in_channels, filters, kernel_size, stride)] and its
    [forward]. *)
Variable Conv : Type.
Variable TorchConv2D :
  Z -> Z -> list Z -> Z -> stream -> result Conv * stream.
Variable conv_forward : Conv -> tensor -> result tensor.

Record t : Type := Obj {
  input_dim : option (list Z);
  init : initializer;
  filters : Z;
  kernel_size : list Z;
  stride : Z;
  output_dim : option (list pyval);
  layer : option Conv
}.

Definition set_input_dim (v : option (list Z)) (o : t) : t :=
  Obj v (init o) (filters o) (kernel_size o) (stride o) (output_dim o) (layer o).
Definition set_output_dim (v : option (list pyval)) (o : t) : t :=
  Obj (input_dim o) (init o) (filters o) (kernel_size o) (stride o) v (layer o).
Definition set_layer (v : option Conv) (o : t) : t :=
  Obj (input_dim o) (init o) (filters o) (kernel_size o) (stride o)
      (output_dim o) v.

(** [(a - k) / s + 1], a float. *)
Definition out_size (a k s : Z) : MX t Q :=
  q <- true_div (a - k) s ;;
  xret (q + 1)%Q.

(** [Conv2D.build]. *)
Definition build (input_dim_arg : list Z) : MX t unit :=
  (if (2 <=? List.length input_dim_arg)%nat
   then xret tt else xraise (Builtin AssertionError)) ;;;
  let in_channels :=
    if (List.length input_dim_arg =? 2)%nat then 1%Z
    else nth 0 input_dim_arg 0%Z in
  let dims :=
    if (List.length input_dim_arg =? 2)%nat then 1%Z :: input_dim_arg
    else input_dim_arg in
  call (setattr (set_input_dim (Some dims))) ;;;
  k <- call (attr kernel_size) ;;
  k0 <- index k 0 ;;
  s <- call (attr stride) ;;
  d1 <- out_size (nth 1 dims 0%Z) k0 s ;;
  k' <- call (attr kernel_size) ;;
  k1 <- index k' 1 ;;
  s' <- call (attr stride) ;;
  d2 <- out_size (nth 2 dims 0%Z) k1 s' ;;
  f <- call (attr filters) ;;
  call (setattr (set_output_dim (Some [PyInt f; PyFloat d1; PyFloat d2]))) ;;;
  f' <- call (attr filters) ;;
  ks <- call (attr kernel_size) ;;
  st <- call (attr stride) ;;
  conv <- call (with_rng (TorchConv2D in_channels f' ks st)) ;;
  call (setattr (set_layer (Some conv))).

(** [Conv2D.__init__]: the layer is built unless [input_dim] is
    [None]. *)
Definition __init__ (filters_arg : Z) (kernel_size_arg : list Z)
           (stride_arg : Z) (init_fn : initializer)
           (input_dim_arg : option (list Z)) (g : stream)
  : outcome t * stream :=
  let o := Obj input_dim_arg init_fn filters_arg kernel_size_arg stride_arg
               None None in
  match input_dim o with
  | None => (Returns o, g)
  | Some dims => match build dims (World o g) with
                 | (Returns _, w) => (Returns (self w), rng w)
                 | (Raises r, w) => (Raises r, rng w)
                 end
  end.

(** [Conv2D.forward]. *)
Definition forward (X0 : tensor) : M t tensor :=
  (X <- Layer.forward X0 ;;
   d <- attr input_dim ;;
   match d with
   | None => raise TypeError
   | Some dims =>
       X' <- lift (view X ((-1)%Z :: dims)) ;;
       conv <- getattr "layer" layer ;;
       lift (conv_forward conv X')
   end)%py.

End WithConv.
End Conv2D.

Module TimeDistributed.
Section WithInner.

Open Scope pyx_scope.

(** The wrapped layer: its state, the argument its [build] takes and
    its three methods. *)
Variable L : Type.
Variable D : Type.
Variable inner_params : MX L (list tensor).
Variable inner_build : D -> MX L unit.
Variable inner_forward : tensor -> MX L tensor.

Record t : Type := Obj { layer : L }.

(** A method of the wrapped layer, called through [self.layer]. *)
Definition on_layer {A} (m : MX L A) : MX t A :=
  fun w =>
    let (r, w') := m (World (layer (self w)) (rng w)) in
    (r, World (Obj (self w')) (rng w')).

(** The [params] property. *)
Definition params : MX t (list tensor) :=
  on_layer inner_params.

(** [TimeDistributed.build]. *)
Definition build (input_dim : list D) : MX t unit :=
  match input_dim with
  | [_; dim] => on_layer (inner_build dim)
  | _ => xraise (Builtin ValueError)
  end.

(** [TimeDistributed.forward]. *)
Definition forward (X : tensor) : MX t tensor :=
  match shape X with
  | [batch_size; length; dim] =>
      X' <- call (lift (view X [Z.of_nat (batch_size * length); Z.of_nat dim])) ;;
      out <- on_layer (inner_forward X') ;;
      u <- size_at out 1 ;;
      call (lift (view out [Z.of_nat batch_size; Z.of_nat length; Z.of_nat u]))
  | _ => xraise (Builtin ValueError)
  end.

End WithInner.
End TimeDistributed.

(* ===================================================================== *)
(** * Single-precision arithmetic *)
(* ===================================================================== *)

(** The tensors of the layer hold single-precision floats.  Where a
    property depends on rounding, the two operations of the scale,
    [torch.exp] and [torch.log1p], are taken as the exact result rounded
    to the nearest single-precision value, ties to even: 24 significant
    bits, smallest positive value [2^-149], overflow to infinity from
    [2^128] on. *)
Module Float32.

Open Scope R_scope.

Inductive f32 : Type :=
| Finite (r : R)
| PosInf
| NegInf
| NaN.

(** [2^k]. *)
Definition pow2 (k : Z) : R := Rpower 2 (IZR k).

(** The nearest integer, ties to the even one. *)
Definition nearest_even (t : R) : Z :=
  let f := Int_part t in
  if Rlt_dec (t - IZR f) (1 / 2) then f
  else if Rlt_dec (1 / 2) (t - IZR f) then (f + 1)%Z
  else if Z.even f then f else (f + 1)%Z.

(** The exponent of the binade of [y], not below that of the smallest
    normal value, and the spacing of the floats in it. *)
Definition binade (y : R) : Z :=
  Z.max (Int_part (ln (Rabs y) / ln 2)) (-126).
Definition quantum (y : R) : R := pow2 (binade y - 23).

(** Rounding to nearest. *)
Definition round (y : R) : f32 :=
  if Req_dec_T y 0 then Finite 0
  else
    let r := IZR (nearest_even (y / quantum y)) * quantum y in
    if Rle_dec (pow2 128) r then PosInf
    else if Rle_dec r (- pow2 128) then NegInf
    else Finite r.

(** [torch.exp] on one entry. *)
Definition exp32 (x : f32) : f32 :=
  match x with
  | Finite r => round (exp r)
  | PosInf => PosInf
  | NegInf => Finite 0
  | NaN => NaN
  end.

(** [torch.log1p] on one entry. *)
Definition log1p32 (x : f32) : f32 :=
  match x with
  | Finite r =>
      if Rlt_dec r (- 1) then NaN
      else if Req_dec_T r (- 1) then NegInf
      else round (ln (1 + r))
  | PosInf => PosInf
  | NegInf => NaN
  | NaN => NaN
  end.

(** [torch.log1p(torch.exp(rho))] on one entry, as in
    [ProbabilisticDense.forward]. *)
Definition softplus32 (rho : f32) : f32 := log1p32 (exp32 rho).

End Float32.

(* ===================================================================== *)
(** * Facts about the monad *)
(* ===================================================================== *)

Section Preservation.

Variable O : Type.
Variable R : O -> O -> Prop.
Hypothesis R_refl : forall o, R o o.
Hypothesis R_trans : forall o1 o2 o3, R o1 o2 -> R o2 o3 -> R o1 o3.

Lemma preserves_ret A (a : A) : preserves R (ret (O := O) a).
Proof. intros w r w' H. injection H as _ <-. apply R_refl. Qed.

Lemma preserves_raise A (e : exn) : preserves R (raise (O := O) (A := A) e).
Proof. intros w r w' H. injection H as _ <-. apply R_refl. Qed.

Lemma preserves_lift A (x : result A) : preserves R (lift (O := O) x).
Proof. intros w r w' H. injection H as _ <-. apply R_refl. Qed.

Lemma preserves_attr A (field : O -> A) : preserves R (attr field).
Proof. intros w r w' H. injection H as _ <-. apply R_refl. Qed.

Lemma preserves_getattr A (name : string) (field : O -> option A) :
  preserves R (getattr name field).
Proof.
  intros w r w' H. unfold getattr in H.
  destruct (field (self w)); injection H as _ <-; apply R_refl.
Qed.

Lemma preserves_draw (n : nat) : preserves R (draw (O := O) n).
Proof. intros w r w' H. injection H as _ <-. apply R_refl. Qed.

Lemma preserves_with_rng A (f : stream -> result A * stream) :
  preserves R (with_rng (O := O) f).
Proof.
  intros w r w' H. unfold with_rng in H.
  destruct (f (rng w)). injection H as _ <-. apply R_refl.
Qed.

Lemma preserves_setattr (upd : O -> O) :
  (forall o, R o (upd o)) -> preserves R (setattr upd).
Proof. intros Hu w r w' H. injection H as _ <-. apply Hu. Qed.

Lemma preserves_bind A B (m : M O A) (k : A -> M O B) :
  preserves R m -> (forall a, preserves R (k a)) -> preserves R (bind m k).
Proof.
  intros Hm Hk w r w' H. unfold bind in H.
  destruct (m w) as [[a | e] w1] eqn:E.
  - apply R_trans with (self w1); [exact (Hm _ _ _ E) | exact (Hk _ _ _ _ H)].
  - injection H as _ <-. exact (Hm _ _ _ E).
Qed.

Lemma preserves_if A (c : bool) (m1 m2 : M O A) :
  preserves R m1 -> preserves R m2 -> preserves R (if c then m1 else m2).
Proof. now destruct c. Qed.

End Preservation.

Section ReadOnly.

Variable O : Type.

Lemma read_only_ret A (a : A) : read_only (ret (O := O) a).
Proof. intros w. reflexivity. Qed.

Lemma read_only_raise A (e : exn) : read_only (raise (O := O) (A := A) e).
Proof. intros w. reflexivity. Qed.

Lemma read_only_lift A (x : result A) : read_only (lift (O := O) x).
Proof. intros w. reflexivity. Qed.

Lemma read_only_attr A (field : O -> A) : read_only (attr field).
Proof. intros w. reflexivity. Qed.

Lemma read_only_bind A B (m : M O A) (k : A -> M O B) :
  read_only m -> (forall a, read_only (k a)) -> read_only (bind m k).
Proof.
  intros Hm Hk w. unfold bind. specialize (Hm w).
  destruct (m w) as [[a | e] w1]; cbn [snd] in Hm; subst w1.
  - apply Hk.
  - reflexivity.
Qed.

End ReadOnly.

Create HintDb frame.

#[local] Hint Resolve preserves_ret preserves_raise preserves_lift preserves_attr
  preserves_getattr preserves_draw preserves_with_rng preserves_setattr
  preserves_bind preserves_if : frame.
#[local] Hint Resolve read_only_ret read_only_raise read_only_lift read_only_attr
  read_only_bind : frame.

(* ===================================================================== *)
(** * Facts about the tensor engine *)
(* ===================================================================== *)

Section TensorFacts.

Open Scope R_scope.

Lemma shape_eqb_refl (s : list nat) : shape_eqb s s = true.
Proof.
  induction s as [| a s IH]; [reflexivity |].
  cbn [shape_eqb]. now rewrite Nat.eqb_refl, IH.
Qed.

Lemma shape_eqb_eq (s1 s2 : list nat) : shape_eqb s1 s2 = true -> s1 = s2.
Proof.
  revert s2. induction s1 as [| a s1 IH]; intros [| b s2] H;
    cbn [shape_eqb] in H; try discriminate; [reflexivity |].
  apply andb_prop in H. destruct H as [Hab Hs].
  apply Nat.eqb_eq in Hab. subst b. f_equal. now apply IH.
Qed.

Lemma as_size_of_nat (n : nat) : as_size (PyInt (Z.of_nat n)) = Ok n.
Proof.
  unfold as_size.
  destruct (Z.ltb_spec (Z.of_nat n) 0); [lia |].
  now rewrite Nat2Z.id.
Qed.

Lemma numel_matrix (n m : nat) : numel [n; m] = (n * m)%nat.
Proof. unfold numel. simpl. now rewrite Nat.mul_1_r. Qed.

Lemma numel_vector (n : nat) : numel [n] = n.
Proof. unfold numel. simpl. now rewrite Nat.mul_1_r. Qed.

Lemma zeros_matrix (n m : nat) :
  zeros [PyInt (Z.of_nat n); PyInt (Z.of_nat m)]
  = Ok (Tensor [n; m] (repeat 0 (n * m))).
Proof.
  unfold zeros, rmapM. rewrite !as_size_of_nat. cbn [rbind].
  now rewrite numel_matrix.
Qed.

Lemma zeros_vector (n : nat) :
  zeros [PyInt (Z.of_nat n)] = Ok (Tensor [n] (repeat 0 n)).
Proof.
  unfold zeros, rmapM. rewrite as_size_of_nat. cbn [rbind].
  now rewrite numel_vector.
Qed.

(** The entries [torch.normal] builds over a zero mean. *)
Lemma normal_zero_entries (std : R) (g : stream) (n s : nat) :
  map (fun mz : R * R => fst mz + std * snd mz)
      (combine (repeat 0 n) (map g (seq s n)))
  = map (fun k => std * g k) (seq s n).
Proof.
  revert s. induction n as [| n IH]; intros s; simpl; [reflexivity |].
  rewrite IH. f_equal. lra.
Qed.

Lemma pointwise2_ok (f : R -> R -> R) (a b : tensor) :
  shape a = shape b ->
  pointwise2 f a b
  = Ok (Tensor (shape a)
          (map (fun xy => f (fst xy) (snd xy)) (combine (data a) (data b)))).
Proof.
  intros H. unfold pointwise2. now rewrite H, shape_eqb_refl.
Qed.

Lemma pointwise2_inv (f : R -> R -> R) (a b c : tensor) :
  pointwise2 f a b = Ok c ->
  shape a = shape b /\
  c = Tensor (shape a)
        (map (fun xy => f (fst xy) (snd xy)) (combine (data a) (data b))).
Proof.
  unfold pointwise2. destruct (shape_eqb (shape a) (shape b)) eqn:E; [| discriminate].
  intros H. injection H as <-. split; [now apply shape_eqb_eq | reflexivity].
Qed.

Lemma nth_map_combine (f : R -> R -> R) (l1 l2 : list R) (i : nat) :
  (i < length l1)%nat -> (i < length l2)%nat ->
  nth i (map (fun xy => f (fst xy) (snd xy)) (combine l1 l2)) 0
  = f (nth i l1 0) (nth i l2 0).
Proof.
  revert l2 i. induction l1 as [| x l1 IH]; intros [| y l2] [| i] H1 H2;
    simpl in *; try lia; [reflexivity |].
  apply IH; lia.
Qed.

Lemma combine_append (l1 l2 r1 r2 : list R) :
  length l1 = length r1 ->
  combine (l1 ++ l2) (r1 ++ r2) = combine l1 r1 ++ combine l2 r2.
Proof.
  revert r1. induction l1 as [| x l1 IH]; intros [| y r1] H;
    simpl in *; try discriminate; [reflexivity |].
  f_equal. apply IH. lia.
Qed.

Lemma nth_rows (f : nat -> list R) (m : nat) :
  (forall i, length (f i) = m) ->
  forall n s i j, (i < n)%nat -> (j < m)%nat ->
    nth (i * m + j) (flat_map f (seq s n)) 0 = nth j (f (s + i)%nat) 0.
Proof.
  intros Hlen. induction n as [| n IH]; intros s i j Hi Hj; [lia |].
  simpl. destruct i as [| i].
  - simpl. rewrite app_nth1 by (rewrite Hlen; lia).
    now rewrite Nat.add_0_r.
  - rewrite app_nth2 by (rewrite Hlen; simpl; lia).
    rewrite Hlen.
    replace (S i * m + j - m)%nat with (i * m + j)%nat by (simpl; lia).
    rewrite IH by lia. f_equal. f_equal. lia.
Qed.

Lemma length_rows (f : nat -> list R) (m : nat) :
  (forall i, length (f i) = m) ->
  forall n s, length (flat_map f (seq s n)) = (n * m)%nat.
Proof.
  intros Hlen. induction n as [| n IH]; intros s; simpl; [reflexivity |].
  now rewrite length_app, Hlen, IH.
Qed.

Lemma nth_map_seq (f : nat -> R) (n s j : nat) :
  (j < n)%nat -> nth j (map f (seq s n)) 0 = f (s + j)%nat.
Proof.
  intros H. rewrite nth_indep with (d' := f 0%nat) by (now rewrite length_map, length_seq).
  rewrite map_nth. now rewrite seq_nth.
Qed.

(** Entry [(i, j)] of a matrix product. *)
Lemma matmul_entry (a b c : tensor) (n k m i j : nat) :
  shape a = [n; k] -> shape b = [k; m] -> matmul a b = Ok c ->
  (i < n)%nat -> (j < m)%nat ->
  get2 c m i j
  = rsum (map (fun l => get2 a k i l * get2 b m l j) (seq 0 k)).
Proof.
  intros Ha Hb Hc Hi Hj. unfold matmul in Hc. rewrite Ha, Hb, Nat.eqb_refl in Hc.
  injection Hc as <-. unfold get2 at 1. simpl.
  rewrite nth_rows with (m := m); try assumption.
  - now rewrite nth_map_seq.
  - intros r. now rewrite length_map, length_seq.
Qed.

Lemma matmul_shape (a b c : tensor) (n k m : nat) :
  shape a = [n; k] -> shape b = [k; m] -> matmul a b = Ok c ->
  shape c = [n; m] /\ well_formed c.
Proof.
  intros Ha Hb Hc. unfold matmul in Hc. rewrite Ha, Hb, Nat.eqb_refl in Hc.
  injection Hc as <-. split; [reflexivity |].
  unfold well_formed. simpl shape. rewrite numel_matrix. simpl data.
  apply length_rows. intros r. now rewrite length_map, length_seq.
Qed.

Lemma matmul_ok (a b : tensor) (n k m : nat) :
  shape a = [n; k] -> shape b = [k; m] -> exists c, matmul a b = Ok c.
Proof.
  intros Ha Hb. unfold matmul. rewrite Ha, Hb, Nat.eqb_refl. eauto.
Qed.

(** A bias vector expanded against a matrix with as many columns. *)
Lemma expand_as_rows (v target : tensor) (n m : nat) :
  shape v = [m] -> shape target = [n; m] ->
  expand_as v target = Ok (Tensor [n; m] (flat_map (fun _ => data v) (seq 0 n))).
Proof.
  intros Hv Ht. unfold expand_as. now rewrite Hv, Ht, Nat.eqb_refl.
Qed.

Lemma expand_as_entry (v : tensor) (n m i j : nat) :
  length (data v) = m -> (i < n)%nat -> (j < m)%nat ->
  get2 (Tensor [n; m] (flat_map (fun _ => data v) (seq 0 n))) m i j = get1 v j.
Proof.
  intros Hlen Hi Hj. unfold get2, get1. simpl.
  now rewrite nth_rows with (m := m).
Qed.

(** ** Broadcasting *)

Lemma broadcast_dim_refl (a : nat) : broadcast_dim a a = Some a.
Proof. unfold broadcast_dim. now rewrite Nat.eqb_refl. Qed.

Lemma broadcast_rev_refl (s : list nat) : broadcast_rev s s = Some s.
Proof.
  induction s as [| a s IH]; [reflexivity |].
  cbn [broadcast_rev]. now rewrite broadcast_dim_refl, IH.
Qed.

Lemma broadcast_rev_nil_r (s : list nat) : broadcast_rev s [] = Some s.
Proof. now destruct s. Qed.

Lemma broadcast_shapes_refl (s : list nat) : broadcast_shapes s s = Some s.
Proof.
  unfold broadcast_shapes. rewrite broadcast_rev_refl. cbn [option_map].
  now rewrite rev_involutive.
Qed.

Lemma broadcast_shapes_nil_r (s : list nat) : broadcast_shapes s [] = Some s.
Proof.
  unfold broadcast_shapes. cbn [rev]. rewrite broadcast_rev_nil_r.
  cbn [option_map]. now rewrite rev_involutive.
Qed.

Lemma broadcast_shapes_nil_l (s : list nat) : broadcast_shapes [] s = Some s.
Proof.
  unfold broadcast_shapes. cbn [rev broadcast_rev option_map].
  now rewrite rev_involutive.
Qed.

Lemma numel_app (s t : list nat) : numel (s ++ t) = (numel s * numel t)%nat.
Proof.
  unfold numel. induction s as [| a s IH]; cbn [app fold_right]; [lia |].
  rewrite IH. lia.
Qed.

Lemma numel_rev (s : list nat) : numel (rev s) = numel s.
Proof.
  induction s as [| a s IH]; [reflexivity |].
  cbn [rev]. rewrite numel_app, IH. unfold numel. cbn [fold_right]. lia.
Qed.

(** Between equal sizes every position shows itself. *)
Lemma source_rev_same (r : list nat) (i stride : nat) :
  (i < numel r)%nat -> source_rev r r i stride = (stride * i)%nat.
Proof.
  revert i stride. induction r as [| a r IH]; intros i stride Hi.
  - unfold numel in Hi. cbn in Hi. cbn [source_rev]. lia.
  - change (numel (a :: r)) with (a * numel r)%nat in Hi.
    cbn [source_rev].
    assert (Ha : a <> 0%nat) by (intros ->; lia).
    assert (Hq : (i / a < numel r)%nat)
      by (apply Nat.Div0.div_lt_upper_bound; exact Hi).
    rewrite IH by exact Hq.
    pose proof (Nat.div_mod_eq i a) as E.
    destruct (Nat.eqb_spec a 1) as [-> | _].
    + rewrite Nat.div_1_r. lia.
    + nia.
Qed.

Lemma map_nth_seq (d : list R) :
  map (fun i => nth i d 0) (seq 0 (length d)) = d.
Proof.
  apply nth_ext with (d := 0) (d' := 0).
  - now rewrite length_map, length_seq.
  - intros n Hn. rewrite length_map, length_seq in Hn.
    now rewrite nth_map_seq by exact Hn.
Qed.

Lemma length_expand (s t : list nat) (d : list R) :
  length (expand s t d) = numel t.
Proof. unfold expand. now rewrite length_map, length_seq. Qed.

Lemma nth_expand (s t : list nat) (d : list R) (i : nat) :
  (i < numel t)%nat ->
  nth i (expand s t d) 0 = nth (source_rev (rev s) (rev t) i 1) d 0.
Proof. intros H. unfold expand. now rewrite nth_map_seq by exact H. Qed.

(** Expanding to the sizes a tensor has changes nothing. *)
Lemma expand_same (s : list nat) (d : list R) :
  length d = numel s -> expand s s d = d.
Proof.
  intros H. unfold expand.
  rewrite map_ext_in with (g := fun i => nth i d 0).
  - rewrite <- H. apply map_nth_seq.
  - intros i Hi. apply in_seq in Hi.
    rewrite source_rev_same by (rewrite numel_rev; lia).
    f_equal. lia.
Qed.

Lemma map_const_seq (r : R) (n s : nat) :
  map (fun _ => r) (seq s n) = repeat r n.
Proof.
  revert s. induction n as [| n IH]; intros s; [reflexivity |].
  cbn [seq map repeat]. now rewrite IH.
Qed.

(** A number is repeated at every position. *)
Lemma expand_scalar (t : list nat) (r : R) :
  expand [] t [r] = repeat r (numel t).
Proof. unfold expand. cbn [rev source_rev nth]. apply map_const_seq. Qed.

(** A row of [u] entries against [n] rows of [u] entries: position
    [(i, j)] shows entry [j]. *)
Lemma expand_row (n u i j : nat) (d : list R) :
  (i < n)%nat -> (j < u)%nat ->
  nth (i * u + j) (expand [u] [n; u] d) 0 = nth j d 0.
Proof.
  intros Hi Hj.
  rewrite nth_expand by (unfold numel; cbn [fold_right]; nia).
  cbn [rev app source_rev]. f_equal.
  destruct (Nat.eqb_spec u 1) as [-> | _]; [lia |].
  rewrite Nat.add_0_r, Nat.mul_1_r, Nat.add_comm, Nat.Div0.mod_add.
  now apply Nat.mod_small.
Qed.

(** On operands of the same sizes the broadcasting operation is the
    plain elementwise one. *)
Lemma broadcast2_same (f : R -> R -> R) (a b : tensor) :
  shape a = shape b -> well_formed a -> well_formed b ->
  broadcast2 f a b = pointwise2 f a b.
Proof.
  intros H Ha Hb. unfold broadcast2, pointwise2.
  rewrite <- H, broadcast_shapes_refl, shape_eqb_refl.
  rewrite expand_same by exact Ha.
  rewrite H, expand_same by exact Hb. now rewrite <- H.
Qed.

End TensorFacts.

(* ===================================================================== *)
(** * Facts about ProbabilisticDense *)
(* ===================================================================== *)

Section ForwardFacts.

Import ProbabilisticDense Contract.
Open Scope R_scope.

Lemma sample_data (mu rho eps : list R) :
  map (fun xy : R * R => fst xy + snd xy)
      (combine mu
         (map (fun xy : R * R => fst xy * snd xy)
              (combine (map (fun x => ln (1 + x)) (map exp rho)) eps)))
  = map (fun t : R * (R * R) => fst t + ln (1 + exp (fst (snd t))) * snd (snd t))
        (combine mu (combine rho eps)).
Proof.
  revert rho eps. induction mu as [| m mu IH]; intros [| r rho] [| e eps];
    simpl; try reflexivity.
  now rewrite IH.
Qed.

(** The expression of the source computes the sample of the
    specification. *)
Lemma reparameterize_sample (mu rho eps : tensor) :
  shape mu = shape rho -> shape rho = shape eps ->
  reparameterize mu rho eps = Ok (sample mu rho eps).
Proof.
  intros H1 H2. unfold reparameterize, mul, add.
  rewrite pointwise2_ok by exact H2. cbn [rbind].
  rewrite pointwise2_ok by (cbn; exact H1).
  unfold sample. f_equal. f_equal. cbn [data log1p texp pointwise].
  apply sample_data.
Qed.

Lemma reparameterize_inv (mu rho eps v : tensor) :
  reparameterize mu rho eps = Ok v ->
  shape mu = shape rho /\ shape rho = shape eps /\ v = sample mu rho eps.
Proof.
  unfold reparameterize, mul, add. intros H.
  destruct (pointwise2 Rmult (log1p (texp rho)) eps) as [s | e] eqn:E1;
    [| discriminate].
  cbn [rbind] in H.
  apply pointwise2_inv in E1. destruct E1 as [Hs ->].
  apply pointwise2_inv in H. destruct H as [Hm ->].
  cbn in Hs, Hm. repeat split; try assumption.
  unfold sample. f_equal. cbn [data log1p texp pointwise]. apply sample_data.
Qed.

Lemma length_sample (mu rho eps : tensor) (n : nat) :
  length (data mu) = n -> length (data rho) = n -> length (data eps) = n ->
  length (data (sample mu rho eps)) = n.
Proof.
  intros H1 H2 H3. unfold sample. cbn [data].
  rewrite length_map, !length_combine. lia.
Qed.

Lemma sample_entry (mu rho eps : tensor) (i : nat) :
  (i < length (data mu))%nat -> (i < length (data rho))%nat ->
  (i < length (data eps))%nat ->
  nth i (data (sample mu rho eps)) 0
  = nth i (data mu) 0 + ln (1 + exp (nth i (data rho) 0)) * nth i (data eps) 0.
Proof.
  unfold sample. cbn [data].
  generalize (data mu) (data rho) (data eps). clear.
  intros l1. revert i. induction l1 as [| x l1 IH];
    intros [| i] [| y l2] [| z l3] H1 H2 H3; simpl in *; try lia; [reflexivity |].
  apply IH; lia.
Qed.

Lemma map_seq_shift (f : nat -> R) (s n : nat) :
  map (fun k => f (s + k)%nat) (seq 0 n) = map f (seq s n).
Proof.
  assert (G : forall k, map (fun i => f (s + i)%nat) (seq k n) = map f (seq (s + k) n)).
  { induction n as [| n IH]; intros k; simpl; [reflexivity |].
    f_equal. rewrite IH. now rewrite Nat.add_succ_r. }
  rewrite G. now rewrite Nat.add_0_r.
Qed.

Lemma length_noise_W (g : stream) (d u : nat) :
  length (data (noise_W g d u)) = (d * u)%nat.
Proof. unfold noise_W. cbn [data]. now rewrite length_map, length_seq. Qed.

Lemma length_noise_b (g : stream) (d u : nat) :
  length (data (noise_b g d u)) = u.
Proof. unfold noise_b. cbn [data]. now rewrite length_map, length_seq. Qed.

(** Adding the expanded bias to the product, row by row. *)
Lemma add_rows (f : nat -> nat -> R) (bs : list R) (u : nat) :
  length bs = u ->
  forall n s,
    map (fun xy : R * R => fst xy + snd xy)
        (combine (flat_map (fun i => map (f i) (seq 0 u)) (seq s n))
                 (flat_map (fun _ => bs) (seq s n)))
    = flat_map (fun i => map (fun j => f i j + nth j bs 0) (seq 0 u)) (seq s n).
Proof.
  intros Hb. induction n as [| n IH]; intros s; simpl; [reflexivity |].
  rewrite combine_append by (now rewrite length_map, length_seq).
  rewrite map_app, IH. f_equal.
  clear IH. subst u. generalize (f s). intros h.
  assert (G : forall (l : list R) k,
             map (fun xy : R * R => fst xy + snd xy)
                 (combine (map h (seq k (length l))) l)
             = map (fun j => h j + nth (j - k) l 0) (seq k (length l))).
  { induction l as [| x l IHl]; intros k; simpl; [reflexivity |].
    rewrite IHl, Nat.sub_diag. f_equal.
    apply map_ext_in. intros j Hj. apply in_seq in Hj.
    replace (j - k)%nat with (S (j - S k)) by lia. reflexivity. }
  rewrite G. apply map_ext. intros j. now rewrite Nat.sub_0_r.
Qed.

(** The forward pass of a built layer on a batch of the right width, run
    on generator [g]. *)
Lemma forward_run (d u n : nat) (wm wr bm br X : tensor)
      (l : t) (g : stream) :
  built d u wm wr bm br l -> shape X = [n; d] ->
  forward X (World l g)
  = (Ok (affine n d u X (sample wm wr (noise_W g d u))
                        (sample bm br (noise_b g d u))),
     World (set_b (Some (sample bm br (noise_b g d u)))
                  (set_W (Some (sample wm wr (noise_W g d u))) l))
           (after_noise g d u)).
Proof.
  intros B HX.
  destruct B as [built_input_dim0 built_output_dim0 built_W_mu0 built_W_rho0
                 built_b_mu0 built_b_rho0 built_W_mu_shape0 built_W_rho_shape0
                 built_b_mu_shape0 built_b_rho_shape0 built_W_mu_wf0
                 built_W_rho_wf0 built_b_mu_wf0 built_b_rho_wf0].
  unfold forward, Layer.forward, Layer.to_variable, normal.
  cbv [bind ret attr lift getattr setattr draw self rng].
  rewrite built_input_dim0, built_output_dim0, zeros_matrix.
  rewrite built_W_mu0. cbv iota beta. rewrite built_W_rho0. cbv iota beta.
  cbn [data shape]. rewrite repeat_length.
  unfold sigma_prior. rewrite normal_zero_entries.
  change (Tensor [d; u] (map (fun k => exp (- 3) * g k) (seq 0 (d * u))))
    with (noise_W g d u).
  rewrite reparameterize_sample by (unfold noise_W; cbn [shape]; congruence).
  cbn [output_dim set_W b_mu b_rho]. rewrite built_output_dim0, zeros_vector.
  rewrite built_b_mu0. cbv iota beta.
  cbn [b_rho set_W]. rewrite built_b_rho0. cbv iota beta.
  cbn [data shape]. rewrite repeat_length.
  rewrite (normal_zero_entries (exp (- 3)) (fun i => g (d * u + i)%nat)).
  rewrite (map_seq_shift (fun k => exp (- 3) * g k)).
  change (Tensor [u] (map (fun k => exp (- 3) * g k) (seq (d * u) u)))
    with (noise_b g d u).
  rewrite reparameterize_sample by (unfold noise_b; cbn [shape]; congruence).
  unfold matmul. rewrite HX. cbn [shape sample]. rewrite built_W_mu_shape0.
  rewrite Nat.eqb_refl.
  rewrite expand_as_rows with (n := n) (m := u)
    by (cbn [shape sample]; congruence).
  unfold add. rewrite pointwise2_ok by reflexivity.
  cbn [self rng data shape].
  f_equal. f_equal. unfold affine. f_equal.
  rewrite add_rows with (u := u).
  - reflexivity.
  - apply length_sample.
    + unfold well_formed in built_b_mu_wf0.
      now rewrite built_b_mu_wf0, built_b_mu_shape0, numel_vector.
    + unfold well_formed in built_b_rho_wf0.
      now rewrite built_b_rho_wf0, built_b_rho_shape0, numel_vector.
    + apply length_noise_b.
Qed.

(** Everything a returning forward call has gone through. *)
Lemma forward_inv (X out : tensor) (l : t) (g : stream) (w' : world t) :
  forward X (World l g) = (Ok out, w') ->
  exists zW zb wm wr bm br Wv bv XW be,
    zeros [input_dim l; output_dim l] = Ok zW
    /\ zeros [output_dim l] = Ok zb
    /\ W_mu l = Some wm /\ W_rho l = Some wr
    /\ b_mu l = Some bm /\ b_rho l = Some br
    /\ reparameterize wm wr
         (Tensor (shape zW)
            (map (fun mz => fst mz + sigma_prior * snd mz)
               (combine (data zW) (map g (seq 0 (length (data zW)))))))
       = Ok Wv
    /\ reparameterize bm br
         (Tensor (shape zb)
            (map (fun mz => fst mz + sigma_prior * snd mz)
               (combine (data zb)
                  (map (fun i => g (length (data zW) + i)%nat)
                       (seq 0 (length (data zb)))))))
       = Ok bv
    /\ matmul X Wv = Ok XW /\ expand_as bv XW = Ok be /\ add XW be = Ok out
    /\ w' = World (set_b (Some bv) (set_W (Some Wv) l))
                  (fun i => g (length (data zW) + (length (data zb) + i))%nat).
Proof.
  unfold forward, Layer.forward, Layer.to_variable, normal.
  cbv [bind ret attr lift getattr setattr draw self rng].
  intros H.
  destruct (zeros [input_dim l; output_dim l]) as [zW |] eqn:EzW; [| discriminate].
  destruct (W_mu l) as [wm |] eqn:Ewm; [| discriminate].
  destruct (W_rho l) as [wr |] eqn:Ewr; [| discriminate].
  cbv iota beta in H.
  destruct (reparameterize wm wr _) as [Wv |] eqn:EWv in H; [| discriminate].
  cbn [output_dim set_W b_mu b_rho] in H.
  destruct (zeros [output_dim l]) as [zb |] eqn:Ezb; [| discriminate].
  destruct (b_mu l) as [bm |] eqn:Ebm; [| discriminate].
  cbv iota beta in H. cbn [b_rho set_W] in H.
  destruct (b_rho l) as [br |] eqn:Ebr; [| discriminate].
  cbv iota beta in H.
  destruct (reparameterize bm br _) as [bv |] eqn:Ebv in H; [| discriminate].
  destruct (matmul X Wv) as [XW |] eqn:EXW; [| discriminate].
  destruct (expand_as bv XW) as [be |] eqn:Ebe; [| discriminate].
  injection H as Hout Hw.
  exists zW, zb, wm, wr, bm, br, Wv, bv, XW, be.
  repeat split; try assumption; try reflexivity. now symmetry.
Qed.

(** The changes a forward call may make to the layer: the two retained
    samples, nothing else. *)
Lemma only_samples_refl (l : t) : only_samples l l.
Proof. exists (W l), (b l). now destruct l. Qed.

Lemma only_samples_trans (l1 l2 l3 : t) :
  only_samples l1 l2 -> only_samples l2 l3 -> only_samples l1 l3.
Proof.
  intros (w1 & b1 & ->) (w2 & b2 & ->). exists w2, b2. reflexivity.
Qed.

Lemma forward_frame (X : tensor) : preserves only_samples (forward X).
Proof.
  unfold forward, Layer.forward, normal.
  repeat (first
    [ apply (preserves_bind only_samples_trans); [| intros ?]
    | match goal with
      | |- preserves _ (setattr (set_W ?v)) =>
          apply preserves_setattr; intros o; exists v, (b o); now destruct o
      | |- preserves _ (setattr (set_b ?v)) =>
          apply preserves_setattr; intros o; exists (W o), v; now destruct o
      end
    | solve [ auto using only_samples_refl with frame ] ]).
Qed.

(** The forward pass of a built layer on any tensor: both samples are
    assigned and both draws are made before the product is attempted. *)
Lemma forward_built (d u : nat) (wm wr bm br X : tensor)
      (l : t) (g : stream) :
  built d u wm wr bm br l ->
  forward X (World l g)
  = (rbind (matmul X (sample wm wr (noise_W g d u))) (fun XW =>
     rbind (expand_as (sample bm br (noise_b g d u)) XW) (fun be =>
     add XW be)),
     World (set_b (Some (sample bm br (noise_b g d u)))
                  (set_W (Some (sample wm wr (noise_W g d u))) l))
           (after_noise g d u)).
Proof.
  intros B.
  destruct B as [built_input_dim0 built_output_dim0 built_W_mu0 built_W_rho0
                 built_b_mu0 built_b_rho0 built_W_mu_shape0 built_W_rho_shape0
                 built_b_mu_shape0 built_b_rho_shape0 built_W_mu_wf0
                 built_W_rho_wf0 built_b_mu_wf0 built_b_rho_wf0].
  unfold forward, Layer.forward, Layer.to_variable, normal.
  cbv [bind ret attr lift getattr setattr draw self rng].
  rewrite built_input_dim0, built_output_dim0, zeros_matrix.
  rewrite built_W_mu0. cbv iota beta. rewrite built_W_rho0. cbv iota beta.
  cbn [data shape]. rewrite repeat_length.
  unfold sigma_prior. rewrite normal_zero_entries.
  change (Tensor [d; u] (map (fun k => exp (- 3) * g k) (seq 0 (d * u))))
    with (noise_W g d u).
  rewrite reparameterize_sample by (unfold noise_W; cbn [shape]; congruence).
  cbn [output_dim set_W b_mu b_rho]. rewrite built_output_dim0, zeros_vector.
  rewrite built_b_mu0. cbv iota beta.
  cbn [b_rho set_W]. rewrite built_b_rho0. cbv iota beta.
  cbn [data shape]. rewrite repeat_length.
  rewrite (normal_zero_entries (exp (- 3)) (fun i => g (d * u + i)%nat)).
  rewrite (map_seq_shift (fun k => exp (- 3) * g k)).
  change (Tensor [u] (map (fun k => exp (- 3) * g k) (seq (d * u) u)))
    with (noise_b g d u).
  rewrite reparameterize_sample by (unfold noise_b; cbn [shape]; congruence).
  destruct (matmul X _) as [XW | e]; cbn [rbind]; [| reflexivity].
  destruct (expand_as _ XW) as [be | e]; cbn [rbind]; [| reflexivity].
  destruct (add XW be); reflexivity.
Qed.

Lemma built_same_but_samples (d u : nat) (wm wr bm br : tensor) (l l2 : t) :
  built d u wm wr bm br l -> same_but_samples l l2 ->
  built d u wm wr bm br l2.
Proof.
  intros B (E1 & _ & _ & E4 & E5 & E6 & E7 & E8).
  destruct B as [built_input_dim0 built_output_dim0 built_W_mu0 built_W_rho0
                 built_b_mu0 built_b_rho0 built_W_mu_shape0 built_W_rho_shape0
                 built_b_mu_shape0 built_b_rho_shape0 built_W_mu_wf0
                 built_W_rho_wf0 built_b_mu_wf0 built_b_rho_wf0].
  constructor; congruence.
Qed.

Lemma same_but_samples_overwritten (l l2 : t) (Wo bo : option tensor) :
  same_but_samples l l2 -> set_b bo (set_W Wo l2) = set_b bo (set_W Wo l).
Proof.
  destruct l, l2. unfold same_but_samples, set_b, set_W. cbn.
  intros (-> & -> & -> & -> & -> & -> & -> & ->). reflexivity.
Qed.

Lemma same_but_samples_set (l l2 : t) :
  Contract.same_but_samples l l2 -> l2 = set_b (b l2) (set_W (W l2) l).
Proof.
  destruct l, l2. unfold Contract.same_but_samples, set_b, set_W. cbn.
  intros (-> & -> & -> & -> & -> & -> & -> & ->). reflexivity.
Qed.

(** A forward call never reads the retained samples: what they held
    before has no influence on the outcome. *)
Lemma forward_overwrites (X out : tensor) (l : t) (g : stream) (w' : world t)
      (Wo bo : option tensor) :
  forward X (World l g) = (Ok out, w') ->
  forward X (World (set_b bo (set_W Wo l)) g) = (Ok out, w').
Proof.
  intros H. apply forward_inv in H.
  destruct H as (zW & zb & wm & wr & bm & br & Wv & bv & XW & be &
                 HzW & Hzb & Hwm & Hwr & Hbm & Hbr & HWv & Hbv & HXW & Hbe & Hout & ->).
  unfold forward, Layer.forward, Layer.to_variable, normal.
  cbv [bind ret attr lift getattr setattr draw self rng].
  cbn [input_dim output_dim W_mu W_rho b_mu b_rho set_W set_b].
  rewrite HzW, Hwm. cbv iota beta.
  cbn [input_dim output_dim W_mu W_rho b_mu b_rho set_W set_b].
  rewrite Hwr. cbv iota beta.
  rewrite HWv.
  cbn [input_dim output_dim W_mu W_rho b_mu b_rho set_W set_b].
  rewrite Hzb, Hbm. cbv iota beta.
  cbn [input_dim output_dim W_mu W_rho b_mu b_rho set_W set_b].
  rewrite Hbr. cbv iota beta.
  rewrite Hbv, HXW, Hbe, Hout.
  reflexivity.
Qed.

End ForwardFacts.

Section BuildFacts.

Import ProbabilisticDense Contract.
Open Scope R_scope.

Local Ltac build_fields :=
  cbv iota beta;
  cbn [input_dim output_dim init self rng
       set_input_dim set_W_mu set_W_rho set_b_mu set_b_rho].

Local Ltac build_fields_in H :=
  cbv iota beta in H;
  cbn [input_dim output_dim init self rng
       set_input_dim set_W_mu set_W_rho set_b_mu set_b_rho] in H.

(** Everything a returning [build] call has gone through. *)
Lemma build_inv (v : pyval) (l : t) (g : stream) (w' : world t) :
  build v (World l g) = (Ok tt, w') ->
  exists wm wr bm br g1 g2 g3 g4,
    init l [v; output_dim l] v (output_dim l) g = (Ok wm, g1)
    /\ init l [v; output_dim l] v (output_dim l) g1 = (Ok wr, g2)
    /\ init l [output_dim l] v (output_dim l) g2 = (Ok bm, g3)
    /\ init l [output_dim l] v (output_dim l) g3 = (Ok br, g4)
    /\ w' = World (set_b_rho (Some br) (set_b_mu (Some bm)
                    (set_W_rho (Some wr) (set_W_mu (Some wm)
                       (set_input_dim v l))))) g4.
Proof.
  unfold build, call_init.
  cbv [bind ret attr setattr with_rng self rng].
  cbn [input_dim output_dim init set_input_dim set_W_mu set_W_rho set_b_mu].
  intros H.
  destruct (init l [v; output_dim l] v (output_dim l) g) as [[wm |] g1] eqn:E1;
    [| discriminate].
  build_fields_in H.
  destruct (init l [v; output_dim l] v (output_dim l) g1) as [[wr |] g2] eqn:E2;
    [| discriminate].
  build_fields_in H.
  destruct (init l [output_dim l] v (output_dim l) g2) as [[bm |] g3] eqn:E3;
    [| discriminate].
  build_fields_in H.
  destruct (init l [output_dim l] v (output_dim l) g3) as [[br |] g4] eqn:E4;
    [| discriminate].
  build_fields_in H.
  injection H as <-.
  exists wm, wr, bm, br, g1, g2, g3, g4. repeat split; assumption.
Qed.

(** [build] stores its argument before anything else: the attribute holds
    it whether the call returns or raises. *)
Lemma build_stores_argument (v : pyval) (l : t) (g : stream) :
  input_dim (self (snd (build v (World l g)))) = v.
Proof.
  unfold build, call_init.
  cbv [bind ret attr setattr with_rng self rng].
  cbn [input_dim output_dim init set_input_dim set_W_mu set_W_rho set_b_mu].
  destruct (init l [v; output_dim l] v (output_dim l) g) as [[wm |] g1];
    [| reflexivity].
  build_fields.
  destruct (init l [v; output_dim l] v (output_dim l) g1) as [[wr |] g2];
    [| reflexivity].
  build_fields.
  destruct (init l [output_dim l] v (output_dim l) g2) as [[bm |] g3];
    [| reflexivity].
  build_fields.
  destruct (init l [output_dim l] v (output_dim l) g3) as [[br |] g4];
    reflexivity.
Qed.

(** [build] raises only what the initializer raises: when the four calls
    of the initializer return, so does [build]. *)
Lemma build_returns (v : pyval) (l : t) (g g1 g2 g3 g4 : stream)
      (wm wr bm br : tensor) :
  init l [v; output_dim l] v (output_dim l) g = (Ok wm, g1) ->
  init l [v; output_dim l] v (output_dim l) g1 = (Ok wr, g2) ->
  init l [output_dim l] v (output_dim l) g2 = (Ok bm, g3) ->
  init l [output_dim l] v (output_dim l) g3 = (Ok br, g4) ->
  build v (World l g)
  = (Ok tt, World (set_b_rho (Some br) (set_b_mu (Some bm)
                     (set_W_rho (Some wr) (set_W_mu (Some wm)
                        (set_input_dim v l))))) g4).
Proof.
  intros E1 E2 E3 E4. unfold build, call_init.
  cbv [bind ret attr setattr with_rng self rng].
  cbn [input_dim output_dim init set_input_dim set_W_mu set_W_rho set_b_mu].
  rewrite E1. build_fields. rewrite E2. build_fields.
  rewrite E3. build_fields. rewrite E4. reflexivity.
Qed.

Lemma params_built (d u : nat) (wm wr bm br : tensor) (l : t) (g : stream) :
  built d u wm wr bm br l ->
  params (World l g) = (Ok [wm; wr; bm; br], World l g).
Proof.
  intros B. destruct B as [_ _ built_W_mu0 built_W_rho0 built_b_mu0 built_b_rho0 _ _ _ _ _ _ _ _].
  unfold params.
  cbv [bind ret getattr self].
  now rewrite built_W_mu0, built_W_rho0, built_b_mu0, built_b_rho0.
Qed.

Lemma built_only_samples (d u : nat) (wm wr bm br : tensor) (l l' : t) :
  built d u wm wr bm br l -> only_samples l l' -> built d u wm wr bm br l'.
Proof.
  intros B (Wo & bo & ->). destruct B. now constructor.
Qed.

Lemma zeros_shape_inv (sizes : list pyval) (v : tensor) :
  zeros sizes = Ok v -> well_formed v.
Proof.
  unfold zeros. destruct (rmapM as_size sizes) as [s |]; [| discriminate].
  cbn [rbind]. intros H. injection H as <-.
  unfold well_formed. cbn [data shape]. apply repeat_length.
Qed.

Lemma rmapM_as_size_of_nat (s : list nat) :
  rmapM as_size (map (fun n => PyInt (Z.of_nat n)) s) = Ok s.
Proof.
  induction s as [| n s IH]; [reflexivity |].
  cbn [map rmapM]. rewrite as_size_of_nat, IH. reflexivity.
Qed.

(** The zero initializer keeps the requested sizes. *)
Lemma zeros_init_shape_respecting : shape_respecting Examples.zeros_init.
Proof.
  intros s fi fo g v g' H. unfold Examples.zeros_init in H.
  injection H as H _. split; [| now apply zeros_shape_inv in H].
  unfold zeros in H. rewrite rmapM_as_size_of_nat in H.
  cbn [rbind] in H. now injection H as <-.
Qed.

End BuildFacts.

Section DenseFacts.

Variable Linear : Type.
Variable TorchDense : pyval -> pyval -> stream -> result Linear * stream.

(** The guard of [Dense.build]: anything that is not an [int] is refused
    before the layer is touched. *)
Lemma dense_build_guard (v : pyval) (w : world (Dense.t Linear)) :
  type_is_int v = false ->
  Dense.build TorchDense v w = (Err AssertionError, w).
Proof.
  intros H. unfold Dense.build. rewrite H. reflexivity.
Qed.

End DenseFacts.

(* ===================================================================== *)
(** * Facts about the loss helpers *)
(* ===================================================================== *)

Section LossFacts.

Import ProbabilisticDense Contract Losses.
Open Scope R_scope.

Lemma no_bayesian_layers (Other : Type) (ls : model Other) :
  (forall l, ~ In (Bayesian l) ls) -> bayesian_layers ls = [].
Proof.
  induction ls as [| [l | o] ls IH]; intros H.
  - reflexivity.
  - exfalso. apply (H l). now left.
  - cbn. apply IH. intros l Hl. apply (H l). now right.
Qed.


Lemma slot_read_only (O : Type) (name : string) (o : option tensor) :
  read_only (slot (O := O) name o).
Proof. destruct o; intros w; reflexivity. Qed.

Lemma layer_term_read_only (O : Type) (l : t) : read_only (layer_term (O := O) l).
Proof.
  unfold layer_term.
  repeat (first [ apply read_only_bind; [| intros ?]
                | apply slot_read_only
                | apply read_only_lift
                | apply read_only_ret ]).
Qed.

Lemma complexity_read_only (O Other : Type) (ls : list (layer Other)) (acc : R) :
  read_only (complexity (O := O) ls acc).
Proof.
  revert acc. induction ls as [| [l | o] ls IH]; intros acc; cbn [complexity].
  - apply read_only_ret.
  - apply read_only_bind; [apply layer_term_read_only | intros c; apply IH].
  - apply IH.
Qed.

Lemma variational_loss_read_only (Other : Type) (true pred : tensor)
      (ll : tensor -> tensor -> result R) :
  read_only (variational_loss (Other := Other) true pred ll).
Proof.
  unfold variational_loss.
  repeat (first [ apply read_only_bind; [| intros ?]
                | apply complexity_read_only
                | apply read_only_lift
                | apply read_only_attr
                | apply read_only_ret ]).
Qed.

Lemma pure_ret (O A : Type) (a : A) : pure_action (ret (O := O) a).
Proof. exists (Ok a). reflexivity. Qed.

Lemma pure_lift (O A : Type) (x : result A) : pure_action (lift (O := O) x).
Proof. exists x. reflexivity. Qed.

Lemma pure_slot (O : Type) (name : string) (o : option tensor) :
  pure_action (slot (O := O) name o).
Proof. destruct o; eexists; reflexivity. Qed.

Lemma pure_bind (O A B : Type) (m : M O A) (k : A -> M O B) :
  pure_action m -> (forall a, pure_action (k a)) -> pure_action (bind m k).
Proof.
  intros [[a | e] Hm] Hk.
  - destruct (Hk a) as [r Hr]. exists r. intros w. unfold bind.
    now rewrite Hm, Hr.
  - exists (Err e). intros w. unfold bind. now rewrite Hm.
Qed.

Lemma layer_term_pure (O : Type) (l : t) : pure_action (layer_term (O := O) l).
Proof.
  unfold layer_term.
  repeat (first [ apply pure_bind; [| intros ?]
                | apply pure_slot
                | apply pure_lift
                | apply pure_ret ]).
Qed.

(** The loop over the layers looks at the layers it is given and at
    nothing else. *)
Lemma complexity_pure (O Other : Type) (ls : list (layer Other)) (acc : R) :
  pure_action (complexity (O := O) ls acc).
Proof.
  revert acc. induction ls as [| [l | o] ls IH]; intros acc; cbn [complexity].
  - apply pure_ret.
  - apply pure_bind; [apply layer_term_pure | intros c; apply IH].
  - apply IH.
Qed.

(** The first Bayesian layer without a retained weight sample stops the
    loop. *)
Lemma complexity_missing_sample (O Other : Type) (pre rest : list (layer Other))
      (l : t) (acc : R) (w : world O) :
  bayesian_layers pre = [] -> W l = None ->
  complexity (pre ++ Bayesian l :: rest) acc w = (Err (AttributeError "W"), w).
Proof.
  intros Hpre HW. induction pre as [| [l0 | o] pre IH].
  - cbn [app complexity]. unfold bind, layer_term. rewrite HW. reflexivity.
  - discriminate.
  - cbn [app complexity]. apply IH. exact Hpre.
Qed.

End LossFacts.

(* ===================================================================== *)
(** * The forward pass *)
(* ===================================================================== *)

Section AffineFacts.

Import ProbabilisticDense Contract.
Open Scope R_scope.

Lemma affine_entry (n d u : nat) (X Wv bv : tensor) (i j : nat) :
  (i < n)%nat -> (j < u)%nat ->
  get2 (affine n d u X Wv bv) u i j
  = rsum (map (fun k => get2 X d i k * get2 Wv u k j) (seq 0 d)) + get1 bv j.
Proof.
  intros Hi Hj. unfold affine, get2 at 1. cbn [data].
  rewrite nth_rows with (m := u); try assumption.
  - now rewrite nth_map_seq.
  - intros r. now rewrite length_map, length_seq.
Qed.

Lemma affine_well_formed (n d u : nat) (X Wv bv : tensor) :
  well_formed (affine n d u X Wv bv).
Proof.
  unfold well_formed, affine. cbn [data shape]. rewrite numel_matrix.
  apply length_rows. intros r. now rewrite length_map, length_seq.
Qed.

End AffineFacts.

(** C2. On a built layer of input width [d] and output width [u] and a
    batch [X] of sizes [n, d], [forward] returns
    [X @ (W_mu + softplus(W_rho) * eps_W) + broadcast(b_mu + softplus(b_rho) * eps_b)]
    for the noise tensors [eps_W], [eps_b] of that call; the result has
    sizes [n, u], and its entry [(i, j)] is the sum over [k] of
    [X[i,k] * (W_mu[k,j] + ln(1 + exp(W_rho[k,j])) * eps_W[k,j])] plus
    [b_mu[j] + ln(1 + exp(b_rho[j])) * eps_b[j]]. *)
Theorem forward_affine_of_samples
        (d u n : nat) (wm wr bm br X : tensor)
        (l : ProbabilisticDense.t) (g : stream) :
  Contract.built d u wm wr bm br l -> shape X = [n; d] ->
  exists (out : tensor) (w' : world ProbabilisticDense.t),
    ProbabilisticDense.forward X (World l g) = (Ok out, w')
    /\ out = Contract.affine n d u X
               (Contract.sample wm wr (Contract.noise_W g d u))
               (Contract.sample bm br (Contract.noise_b g d u))
    /\ shape out = [n; u] /\ well_formed out
    /\ forall i j, (i < n)%nat -> (j < u)%nat ->
         get2 out u i j
         = (rsum (map (fun k =>
                    get2 X d i k
                    * (get2 wm u k j
                       + ln (1 + exp (get2 wr u k j))
                         * get2 (Contract.noise_W g d u) u k j))
                  (seq 0 d))
            + (get1 bm j
               + ln (1 + exp (get1 br j)) * get1 (Contract.noise_b g d u) j))%R.
Proof.
  intros B HX. pose proof (@forward_run d u n wm wr bm br X l g B HX) as Run.
  eexists. eexists. split; [exact Run |].
  split; [reflexivity |]. split; [reflexivity |].
  split; [apply affine_well_formed |].
  intros i j Hi Hj. rewrite affine_entry by assumption.
  destruct B as [_ _ _ _ _ _ Swm Swr Sbm Sbr Fwm Fwr Fbm Fbr].
  unfold well_formed in *.
  rewrite Swm, numel_matrix in Fwm. rewrite Swr, numel_matrix in Fwr.
  rewrite Sbm, numel_vector in Fbm. rewrite Sbr, numel_vector in Fbr.
  f_equal.
  - f_equal. apply map_ext_in. intros k Hk. apply in_seq in Hk.
    f_equal. unfold get2.
    apply sample_entry; rewrite ?length_noise_W; nia.
  - unfold get1. apply sample_entry; rewrite ?length_noise_b; lia.
Qed.

(** A built layer of input width 4 and output width 1 on a batch of two
    rows: the output has sizes [2, 1]. *)
Lemma forward_affine_of_samples_witness :
  let l := ProbabilisticDense.Obj (PyInt 4) Examples.zeros_init (PyInt 1) (PyInt 1)
             (Some (Tensor [4; 1]%nat [0; 0; 0; 0]%R))
             (Some (Tensor [4; 1]%nat [0; 0; 0; 0]%R))
             (Some (Examples.vec [0%R])) (Some (Examples.vec [0%R])) None None in
  let X := Tensor [2; 4]%nat [1; 2; 3; 4; 5; 6; 7; 8]%R in
  exists (out : tensor) (w' : world ProbabilisticDense.t),
    ProbabilisticDense.forward X (World l Examples.ones) = (Ok out, w')
    /\ shape out = [2; 1]%nat.
Proof.
  intros l X.
  destruct (@forward_affine_of_samples 4 1 2
              (Tensor [4; 1]%nat [0; 0; 0; 0]%R) (Tensor [4; 1]%nat [0; 0; 0; 0]%R)
              (Examples.vec [0%R]) (Examples.vec [0%R]) X l Examples.ones)
    as (out & w' & Run & _ & Hshape & _).
  - constructor; reflexivity.
  - reflexivity.
  - exists out, w'. split; [exact Run | exact Hshape].
Defined.

(** C3. On every forward call of a built layer the two noise tensors are
    drawn anew by [torch.normal] over a zero mean with standard deviation
    [exp(-3)], the scale of the fixed prior: [eps_W] has sizes [d, u] and
    its entry [k] is [exp(-3)] times variate [k] of the generator, [eps_b]
    has size [u] and its entry [j] is [exp(-3)] times variate [d * u + j];
    the call moves the generator past these [d * u + u] variates, so the
    next call draws other ones; the noise is kept in no attribute, and
    [params] lists the same four tensors after the call. *)
Theorem forward_noise_is_fresh
        (d u n : nat) (wm wr bm br X : tensor)
        (l : ProbabilisticDense.t) (g : stream) :
  Contract.built d u wm wr bm br l -> shape X = [n; d] ->
  let eps_W := Contract.noise_W g d u in
  let eps_b := Contract.noise_b g d u in
  exists (out : tensor) (l' : ProbabilisticDense.t),
    ProbabilisticDense.forward X (World l g)
    = (Ok out, World l' (Contract.after_noise g d u))
    /\ normal (Tensor [d; u] (repeat 0%R (d * u)))
              ProbabilisticDense.sigma_prior (World l g)
       = (Ok eps_W, World l (fun i => g (d * u + i)%nat))
    /\ normal (Tensor [u] (repeat 0%R u))
              ProbabilisticDense.sigma_prior (World l (fun i => g (d * u + i)%nat))
       = (Ok eps_b, World l (Contract.after_noise g d u))
    /\ ProbabilisticDense.sigma_prior = Losses.prior_sigma
    /\ shape eps_W = [d; u] /\ well_formed eps_W
    /\ shape eps_b = [u] /\ well_formed eps_b
    /\ (forall k, (k < d * u)%nat -> nth k (data eps_W) 0%R = (exp (- 3) * g k)%R)
    /\ (forall j, (j < u)%nat ->
          nth j (data eps_b) 0%R = (exp (- 3) * g (d * u + j)%nat)%R)
    /\ ProbabilisticDense.W l' = Some (Contract.sample wm wr eps_W)
    /\ ProbabilisticDense.b l' = Some (Contract.sample bm br eps_b)
    /\ Contract.only_samples l l'
    /\ (forall g1, ProbabilisticDense.params (World l' g1)
                   = (Ok [wm; wr; bm; br], World l' g1))
    /\ exists (out2 : tensor) (l2 : ProbabilisticDense.t),
         ProbabilisticDense.forward X (World l' (Contract.after_noise g d u))
         = (Ok out2, World l2 (Contract.after_noise (Contract.after_noise g d u) d u))
         /\ ProbabilisticDense.W l2
            = Some (Contract.sample wm wr
                      (Contract.noise_W (Contract.after_noise g d u) d u))
         /\ forall k, (k < d * u)%nat ->
              nth k (data (Contract.noise_W (Contract.after_noise g d u) d u)) 0%R
              = (exp (- 3) * g (d * u + (u + k))%nat)%R.
Proof.
  intros B HX eps_W eps_b.
  pose proof (@forward_run d u n wm wr bm br X l g B HX) as Run.
  set (l' := ProbabilisticDense.set_b (Some (Contract.sample bm br eps_b))
               (ProbabilisticDense.set_W (Some (Contract.sample wm wr eps_W)) l)).
  assert (S' : Contract.only_samples l l') by (eexists; eexists; reflexivity).
  assert (B' : Contract.built d u wm wr bm br l')
    by (exact (built_only_samples B S')).
  pose proof (@forward_run d u n wm wr bm br X l'
                (Contract.after_noise g d u) B' HX) as Run2.
  eexists. exists l'. split; [exact Run |].
  split.
  { unfold normal, bind, draw, ret. cbn [self rng data shape].
    rewrite repeat_length, normal_zero_entries. reflexivity. }
  split.
  { unfold normal, bind, draw, ret. cbn [self rng data shape].
    rewrite repeat_length.
    rewrite (normal_zero_entries ProbabilisticDense.sigma_prior
               (fun i => g (d * u + i)%nat)).
    unfold ProbabilisticDense.sigma_prior.
    rewrite (map_seq_shift (fun k => (exp (- 3) * g k)%R)). reflexivity. }
  split; [reflexivity |].
  split; [reflexivity |].
  split.
  { unfold well_formed, eps_W. rewrite length_noise_W.
    cbn [Contract.noise_W shape]. now rewrite numel_matrix. }
  split; [reflexivity |].
  split.
  { unfold well_formed, eps_b. rewrite length_noise_b.
    cbn [Contract.noise_b shape]. now rewrite numel_vector. }
  split.
  { intros k Hk. unfold eps_W, Contract.noise_W. cbn [data].
    now rewrite nth_map_seq. }
  split.
  { intros j Hj. unfold eps_b, Contract.noise_b. cbn [data].
    now rewrite nth_map_seq. }
  split; [reflexivity |]. split; [reflexivity |]. split; [exact S' |].
  split; [intros g1; exact (params_built g1 B') |].
  eexists. eexists. split; [exact Run2 |]. split; [reflexivity |].
  intros k Hk. unfold Contract.noise_W. cbn [data].
  now rewrite nth_map_seq.
Qed.

Lemma forward_noise_is_fresh_witness :
  exists (out : tensor) (l' : ProbabilisticDense.t),
    ProbabilisticDense.forward (Examples.mat11 2) (World Examples.unit_layer Examples.ones)
    = (Ok out, World l' (Contract.after_noise Examples.ones 1 1))
    /\ ProbabilisticDense.W l'
       = Some (Contract.sample (Examples.mat11 0) (Examples.mat11 0)
                 (Contract.noise_W Examples.ones 1 1)).
Proof.
  destruct (@forward_noise_is_fresh 1 1 1
              (Examples.mat11 0) (Examples.mat11 0)
              (Examples.vec [0%R]) (Examples.vec [0%R])
              (Examples.mat11 2) Examples.unit_layer Examples.ones)
    as (out & l' & Run & _ & _ & _ & _ & _ & _ & _ & _ & _ & HW & _).
  - constructor; reflexivity.
  - reflexivity.
  - exists out, l'. split; [exact Run | exact HW].
Defined.

(** In exact arithmetic every entry of the scale [log1p(exp(rho))], of any
    sizes, is strictly positive. *)
Lemma softplus_scale_positive (rho : tensor) :
  shape (log1p (texp rho)) = shape rho
  /\ length (data (log1p (texp rho))) = length (data rho)
  /\ Forall (fun s => (0 < s)%R) (data (log1p (texp rho))).
Proof.
  split; [reflexivity |]. split.
  - cbn [data log1p texp pointwise]. now rewrite !length_map.
  - cbn [data log1p texp pointwise]. rewrite map_map.
    apply Forall_forall. intros s Hs. apply in_map_iff in Hs.
    destruct Hs as (x & <- & _).
    rewrite <- ln_1. apply ln_increasing; [lra |].
    pose proof (exp_pos x). lra.
Qed.

(** C9. A layer constructed without an input width, on which [build] was
    never called, does not return a tensor from [forward]: the call raises
    at once and leaves the layer and the generator as they were. *)
Theorem forward_before_build
        (units_arg : pyval) (init_fn : initializer) (X : tensor) (g g' : stream) :
  exists l : ProbabilisticDense.t,
    ProbabilisticDense.__init__ units_arg init_fn PyNone g = (Ok l, g)
    /\ ProbabilisticDense.forward X (World l g') = (Err TypeError, World l g').
Proof.
  eexists. split; reflexivity.
Qed.

(* ===================================================================== *)
(** * Facts about single-precision rounding *)
(* ===================================================================== *)

Section FloatFacts.

Import Float32.
Open Scope R_scope.

Lemma lt_div (a b q : R) : 0 < q -> a * q < b -> a < b / q.
Proof.
  intros Hq H. apply Rmult_lt_reg_r with q; [exact Hq |].
  unfold Rdiv. rewrite Rmult_assoc, Rinv_l by lra. lra.
Qed.

Lemma div_lt (a b q : R) : 0 < q -> a < b * q -> a / q < b.
Proof.
  intros Hq H. apply Rmult_lt_reg_r with q; [exact Hq |].
  unfold Rdiv. rewrite Rmult_assoc, Rinv_l by lra. lra.
Qed.

Lemma ln2_pos : 0 < ln 2.
Proof. rewrite <- ln_1. apply ln_increasing; lra. Qed.

Lemma ln2_lt_1 : ln 2 < 1.
Proof.
  rewrite <- (ln_exp 1). apply ln_increasing; [lra |].
  pose proof (exp_ineq1 1). lra.
Qed.

Lemma pow2_exp (k : Z) : pow2 k = exp (IZR k * ln 2).
Proof. reflexivity. Qed.

Lemma pow2_pos (k : Z) : 0 < pow2 k.
Proof. rewrite pow2_exp. apply exp_pos. Qed.

Lemma pow2_le (j k : Z) : (j <= k)%Z -> pow2 j <= pow2 k.
Proof.
  intros H. rewrite !pow2_exp.
  destruct (Z.eq_dec j k) as [-> | N]; [lra |].
  apply Rlt_le, exp_increasing.
  apply Rmult_lt_compat_r; [apply ln2_pos |]. apply IZR_lt. lia.
Qed.

Lemma pow2_add (j k : Z) : pow2 (j + k) = pow2 j * pow2 k.
Proof.
  rewrite !pow2_exp, plus_IZR, Rmult_plus_distr_r. apply exp_plus.
Qed.

Lemma pow2_0 : pow2 0 = 1.
Proof. rewrite pow2_exp, Rmult_0_l. apply exp_0. Qed.

Lemma pow2_1 : pow2 1 = 2.
Proof. rewrite pow2_exp, Rmult_1_l. apply exp_ln. lra. Qed.

Lemma pow2_double (k : Z) : pow2 (k + 1) = 2 * pow2 k.
Proof. rewrite pow2_add, pow2_1. ring. Qed.

Lemma pow2_ge_1 (k : Z) : (0 <= k)%Z -> 1 <= pow2 k.
Proof. intros H. rewrite <- pow2_0. now apply pow2_le. Qed.

Lemma pow2_le_half (k : Z) : (k <= -1)%Z -> pow2 k <= 1 / 2.
Proof.
  intros H. apply Rle_trans with (pow2 (-1)); [now apply pow2_le |].
  assert (D : pow2 0 = 2 * pow2 (-1)) by exact (pow2_double (-1)).
  rewrite pow2_0 in D. lra.
Qed.

Lemma ln_pow2 (k : Z) : ln (pow2 k) = IZR k * ln 2.
Proof. rewrite pow2_exp. apply ln_exp. Qed.

Lemma floor_nonneg (t : R) : 0 <= t -> (0 <= Int_part t)%Z.
Proof.
  intros H. destruct (base_Int_part t) as [_ Hf].
  apply Z.lt_succ_r, lt_IZR. rewrite succ_IZR.
  change (Z.pred 0) with (-1)%Z. lra.
Qed.

Lemma nearest_even_nonneg (t : R) : 0 <= t -> (0 <= nearest_even t)%Z.
Proof.
  intros H. pose proof (floor_nonneg H) as Hf. unfold nearest_even.
  destruct (Rlt_dec (t - IZR (Int_part t)) (1 / 2)); [exact Hf |].
  destruct (Rlt_dec (1 / 2) (t - IZR (Int_part t))); [lia |].
  destruct (Z.even (Int_part t)); lia.
Qed.

Lemma nearest_even_small (t : R) : 0 <= t < 1 / 2 -> nearest_even t = 0%Z.
Proof.
  intros [H0 H1].
  assert (Hf : Int_part t = 0%Z).
  { symmetry. apply Int_part_spec. cbn. lra. }
  unfold nearest_even. rewrite Hf.
  destruct (Rlt_dec (t - 0) (1 / 2)) as [_ | N]; [reflexivity | lra].
Qed.

Lemma nearest_even_pos (t : R) : 1 / 2 < t -> (1 <= nearest_even t)%Z.
Proof.
  intros H. assert (Hf : (0 <= Int_part t)%Z) by (apply floor_nonneg; lra).
  unfold nearest_even.
  destruct (Rlt_dec (t - IZR (Int_part t)) (1 / 2)) as [Hd | Hd].
  - destruct (Z.eq_dec (Int_part t) 0) as [E | E]; [| lia].
    rewrite E in Hd. cbn in Hd. lra.
  - destruct (Rlt_dec (1 / 2) (t - IZR (Int_part t))); [lia |].
    destruct (Z.even (Int_part t)) eqn:Ev; [| lia].
    destruct (Z.eq_dec (Int_part t) 0) as [E | E]; [| lia].
    rewrite E in *. cbn in *. lra.
Qed.

Lemma quantum_pos (y : R) : 0 < quantum y.
Proof. apply pow2_pos. Qed.

Lemma quantum_ge (y : R) : pow2 (-149) <= quantum y.
Proof. unfold quantum, binade. apply pow2_le. lia. Qed.

(** Below half the smallest positive float the spacing is that of the
    subnormal values. *)
Lemma quantum_tiny (y : R) : 0 < y < pow2 (-150) -> quantum y = pow2 (-149).
Proof.
  intros [H0 H1]. unfold quantum, binade. rewrite Rabs_pos_eq by lra.
  assert (Hl : ln y / ln 2 < -150).
  { apply ln_increasing in H1; [| exact H0]. rewrite ln_pow2 in H1.
    apply div_lt; [apply ln2_pos | lra]. }
  destruct (base_Int_part (ln y / ln 2)) as [Hf _].
  assert ((Int_part (ln y / ln 2) < -126)%Z) by (apply lt_IZR; lra).
  rewrite Z.max_r by lia. reflexivity.
Qed.

Lemma scaled_above_half (y : R) : pow2 (-150) < y -> 1 / 2 < y / quantum y.
Proof.
  intros H. pose proof (pow2_pos (-150)) as P.
  assert (Hy : 0 < y) by lra.
  unfold quantum, binade. rewrite Rabs_pos_eq by lra.
  destruct (Z.max_spec (Int_part (ln y / ln 2)) (-126)) as [[_ ->] | [Hk ->]].
  - change (-126 - 23)%Z with (-150 + 1)%Z. rewrite pow2_double.
    apply lt_div; lra.
  - set (k := Int_part (ln y / ln 2)) in *.
    assert (Hpk : pow2 k <= y).
    { rewrite <- (exp_ln y) by exact Hy. rewrite pow2_exp.
      destruct (base_Int_part (ln y / ln 2)) as [Hf _]. fold k in Hf.
      pose proof ln2_pos as L.
      assert (IZR k * ln 2 <= ln y).
      { destruct (Rle_or_lt (IZR k * ln 2) (ln y)) as [Hle | Hgt]; [exact Hle |].
        exfalso. apply (@div_lt (ln y) (IZR k) (ln 2) L) in Hgt. lra. }
      destruct (Req_dec (IZR k * ln 2) (ln y)) as [-> | N]; [lra |].
      apply Rlt_le, exp_increasing. lra. }
    replace k with (k - 23 + 23)%Z in Hpk by lia. rewrite pow2_add in Hpk.
    pose proof (pow2_pos (k - 23)) as Q.
    pose proof (@pow2_ge_1 23 ltac:(lia)) as G.
    apply lt_div; [exact Q | nra].
Qed.

Lemma round_0 : round 0 = Finite 0.
Proof.
  unfold round. destruct (Req_dec_T 0 0) as [_ | N]; [reflexivity | lra].
Qed.

(** Rounding a positive number never gives a negative one, and what it
    gives is 0 or at least the smallest positive float. *)
Lemma round_positive (y : R) :
  0 < y ->
  round y = PosInf
  \/ exists s, round y = Finite s /\ (s = 0 \/ pow2 (-149) <= s).
Proof.
  intros Hy. unfold round.
  destruct (Req_dec_T y 0) as [E | _]; [lra |].
  pose proof (quantum_pos y) as Q. pose proof (quantum_ge y) as G.
  assert (Ht : 0 <= y / quantum y).
  { apply Rlt_le, Rdiv_lt_0_compat; assumption. }
  pose proof (nearest_even_nonneg Ht) as Hn.
  set (n := nearest_even (y / quantum y)) in *.
  destruct (Rle_dec (pow2 128) (IZR n * quantum y)); [now left |].
  right.
  destruct (Rle_dec (IZR n * quantum y) (- pow2 128)) as [Hneg | _].
  - exfalso. pose proof (pow2_pos 128). apply IZR_le in Hn. nra.
  - eexists. split; [reflexivity |].
    destruct (Z.eq_dec n 0) as [-> | N]; [left; cbn; ring |].
    right. assert (1 <= IZR n) by (apply IZR_le; lia). nra.
Qed.

Lemma round_tiny (y : R) : 0 < y < pow2 (-150) -> round y = Finite 0.
Proof.
  intros [H0 H1]. unfold round.
  destruct (Req_dec_T y 0) as [E | _]; [lra |].
  rewrite quantum_tiny by lra.
  pose proof (pow2_pos (-149)) as Q. pose proof (pow2_pos 128) as P.
  assert (D : pow2 (-149) = 2 * pow2 (-150)) by exact (pow2_double (-150)).
  rewrite nearest_even_small.
  - rewrite Rmult_0_l.
    destruct (Rle_dec (pow2 128) 0); [lra |].
    destruct (Rle_dec 0 (- pow2 128)); [lra | reflexivity].
  - split.
    + apply Rlt_le, Rdiv_lt_0_compat; assumption.
    + apply div_lt; [exact Q | lra].
Qed.

Lemma round_not_tiny (y : R) :
  pow2 (-150) < y ->
  round y = PosInf \/ exists s, round y = Finite s /\ pow2 (-149) <= s.
Proof.
  intros H. pose proof (pow2_pos (-150)) as P.
  unfold round. destruct (Req_dec_T y 0) as [E | _]; [lra |].
  pose proof (quantum_pos y) as Q. pose proof (quantum_ge y) as G.
  pose proof (nearest_even_pos (scaled_above_half H)) as Hn.
  set (n := nearest_even (y / quantum y)) in *.
  assert (1 <= IZR n) by (apply IZR_le; lia).
  destruct (Rle_dec (pow2 128) (IZR n * quantum y)); [now left |].
  right.
  destruct (Rle_dec (IZR n * quantum y) (- pow2 128)) as [Hneg | _].
  - exfalso. pose proof (pow2_pos 128). nra.
  - eexists. split; [reflexivity |]. nra.
Qed.

(** One plus a float that is at least the smallest positive one has a
    logarithm above half of it. *)
Lemma ln_1p_not_tiny (x : R) : pow2 (-149) <= x -> pow2 (-150) < ln (1 + x).
Proof.
  intros H. pose proof (pow2_pos (-150)) as P.
  pose proof (@pow2_le_half (-150) ltac:(lia)) as Hh.
  assert (D : pow2 (-149) = 2 * pow2 (-150)) by exact (pow2_double (-150)).
  set (c := pow2 (-150)) in *.
  rewrite <- (ln_exp c). apply ln_increasing; [apply exp_pos |].
  assert (Hc : exp c < 1 + 2 * c).
  { pose proof (exp_ineq1 (- c) ltac:(lra)) as I.
    rewrite exp_Ropp in I. pose proof (exp_pos c) as E.
    assert (J : (1 - c) * exp c < 1).
    { apply Rmult_lt_compat_r with (r := exp c) in I; [| exact E].
      rewrite Rinv_l in I by lra. lra. }
    nra. }
  lra.
Qed.

End FloatFacts.

(** C6, as stated, fails in single precision: at [rho = -200] the
    exponential underflows to 0, and [log1p] of 0 is 0, so the scale is 0
    and not strictly positive. *)
Lemma softplus_underflows_to_zero :
  exists s : R,
    Float32.softplus32 (Float32.Finite (- 200)) = Float32.Finite s
    /\ s = 0%R /\ ~ (0 < s)%R.
Proof.
  exists 0%R. split; [| split; [reflexivity | lra]].
  unfold Float32.softplus32, Float32.exp32.
  rewrite round_tiny.
  - unfold Float32.log1p32.
    destruct (Rlt_dec 0 (- 1)); [lra |].
    destruct (Req_dec_T 0 (- 1)); [lra |].
    rewrite Rplus_0_r, ln_1. apply round_0.
  - split; [apply exp_pos |].
    rewrite pow2_exp. apply exp_increasing.
    pose proof ln2_lt_1. pose proof ln2_pos. lra.
Qed.

(** C6, amended.  In exact arithmetic every entry of the scale
    [log1p(exp(rho))], for a tensor [rho] of any sizes, is strictly
    positive.  In single precision, for every finite entry [rho], the scale
    is never negative and never NaN: it is exactly 0 when [exp(rho)] lies
    below [2^-150], half the smallest positive float, and it is strictly
    positive (or infinite) when [exp(rho)] lies above [2^-150]. *)
Theorem softplus_scale_sign (t : tensor) (rho : R) :
  (shape (log1p (texp t)) = shape t
   /\ Forall (fun s => (0 < s)%R) (data (log1p (texp t))))
  /\ (Float32.softplus32 (Float32.Finite rho) = Float32.PosInf
      \/ exists s, Float32.softplus32 (Float32.Finite rho) = Float32.Finite s
                   /\ (0 <= s)%R)
  /\ ((exp rho < Float32.pow2 (-150))%R ->
      Float32.softplus32 (Float32.Finite rho) = Float32.Finite 0)
  /\ ((Float32.pow2 (-150) < exp rho)%R ->
      Float32.softplus32 (Float32.Finite rho) = Float32.PosInf
      \/ exists s, Float32.softplus32 (Float32.Finite rho) = Float32.Finite s
                   /\ (0 < s)%R).
Proof.
  pose proof (exp_pos rho) as E. pose proof (pow2_pos (-149)) as P149.
  assert (Hlog : forall x : R,
             (Float32.pow2 (-149) <= x)%R ->
             Float32.log1p32 (Float32.Finite x) = Float32.PosInf
             \/ exists s, Float32.log1p32 (Float32.Finite x) = Float32.Finite s
                          /\ (0 < s)%R).
  { intros x Hx. unfold Float32.log1p32.
    destruct (Rlt_dec x (- 1)); [lra |].
    destruct (Req_dec_T x (- 1)); [lra |].
    destruct (round_not_tiny (ln_1p_not_tiny Hx)) as [-> | (s & -> & Hs)];
      [now left | right].
    exists s. split; [reflexivity | lra]. }
  assert (Hzero : Float32.log1p32 (Float32.Finite 0) = Float32.Finite 0).
  { unfold Float32.log1p32.
    destruct (Rlt_dec 0 (- 1)); [lra |].
    destruct (Req_dec_T 0 (- 1)); [lra |].
    rewrite Rplus_0_r, ln_1. apply round_0. }
  split; [| split; [| split]].
  - destruct (softplus_scale_positive t) as (Hs & _ & Hpos). now split.
  - unfold Float32.softplus32, Float32.exp32.
    destruct (round_positive E) as [-> | (x & -> & [-> | Hx])].
    + now left.
    + right. exists 0%R. split; [exact Hzero | lra].
    + destruct (Hlog x Hx) as [-> | (s & -> & Hs)]; [now left | right].
      exists s. split; [reflexivity | lra].
  - intros H. unfold Float32.softplus32, Float32.exp32.
    rewrite round_tiny by lra. exact Hzero.
  - intros H. unfold Float32.softplus32, Float32.exp32.
    destruct (round_not_tiny H) as [-> | (x & -> & Hx)]; [now left |].
    exact (Hlog x Hx).
Qed.

Lemma softplus_scale_sign_witness :
  Float32.softplus32 (Float32.Finite 0) = Float32.PosInf
  \/ exists s, Float32.softplus32 (Float32.Finite 0) = Float32.Finite s /\ (0 < s)%R.
Proof.
  apply (softplus_scale_sign (Examples.vec [0%R]) 0). rewrite exp_0.
  pose proof (@pow2_le_half (-150) ltac:(lia)). lra.
Defined.

(* ===================================================================== *)
(** * The state of the layer *)
(* ===================================================================== *)

(** C5. A forward call assigns no attribute of the layer other than the
    two retained samples, whether it returns or raises.  On a built layer
    every call, on any tensor, leaves in the attributes [W] and [b] the
    samples of this call, computed from the parameters and from the noise
    of this call alone, and nothing of what they held before: on any layer
    that differs in the two samples only, the call has the same outcome
    and leaves the same layer.  The same holds of every call that returns,
    built layer or not.  The variational loss leaves every layer of the
    model and the generator as they were, has the same outcome whatever
    the generator, and raises when a Bayesian layer has no retained sample
    to read. *)
Theorem forward_writes_only_samples :
  (forall (X : tensor) (l : ProbabilisticDense.t) (g : stream),
     let l' := self (snd (ProbabilisticDense.forward X (World l g))) in
     ProbabilisticDense.W_mu l' = ProbabilisticDense.W_mu l
     /\ ProbabilisticDense.W_rho l' = ProbabilisticDense.W_rho l
     /\ ProbabilisticDense.b_mu l' = ProbabilisticDense.b_mu l
     /\ ProbabilisticDense.b_rho l' = ProbabilisticDense.b_rho l
     /\ ProbabilisticDense.input_dim l' = ProbabilisticDense.input_dim l
     /\ ProbabilisticDense.units l' = ProbabilisticDense.units l
     /\ ProbabilisticDense.output_dim l' = ProbabilisticDense.output_dim l
     /\ ProbabilisticDense.init l' = ProbabilisticDense.init l)
  /\ (forall (d u : nat) (wm wr bm br X : tensor)
             (l : ProbabilisticDense.t) (g : stream),
        Contract.built d u wm wr bm br l ->
        let w' := snd (ProbabilisticDense.forward X (World l g)) in
        ProbabilisticDense.W (self w')
        = Some (Contract.sample wm wr
                  (Tensor [d; u] (map (fun k => (exp (- 3) * g k)%R)
                                      (seq 0 (d * u)))))
        /\ ProbabilisticDense.b (self w')
           = Some (Contract.sample bm br
                     (Tensor [u] (map (fun k => (exp (- 3) * g k)%R)
                                      (seq (d * u) u))))
        /\ forall l2 : ProbabilisticDense.t,
             Contract.same_but_samples l l2 ->
             ProbabilisticDense.forward X (World l2 g)
             = ProbabilisticDense.forward X (World l g))
  /\ (forall (X out : tensor) (l : ProbabilisticDense.t) (g : stream)
             (w' : world ProbabilisticDense.t),
        ProbabilisticDense.forward X (World l g) = (Ok out, w') ->
        exists (wm wr bm br : tensor) (sW sb : list nat),
          ProbabilisticDense.W_mu l = Some wm
          /\ ProbabilisticDense.W_rho l = Some wr
          /\ ProbabilisticDense.b_mu l = Some bm
          /\ ProbabilisticDense.b_rho l = Some br
          /\ rmapM as_size [ProbabilisticDense.input_dim l;
                            ProbabilisticDense.output_dim l] = Ok sW
          /\ rmapM as_size [ProbabilisticDense.output_dim l] = Ok sb
          /\ ProbabilisticDense.W (self w')
             = Some (Contract.sample wm wr
                       (Tensor sW (map (fun k => (exp (- 3) * g k)%R)
                                       (seq 0 (numel sW)))))
          /\ ProbabilisticDense.b (self w')
             = Some (Contract.sample bm br
                       (Tensor sb (map (fun k => (exp (- 3) * g k)%R)
                                       (seq (numel sW) (numel sb)))))
          /\ forall l2 : ProbabilisticDense.t,
               Contract.same_but_samples l l2 ->
               ProbabilisticDense.forward X (World l2 g) = (Ok out, w'))
  /\ (forall (Other : Type) (true pred : tensor)
             (log_likelihood : tensor -> tensor -> result R)
             (ls : Losses.model Other) (g : stream),
        snd (Losses.variational_loss true pred log_likelihood (World ls g))
        = World ls g
        /\ (forall g2 : stream,
              fst (Losses.variational_loss true pred log_likelihood (World ls g2))
              = fst (Losses.variational_loss true pred log_likelihood (World ls g)))
        /\ (forall (pre rest : Losses.model Other) (l : ProbabilisticDense.t)
                   (v : R),
              ls = pre ++ Losses.Bayesian l :: rest ->
              (forall l0, ~ In (Losses.Bayesian l0) pre) ->
              ProbabilisticDense.W l = None ->
              log_likelihood true pred = Ok v ->
              Losses.variational_loss true pred log_likelihood (World ls g)
              = (Err (AttributeError "W"), World ls g))).
Proof.
  split; [| split; [| split]].
  - intros X l g l'.
    destruct (ProbabilisticDense.forward X (World l g)) as [r w'] eqn:E.
    apply forward_frame in E. cbn [self] in E.
    destruct E as (Wo & bo & E). subst l'. cbn [snd]. rewrite E.
    repeat split.
  - intros d u wm wr bm br X l g B w'. subst w'.
    rewrite (forward_built X g B). cbn [snd self].
    split; [reflexivity |]. split; [reflexivity |].
    intros l2 Hl2.
    rewrite (forward_built X g (built_same_but_samples B Hl2)).
    now rewrite (same_but_samples_overwritten _ _ Hl2).
  - intros X out l g w' H. pose proof H as H0.
    apply forward_inv in H0.
    destruct H0 as (zW & zb & wm & wr & bm & br & Wv & bv & XW & be &
                    HzW & Hzb & Hwm & Hwr & Hbm & Hbr & HWv & Hbv & _ & _ & _ & ->).
    unfold zeros in HzW, Hzb.
    destruct (rmapM as_size [ProbabilisticDense.input_dim l;
                             ProbabilisticDense.output_dim l]) as [sW |] eqn:EW;
      [| discriminate].
    destruct (rmapM as_size [ProbabilisticDense.output_dim l]) as [sb |] eqn:Eb;
      [| discriminate].
    cbn [rbind] in HzW, Hzb. injection HzW as <-. injection Hzb as <-.
    cbn [data shape] in HWv, Hbv.
    repeat rewrite repeat_length in HWv. repeat rewrite repeat_length in Hbv.
    unfold ProbabilisticDense.sigma_prior in HWv, Hbv.
    rewrite normal_zero_entries in HWv.
    rewrite (normal_zero_entries (exp (- 3)) (fun i => g (numel sW + i)%nat))
      in Hbv.
    rewrite (map_seq_shift (fun k => (exp (- 3) * g k)%R)) in Hbv.
    apply reparameterize_inv in HWv. destruct HWv as (_ & _ & ->).
    apply reparameterize_inv in Hbv. destruct Hbv as (_ & _ & ->).
    exists wm, wr, bm, br, sW, sb.
    repeat (split; [first [assumption | reflexivity] |]).
    intros l2 Hl2. rewrite (same_but_samples_set Hl2).
    now apply forward_overwrites.
  - intros Other true pred ll ls g. split; [| split].
    + apply variational_loss_read_only.
    + intros g2. unfold Losses.variational_loss. cbv [bind lift attr ret self].
      destruct (ll true pred) as [v |]; [| reflexivity].
      destruct (complexity_pure (Losses.model Other) ls 0%R) as [r Hr].
      rewrite !Hr. now destruct r.
    + intros pre rest l v -> Hpre HW Hll.
      unfold Losses.variational_loss. cbv [bind lift attr ret self].
      rewrite Hll.
      rewrite complexity_missing_sample;
        [reflexivity | now apply no_bayesian_layers | exact HW].
Qed.

Lemma forward_writes_only_samples_witness :
  (exists (out : tensor) (w' : world ProbabilisticDense.t),
     ProbabilisticDense.forward (Examples.mat11 2)
       (World Examples.unit_layer Examples.ones) = (Ok out, w')
     /\ ProbabilisticDense.W (self w')
        = Some (Contract.sample (Examples.mat11 0) (Examples.mat11 0)
                  (Tensor [1; 1]%nat
                     (map (fun k => (exp (- 3) * Examples.ones k)%R)
                          (seq 0 (numel [1; 1]%nat)))))
     /\ ProbabilisticDense.forward (Examples.mat11 2)
          (World (ProbabilisticDense.Obj (PyInt 1) Examples.zeros_init
                    (PyInt 1) (PyInt 1)
                    (Some (Examples.mat11 0)) (Some (Examples.mat11 0))
                    (Some (Examples.vec [0%R])) (Some (Examples.vec [0%R]))
                    (Some (Examples.mat11 9)) (Some (Examples.vec [7%R])))
                 Examples.ones)
        = (Ok out, w'))
  /\ ProbabilisticDense.b
       (self (snd (ProbabilisticDense.forward (Tensor [1; 2]%nat [1; 2]%R)
                     (World Examples.unit_layer Examples.ones))))
     = Some (Contract.sample (Examples.vec [0%R]) (Examples.vec [0%R])
               (Tensor [1]%nat
                  (map (fun k => (exp (- 3) * Examples.ones k)%R)
                       (seq (1 * 1) 1))))
  /\ Losses.variational_loss (Examples.vec [1%R]) (Examples.vec [2%R])
       Examples.unit_log_likelihood
       (World [Losses.Conventional tt; Losses.Bayesian Examples.fresh_layer]
              Examples.ones)
     = (Err (AttributeError "W"),
        World [Losses.Conventional tt; Losses.Bayesian Examples.fresh_layer]
              Examples.ones).
Proof.
  destruct forward_writes_only_samples as (_ & Built & Over & Loss).
  split; [| split].
  - destruct (Over (Examples.mat11 2) _ Examples.unit_layer Examples.ones _ eq_refl)
      as (wm & wr & bm & br & sW & sb & Hwm & Hwr & _ & _ & HsW & _ & HW & _ & Hsame).
    injection Hwm as <-. injection Hwr as <-. injection HsW as <-.
    eexists. eexists. split; [reflexivity |]. split; [exact HW |].
    apply Hsame. repeat split.
  - apply (Built 1%nat 1%nat (Examples.mat11 0) (Examples.mat11 0)
             (Examples.vec [0%R]) (Examples.vec [0%R])
             (Tensor [1; 2]%nat [1; 2]%R) Examples.unit_layer Examples.ones).
    constructor; reflexivity.
  - destruct (Loss unit (Examples.vec [1%R]) (Examples.vec [2%R])
                Examples.unit_log_likelihood
                [Losses.Conventional tt; Losses.Bayesian Examples.fresh_layer]
                Examples.ones) as (_ & _ & Missing).
    eapply (Missing [Losses.Conventional tt] [] Examples.fresh_layer).
    + reflexivity.
    + intros l0 [H | []]. discriminate H.
    + reflexivity.
    + reflexivity.
Defined.

(* ===================================================================== *)
(** * Building the layer and its parameters *)
(* ===================================================================== *)

(** C10. On a layer that [build] never ran on (constructed with no input
    width, or with one that counts as false) the [params] property raises:
    the attribute [W_mu] does not exist.  Once [build(d)] has returned on a
    layer of [u] units whose initializer keeps the sizes it is asked for,
    [params] returns exactly the four tensors [W_mu, W_rho, b_mu, b_rho],
    in this order, of sizes [d, u], [d, u], [u], [u]; a later forward call,
    whatever its outcome, changes nothing of it: neither the retained
    samples nor the noise enter the list. *)
Theorem params_before_and_after_build :
  (forall (units_arg v : pyval) (init_fn : initializer) (g g' : stream),
     truthy v = false ->
     exists l : ProbabilisticDense.t,
       ProbabilisticDense.__init__ units_arg init_fn v g = (Ok l, g)
       /\ ProbabilisticDense.params (World l g')
          = (Err (AttributeError "W_mu"), World l g'))
  /\ (forall (d u : nat) (l : ProbabilisticDense.t) (g : stream)
             (w' : world ProbabilisticDense.t),
        ProbabilisticDense.units l = PyInt (Z.of_nat u) ->
        ProbabilisticDense.output_dim l = ProbabilisticDense.units l ->
        Contract.shape_respecting (ProbabilisticDense.init l) ->
        ProbabilisticDense.build (PyInt (Z.of_nat d)) (World l g) = (Ok tt, w') ->
        exists wm wr bm br : tensor,
          Contract.built d u wm wr bm br (self w')
          /\ shape wm = [d; u] /\ shape wr = [d; u]
          /\ shape bm = [u] /\ shape br = [u]
          /\ (forall g1, ProbabilisticDense.params (World (self w') g1)
                         = (Ok [wm; wr; bm; br], World (self w') g1))
          /\ (forall (X : tensor) (g1 : stream) (r : result tensor)
                     (w2 : world ProbabilisticDense.t),
                ProbabilisticDense.forward X (World (self w') g1) = (r, w2) ->
                ProbabilisticDense.params w2 = (Ok [wm; wr; bm; br], w2))).
Proof.
  split.
  - intros units_arg v init_fn g g' Hv.
    unfold ProbabilisticDense.__init__. cbn [ProbabilisticDense.input_dim].
    rewrite Hv. eexists. split; reflexivity.
  - intros d u l g w' Hu Ho Hinit Hb.
    apply build_inv in Hb.
    destruct Hb as (wm & wr & bm & br & g1 & g2 & g3 & g4 & E1 & E2 & E3 & E4 & ->).
    rewrite Ho, Hu in E1, E2, E3, E4.
    apply (Hinit [d; u]) in E1. apply (Hinit [d; u]) in E2.
    apply (Hinit [u]) in E3. apply (Hinit [u]) in E4.
    destruct E1 as [S1 F1], E2 as [S2 F2], E3 as [S3 F3], E4 as [S4 F4].
    assert (B : Contract.built d u wm wr bm br
                  (ProbabilisticDense.set_b_rho (Some br)
                     (ProbabilisticDense.set_b_mu (Some bm)
                        (ProbabilisticDense.set_W_rho (Some wr)
                           (ProbabilisticDense.set_W_mu (Some wm)
                              (ProbabilisticDense.set_input_dim
                                 (PyInt (Z.of_nat d)) l)))))).
    { constructor; try assumption; try reflexivity.
      cbn. now rewrite Ho, Hu. }
    exists wm, wr, bm, br. cbn [self].
    split; [exact B |]. repeat (split; [assumption |]).
    split.
    + intros g0. exact (params_built g0 B).
    + intros X g0 r w2 Hf. apply forward_frame in Hf. cbn [self] in Hf.
      destruct w2 as [l2 g2']. cbn [self] in Hf.
      exact (params_built g2' (built_only_samples B Hf)).
Qed.

Lemma params_before_and_after_build_witness :
  ProbabilisticDense.params (World Examples.fresh_layer Examples.ones)
  = (Err (AttributeError "W_mu"), World Examples.fresh_layer Examples.ones)
  /\ exists (w' : world ProbabilisticDense.t) (wm wr bm br : tensor),
       ProbabilisticDense.build (PyInt 3) (World Examples.fresh_layer Examples.ones)
       = (Ok tt, w')
       /\ ProbabilisticDense.params (World (self w') Examples.ones)
          = (Ok [wm; wr; bm; br], World (self w') Examples.ones)
       /\ shape wm = [3; 1]%nat /\ shape br = [1]%nat.
Proof.
  destruct params_before_and_after_build as [Before After].
  split.
  - destruct (Before (PyInt 1) PyNone Examples.zeros_init Examples.ones Examples.ones
                eq_refl) as (l & Hl & Hp).
    injection Hl as <-. exact Hp.
  - destruct (After 3%nat 1%nat Examples.fresh_layer Examples.ones _
                eq_refl eq_refl zeros_init_shape_respecting eq_refl)
      as (wm & wr & bm & br & _ & S1 & _ & _ & S4 & Hp & _).
    exists (snd (ProbabilisticDense.build (PyInt 3)
                   (World Examples.fresh_layer Examples.ones))), wm, wr, bm, br.
    split; [reflexivity |]. split; [apply Hp |]. split; [exact S1 | exact S4].
Defined.

(** C8, the layer without the guard.  [ProbabilisticDense.build] stores
    its argument before anything else and raises only what the initializer
    raises; with an initializer that takes its sizes through
    [operator.index], [build(True)] returns, leaves [input_dim = True] and
    allocates the four parameters, whereas [Dense.build(True)] raises
    [AssertionError] and leaves the layer untouched. *)
Theorem probabilistic_build_has_no_guard
        (Linear : Type)
        (TorchDense : pyval -> pyval -> stream -> result Linear * stream)
        (dense : Dense.t Linear) (g : stream) :
  let l := ProbabilisticDense.Obj PyNone Examples.index_zeros_init
             (PyInt 1) (PyInt 1) None None None None None None in
  let z11 := Tensor [1; 1]%nat [0%R] in
  let z1 := Tensor [1]%nat [0%R] in
  type_is_int (PyBool true) = false
  /\ ProbabilisticDense.__init__ (PyInt 1) Examples.index_zeros_init PyNone g
     = (Ok l, g)
  /\ ProbabilisticDense.build (PyBool true) (World l g)
     = (Ok tt,
        World (ProbabilisticDense.Obj (PyBool true) Examples.index_zeros_init
                 (PyInt 1) (PyInt 1)
                 (Some z11) (Some z11) (Some z1) (Some z1) None None) g)
  /\ Dense.build TorchDense (PyBool true) (World dense g)
     = (Err AssertionError, World dense g)
  /\ (forall (v : pyval) (l0 : ProbabilisticDense.t) (g0 : stream),
        ProbabilisticDense.input_dim
          (self (snd (ProbabilisticDense.build v (World l0 g0)))) = v).
Proof.
  intros l z11 z1.
  split; [reflexivity |]. split; [reflexivity |]. split; [reflexivity |].
  split; [now apply dense_build_guard |].
  intros v l0 g0. apply build_stores_argument.
Qed.

(* ===================================================================== *)
(** * The density helper and the variational loss *)
(* ===================================================================== *)

Section DensityFacts.

Import Losses.
Open Scope R_scope.

Lemma gaussian_logpdf_at_mean (mu s : R) :
  gaussian_logpdf mu mu s = - ln s - 0.5 * ln (2 * PI).
Proof. unfold gaussian_logpdf, Rdiv. ring. Qed.

Lemma nth_density (x m s : list R) (i : nat) :
  (i < length x)%nat -> (i < length m)%nat -> (i < length s)%nat ->
  nth i (map (fun xms : R * (R * R) =>
                gaussian_logpdf (fst xms) (fst (snd xms)) (snd (snd xms)))
             (combine x (combine m s))) 0
  = gaussian_logpdf (nth i x 0) (nth i m 0) (nth i s 0).
Proof.
  revert i m s. induction x as [| a x IH]; intros [| i] [| b m] [| c s] H1 H2 H3;
    simpl in *; try lia; [reflexivity |].
  apply IH; lia.
Qed.

Lemma density_at_mean_data (m s : list R) :
  length s = length m ->
  map (fun xms : R * (R * R) =>
         gaussian_logpdf (fst xms) (fst (snd xms)) (snd (snd xms)))
      (combine m (combine m s))
  = map (fun c => - ln c - 0.5 * ln (2 * PI)) s.
Proof.
  revert s. induction m as [| a m IH]; intros [| c s] H;
    simpl in *; try discriminate; [reflexivity |].
  rewrite gaussian_logpdf_at_mean, IH by lia. reflexivity.
Qed.

Lemma density_of_numbers (x : list R) (m s : R) :
  map (fun xms : R * (R * R) =>
         gaussian_logpdf (fst xms) (fst (snd xms)) (snd (snd xms)))
      (combine x (combine (repeat m (length x)) (repeat s (length x))))
  = map (fun xi => gaussian_logpdf xi m s) x.
Proof.
  induction x as [| a x IH]; [reflexivity |].
  cbn [length repeat combine map fst snd]. now rewrite IH.
Qed.

Lemma nth_repeat_below (r : R) (n k : nat) :
  (k < n)%nat -> nth k (repeat r n) 0 = r.
Proof.
  revert k. induction n as [| n IH]; intros [| k] H; cbn; try lia;
    [reflexivity |].
  apply IH. lia.
Qed.

Lemma length_density (x m s : list R) (n : nat) :
  length x = n -> length m = n -> length s = n ->
  length (map (fun xms : R * (R * R) =>
                 gaussian_logpdf (fst xms) (fst (snd xms)) (snd (snd xms)))
              (combine x (combine m s)))
  = n.
Proof. intros H1 H2 H3. rewrite length_map, !length_combine. lia. Qed.

Lemma broadcast3_same (s : list nat) : broadcast3 s s s = Some s.
Proof. unfold broadcast3. now rewrite !broadcast_shapes_refl. Qed.

Lemma broadcast3_numbers (s : list nat) : broadcast3 s [] [] = Some s.
Proof. unfold broadcast3. now rewrite !broadcast_shapes_nil_r. Qed.

Lemma broadcast3_same_number (s : list nat) : broadcast3 s s [] = Some s.
Proof.
  unfold broadcast3. now rewrite broadcast_shapes_refl, broadcast_shapes_nil_r.
Qed.

Lemma broadcast3_row (n u : nat) : broadcast3 [n; u] [u] [] = Some [n; u].
Proof.
  unfold broadcast3, broadcast_shapes at 1.
  cbn [rev app broadcast_rev]. rewrite broadcast_dim_refl.
  cbn [option_map rev app]. apply broadcast_shapes_nil_r.
Qed.

Lemma broadcast3_rows (n u : nat) : broadcast3 [u] [n; u] [] = Some [n; u].
Proof.
  unfold broadcast3, broadcast_shapes at 1.
  cbn [rev app broadcast_rev]. rewrite broadcast_dim_refl.
  cbn [option_map rev app]. apply broadcast_shapes_nil_r.
Qed.

Lemma broadcast_dim_mismatch (a b : nat) :
  a <> b -> a <> 1%nat -> b <> 1%nat -> broadcast_dim a b = None.
Proof.
  intros H Ha Hb. unfold broadcast_dim.
  destruct (Nat.eqb_spec a b); [contradiction |].
  destruct (Nat.eqb_spec a 1); [contradiction |].
  destruct (Nat.eqb_spec b 1); [contradiction | reflexivity].
Qed.

(** The helper on sizes that go together. *)
Lemma log_gaussian_run (x : tensor) (mu sigma : operand) (s : list nat) :
  broadcast3 (shape x) (shape (as_tensor mu)) (shape (as_tensor sigma)) = Some s ->
  log_gaussian x mu sigma
  = Ok (Tensor s
          (map (fun xms : R * (R * R) =>
                  gaussian_logpdf (fst xms) (fst (snd xms)) (snd (snd xms)))
               (combine (expand (shape x) s (data x))
                  (combine (expand (shape (as_tensor mu)) s (data (as_tensor mu)))
                           (expand (shape (as_tensor sigma)) s
                                   (data (as_tensor sigma))))))).
Proof. intros H. unfold log_gaussian. cbv zeta. now rewrite H. Qed.

(** The helper on three tensors of the same sizes. *)
Lemma log_gaussian_same (x mu sigma : tensor) :
  well_formed x -> well_formed mu -> well_formed sigma ->
  shape mu = shape x -> shape sigma = shape x ->
  log_gaussian x (Full mu) (Full sigma)
  = Ok (Tensor (shape x)
          (map (fun xms : R * (R * R) =>
                  gaussian_logpdf (fst xms) (fst (snd xms)) (snd (snd xms)))
               (combine (data x) (combine (data mu) (data sigma))))).
Proof.
  intros Wx Wm Ws Hm Hs. unfold well_formed in *.
  rewrite (@log_gaussian_run x (Full mu) (Full sigma) (shape x))
    by (cbn [as_tensor]; rewrite Hm, Hs; apply broadcast3_same).
  cbn [as_tensor]. rewrite Hm, Hs.
  rewrite !expand_same by congruence. reflexivity.
Qed.

(** The helper on a tensor and two numbers, as the prior is evaluated. *)
Lemma log_gaussian_numbers (x : tensor) (m s : R) :
  well_formed x ->
  log_gaussian x (Scalar m) (Scalar s)
  = Ok (Tensor (shape x) (map (fun xi => gaussian_logpdf xi m s) (data x))).
Proof.
  intros Wx. unfold well_formed in Wx.
  rewrite (@log_gaussian_run x (Scalar m) (Scalar s) (shape x))
    by (cbn [as_tensor shape]; apply broadcast3_numbers).
  cbn [as_tensor shape data].
  rewrite expand_same by exact Wx. rewrite !expand_scalar, <- Wx.
  now rewrite density_of_numbers.
Qed.

End DensityFacts.

(** C4. The density helper is a function of its three arguments alone.
    Whenever the sizes of the value, of the mean and of the scale go
    together it returns a tensor of the broadcast sizes, and it raises
    otherwise.  On tensors of the same sizes entry [i] is
    [-ln(sigma_i) - 0.5 * ln(2 * pi) - (x_i - mu_i)^2 / (2 * sigma_i^2)];
    with numbers for the mean and the scale, as the prior is evaluated
    with 0 and [exp(-3)], every entry is that expression at the two
    numbers; a row of means is repeated along the rows of the value, and a
    row of values along the rows of the mean, the result having the larger
    sizes.  At [x = mu] and a positive scale [s] the density is exactly
    [-ln(s) - 0.5 * ln(2 * pi)], entry by entry, for a tensor and for a
    number as the scale. *)
Theorem log_gaussian_at_mean :
  (forall (x : tensor) (mu sigma : Losses.operand),
     match Losses.broadcast3 (shape x) (shape (Losses.as_tensor mu))
                             (shape (Losses.as_tensor sigma)) with
     | Some s => exists v : tensor,
                   Losses.log_gaussian x mu sigma = Ok v
                   /\ shape v = s /\ length (data v) = numel s
     | None => Losses.log_gaussian x mu sigma = Err RuntimeError
     end)
  /\ (forall x mu sigma : tensor,
        well_formed x -> well_formed mu -> well_formed sigma ->
        shape mu = shape x -> shape sigma = shape x ->
        exists v : tensor,
          Losses.log_gaussian x (Losses.Full mu) (Losses.Full sigma) = Ok v
          /\ shape v = shape x
          /\ length (data v) = length (data x)
          /\ forall i, (i < length (data x))%nat ->
               (0 < nth i (data sigma) 0)%R ->
               nth i (data v) 0%R
               = (- ln (nth i (data sigma) 0)
                  - 0.5 * ln (2 * PI)
                  - (nth i (data x) 0 - nth i (data mu) 0) ^ 2
                    / (2 * nth i (data sigma) 0 ^ 2))%R)
  /\ (forall (x : tensor) (m s : R),
        well_formed x -> (0 < s)%R ->
        Losses.log_gaussian x (Losses.Scalar m) (Losses.Scalar s)
        = Ok (Tensor (shape x)
                (map (fun xi => (- ln s - 0.5 * ln (2 * PI)
                                 - (xi - m) ^ 2 / (2 * s ^ 2))%R)
                     (data x))))
  /\ (forall (x mu : tensor) (s : R) (n u : nat),
        shape x = [n; u] -> shape mu = [u] -> well_formed x -> (0 < s)%R ->
        exists v : tensor,
          Losses.log_gaussian x (Losses.Full mu) (Losses.Scalar s) = Ok v
          /\ shape v = [n; u]
          /\ forall i j, (i < n)%nat -> (j < u)%nat ->
               nth (i * u + j) (data v) 0%R
               = (- ln s - 0.5 * ln (2 * PI)
                  - (nth (i * u + j) (data x) 0 - nth j (data mu) 0) ^ 2
                    / (2 * s ^ 2))%R)
  /\ (forall (x mu : tensor) (s : R) (n u : nat),
        shape x = [u] -> shape mu = [n; u] -> well_formed mu -> (0 < s)%R ->
        exists v : tensor,
          Losses.log_gaussian x (Losses.Full mu) (Losses.Scalar s) = Ok v
          /\ shape v = [n; u]
          /\ forall i j, (i < n)%nat -> (j < u)%nat ->
               nth (i * u + j) (data v) 0%R
               = (- ln s - 0.5 * ln (2 * PI)
                  - (nth j (data x) 0 - nth (i * u + j) (data mu) 0) ^ 2
                    / (2 * s ^ 2))%R)
  /\ (forall (x : tensor) (mu sigma : Losses.operand) (a b : nat),
        shape x = [a] -> shape (Losses.as_tensor mu) = [b] ->
        a <> b -> a <> 1%nat -> b <> 1%nat ->
        Losses.log_gaussian x mu sigma = Err RuntimeError)
  /\ (forall mu s : R,
        (0 < s)%R ->
        Losses.gaussian_logpdf mu mu s = (- ln s - 0.5 * ln (2 * PI))%R)
  /\ (forall mu sigma : tensor,
        well_formed mu -> well_formed sigma -> shape sigma = shape mu ->
        Forall (fun s => (0 < s)%R) (data sigma) ->
        Losses.log_gaussian mu (Losses.Full mu) (Losses.Full sigma)
        = Ok (Tensor (shape mu)
                (map (fun s => (- ln s - 0.5 * ln (2 * PI))%R) (data sigma))))
  /\ (forall (mu : tensor) (s : R),
        well_formed mu -> (0 < s)%R ->
        Losses.log_gaussian mu (Losses.Full mu) (Losses.Scalar s)
        = Ok (Tensor (shape mu)
                (repeat (- ln s - 0.5 * ln (2 * PI))%R (length (data mu))))).
Proof.
  repeat match goal with |- _ /\ _ => split end.
  - intros x mu sigma.
    destruct (Losses.broadcast3 _ _ _) as [s |] eqn:E.
    + rewrite (log_gaussian_run x mu sigma E). eexists.
      split; [reflexivity |]. split; [reflexivity |]. cbn [data].
      apply length_density; apply length_expand.
    + unfold Losses.log_gaussian. cbv zeta. now rewrite E.
  - intros x mu sigma Wx Wm Ws Hm Hs.
    rewrite log_gaussian_same by assumption.
    unfold well_formed in *.
    eexists. split; [reflexivity |]. split; [reflexivity |]. cbn [data]. split.
    + apply length_density; congruence.
    + intros i Hi _. rewrite nth_density by congruence. reflexivity.
  - intros x m s Wx _. now apply log_gaussian_numbers.
  - intros x mu s n u Hx Hmu Wx _. unfold well_formed in Wx.
    rewrite (@log_gaussian_run x (Losses.Full mu) (Losses.Scalar s) [n; u]%nat)
      by (cbn [Losses.as_tensor shape]; rewrite Hx, Hmu; apply broadcast3_row).
    eexists. split; [reflexivity |]. split; [reflexivity |].
    intros i j Hi Hj. cbn [data Losses.as_tensor shape].
    assert (Hk : (i * u + j < numel [n; u])%nat)
      by (unfold numel; cbn [fold_right]; nia).
    rewrite nth_density by (rewrite length_expand; exact Hk).
    rewrite Hx, Hmu, expand_same by (rewrite <- Hx; exact Wx).
    rewrite expand_row by assumption.
    rewrite expand_scalar, nth_repeat_below by exact Hk. reflexivity.
  - intros x mu s n u Hx Hmu Wm _. unfold well_formed in Wm.
    rewrite (@log_gaussian_run x (Losses.Full mu) (Losses.Scalar s) [n; u]%nat)
      by (cbn [Losses.as_tensor shape]; rewrite Hx, Hmu; apply broadcast3_rows).
    eexists. split; [reflexivity |]. split; [reflexivity |].
    intros i j Hi Hj. cbn [data Losses.as_tensor shape].
    assert (Hk : (i * u + j < numel [n; u])%nat)
      by (unfold numel; cbn [fold_right]; nia).
    rewrite nth_density by (rewrite length_expand; exact Hk).
    rewrite Hx, Hmu, expand_row by assumption.
    rewrite expand_same by (rewrite <- Hmu; exact Wm).
    rewrite expand_scalar, nth_repeat_below by exact Hk. reflexivity.
  - intros x mu sigma a b Hx Hmu Hab Ha Hb.
    unfold Losses.log_gaussian, Losses.broadcast3, broadcast_shapes. cbv zeta.
    rewrite Hx, Hmu. cbn [rev app broadcast_rev].
    now rewrite broadcast_dim_mismatch.
  - intros mu s _. apply gaussian_logpdf_at_mean.
  - intros mu sigma Wm Ws Hs _.
    rewrite log_gaussian_same by (assumption || reflexivity).
    unfold well_formed in *. rewrite density_at_mean_data by congruence.
    reflexivity.
  - intros mu s Wm _. unfold well_formed in Wm.
    rewrite (@log_gaussian_run mu (Losses.Full mu) (Losses.Scalar s) (shape mu))
      by (cbn [Losses.as_tensor shape]; apply broadcast3_same_number).
    cbn [Losses.as_tensor shape data].
    rewrite !expand_same by exact Wm. rewrite expand_scalar, <- Wm.
    rewrite density_at_mean_data by apply repeat_length.
    now rewrite map_repeat.
Qed.

Lemma log_gaussian_at_mean_witness :
  Losses.gaussian_logpdf 5 5 4 = (- ln 4 - 0.5 * ln (2 * PI))%R
  /\ Losses.log_gaussian (Examples.vec [5; 3]%R)
       (Losses.Full (Examples.vec [5; 3]%R)) (Losses.Full (Examples.vec [4; 5]%R))
     = Ok (Tensor [2]%nat
             [(- ln 4 - 0.5 * ln (2 * PI))%R; (- ln 5 - 0.5 * ln (2 * PI))%R])
  /\ Losses.log_gaussian (Examples.vec [1; 2]%R)
       (Losses.Scalar 0) (Losses.Scalar (exp (- 3)))
     = Ok (Tensor [2]%nat
             [(- ln (exp (- 3)) - 0.5 * ln (2 * PI)
               - (1 - 0) ^ 2 / (2 * exp (- 3) ^ 2))%R;
              (- ln (exp (- 3)) - 0.5 * ln (2 * PI)
               - (2 - 0) ^ 2 / (2 * exp (- 3) ^ 2))%R]).
Proof.
  destruct log_gaussian_at_mean
    as (_ & _ & Numbers & _ & _ & _ & AtMean & Tensorwise & _).
  split; [| split].
  - apply AtMean. lra.
  - apply (Tensorwise (Examples.vec [5; 3]%R) (Examples.vec [4; 5]%R)).
    + reflexivity.
    + reflexivity.
    + reflexivity.
    + repeat constructor; lra.
  - apply (Numbers (Examples.vec [1; 2]%R) 0%R (exp (- 3))).
    + reflexivity.
    + apply exp_pos.
Defined.



(** The expectation of [test_log_gaussian] in [tests/test_losses.py]: at
    [x = [1, 1]], [mu = [5, 3]], [sigma = [4, 5]] every entry of the
    log-density is negative. *)
Example test_log_gaussian :
  exists v : tensor,
    Losses.log_gaussian (Examples.vec [1; 1]%R)
      (Losses.Full (Examples.vec [5; 3]%R)) (Losses.Full (Examples.vec [4; 5]%R))
    = Ok v
    /\ Forall (fun y => (y < 0)%R) (data v).
Proof.
  eexists. split; [apply log_gaussian_same; reflexivity |].
  assert (H2pi : (0 < ln (2 * PI))%R).
  { rewrite <- ln_1. apply ln_increasing; [lra |].
    pose proof PI2_3_2. lra. }
  assert (H4 : (0 < ln 4)%R) by (rewrite <- ln_1; apply ln_increasing; lra).
  assert (H5 : (0 < ln 5)%R) by (rewrite <- ln_1; apply ln_increasing; lra).
  cbn [data map combine Examples.vec fst snd]. unfold Losses.gaussian_logpdf.
  repeat constructor.
  - assert (0 <= (1 - 5) ^ 2 / (2 * 4 ^ 2))%R by (apply Rlt_le; lra). lra.
  - assert (0 <= (1 - 3) ^ 2 / (2 * 5 ^ 2))%R by (apply Rlt_le; lra). lra.
Qed.

(* ===================================================================== *)
(** * Facts about views *)
(* ===================================================================== *)

Section ViewFacts.

Lemma no_negative_sizes (s : list nat) :
  existsb (fun z => (z <? -1)%Z) (map Z.of_nat s) = false.
Proof.
  induction s as [| n s IH]; [reflexivity |].
  cbn [map existsb]. rewrite IH.
  destruct (Z.ltb_spec (Z.of_nat n) (-1)); [lia | reflexivity].
Qed.

Lemma no_holes (s : list nat) : holes (map Z.of_nat s) = 0%nat.
Proof.
  unfold holes. induction s as [| n s IH]; [reflexivity |].
  cbn [map filter].
  destruct (Z.eqb_spec (Z.of_nat n) (-1)); [lia | exact IH].
Qed.

Lemma known_product_sizes (s : list nat) :
  known_product (map Z.of_nat s) = Z.of_nat (numel s).
Proof.
  unfold known_product, numel. induction s as [| n s IH]; [reflexivity |].
  cbn [map filter].
  destruct (Z.eqb_spec (Z.of_nat n) (-1)); [lia |].
  cbn [negb fold_right]. rewrite IH. now rewrite Nat2Z.inj_mul.
Qed.

Lemma to_nat_sizes (s : list nat) : map Z.to_nat (map Z.of_nat s) = s.
Proof.
  induction s as [| n s IH]; [reflexivity |].
  cbn [map]. now rewrite Nat2Z.id, IH.
Qed.

(** A view under explicit sizes returns exactly when the numbers of
    entries agree, and then keeps the entries as they are. *)
Lemma view_sizes (t : tensor) (s : list nat) :
  view t (map Z.of_nat s)
  = if (numel s =? numel (shape t))%nat
    then Ok (Tensor s (data t)) else Err RuntimeError.
Proof.
  unfold view. rewrite no_negative_sizes, no_holes, known_product_sizes.
  destruct (Nat.eqb_spec (numel s) (numel (shape t))) as [E | E].
  - rewrite E, Z.eqb_refl, to_nat_sizes. reflexivity.
  - destruct (Z.eqb_spec (Z.of_nat (numel s)) (Z.of_nat (numel (shape t))));
      [lia | reflexivity].
Qed.

Lemma infer_sizes (s : list nat) (k : Z) :
  map (fun z => if (z =? -1)%Z then Z.to_nat k else Z.to_nat z) (map Z.of_nat s)
  = s.
Proof.
  induction s as [| n s IH]; [reflexivity |].
  cbn [map]. destruct (Z.eqb_spec (Z.of_nat n) (-1)); [lia |].
  now rewrite Nat2Z.id, IH.
Qed.

Lemma holes_hole (l : list Z) : holes ((-1)%Z :: l) = S (holes l).
Proof. reflexivity. Qed.

Lemma product_hole (l : list Z) : known_product ((-1)%Z :: l) = known_product l.
Proof. reflexivity. Qed.

Lemma negative_sizes_hole (l : list Z) :
  existsb (fun z => (z <? -1)%Z) ((-1)%Z :: l) = existsb (fun z => (z <? -1)%Z) l.
Proof. reflexivity. Qed.

(** A view whose first size is [-1]: the missing size is the quotient of
    the number of entries by the product of the other sizes. *)
Lemma view_inferred (t : tensor) (s : list nat) (n : nat) :
  numel s <> 0%nat -> numel (shape t) = (n * numel s)%nat ->
  view t ((-1)%Z :: map Z.of_nat s) = Ok (Tensor (n :: s) (data t)).
Proof.
  intros Hs Hn. unfold view.
  rewrite negative_sizes_hole, no_negative_sizes, holes_hole, product_hole.
  rewrite no_holes, known_product_sizes.
  destruct (Z.eqb_spec (Z.of_nat (numel s)) 0); [lia |].
  rewrite Hn, Nat2Z.inj_mul, Z.mod_mul by lia. cbn [Z.eqb].
  rewrite Z.div_mul by lia. cbn [map].
  change (-1 =? -1)%Z with true. cbv iota.
  now rewrite infer_sizes, Nat2Z.id.
Qed.

Lemma view_not_divisible (t : tensor) (s : list nat) :
  numel s <> 0%nat -> (numel (shape t) mod numel s <> 0)%nat ->
  view t ((-1)%Z :: map Z.of_nat s) = Err RuntimeError.
Proof.
  intros Hs Hn. unfold view.
  rewrite negative_sizes_hole, no_negative_sizes, holes_hole, product_hole.
  rewrite no_holes, known_product_sizes.
  destruct (Z.eqb_spec (Z.of_nat (numel s)) 0); [lia |].
  rewrite <- Nat2Z.inj_mod.
  destruct (Z.eqb_spec (Z.of_nat (numel (shape t) mod numel s)) 0);
    [lia | reflexivity].
Qed.

End ViewFacts.

(* ===================================================================== *)
(** * ProbabilisticDense: construction, rebuilding, failing calls *)
(* ===================================================================== *)

Section MoreForwardFacts.

Import ProbabilisticDense Contract.
Open Scope R_scope.

(** [build] on a layer of [u] units whose initializer keeps the sizes it
    is asked for. *)
Lemma build_built (d u : nat) (l : t) (g : stream) (w' : world t) :
  units l = PyInt (Z.of_nat u) -> output_dim l = units l ->
  shape_respecting (init l) ->
  build (PyInt (Z.of_nat d)) (World l g) = (Ok tt, w') ->
  exists wm wr bm br,
    built d u wm wr bm br (self w') /\ W (self w') = W l /\ b (self w') = b l.
Proof.
  intros Hu Ho Hinit Hb. apply build_inv in Hb.
  destruct Hb as (wm & wr & bm & br & g1 & g2 & g3 & g4 & E1 & E2 & E3 & E4 & ->).
  rewrite Ho, Hu in E1, E2, E3, E4.
  apply (Hinit [d; u]) in E1. apply (Hinit [d; u]) in E2.
  apply (Hinit [u]) in E3. apply (Hinit [u]) in E4.
  destruct E1 as [S1 F1], E2 as [S2 F2], E3 as [S3 F3], E4 as [S4 F4].
  exists wm, wr, bm, br. cbn [self]. split; [| split; reflexivity].
  constructor; try assumption; try reflexivity.
  cbn. now rewrite Ho, Hu.
Qed.

(** The forward pass of a built layer on a batch of another width. *)
Lemma forward_wrong_width (d u n k : nat) (wm wr bm br X : tensor)
      (l : t) (g : stream) :
  built d u wm wr bm br l -> shape X = [n; k] -> k <> d ->
  forward X (World l g)
  = (Err RuntimeError,
     World (set_b (Some (sample bm br (noise_b g d u)))
                  (set_W (Some (sample wm wr (noise_W g d u))) l))
           (after_noise g d u)).
Proof.
  intros B HX Hk.
  destruct B as [built_input_dim0 built_output_dim0 built_W_mu0 built_W_rho0
                 built_b_mu0 built_b_rho0 built_W_mu_shape0 built_W_rho_shape0
                 built_b_mu_shape0 built_b_rho_shape0 built_W_mu_wf0
                 built_W_rho_wf0 built_b_mu_wf0 built_b_rho_wf0].
  unfold forward, Layer.forward, Layer.to_variable, normal.
  cbv [bind ret attr lift getattr setattr draw self rng].
  rewrite built_input_dim0, built_output_dim0, zeros_matrix.
  rewrite built_W_mu0. cbv iota beta. rewrite built_W_rho0. cbv iota beta.
  cbn [data shape]. rewrite repeat_length.
  unfold sigma_prior. rewrite normal_zero_entries.
  change (Tensor [d; u] (map (fun k => exp (- 3) * g k) (seq 0 (d * u))))
    with (noise_W g d u).
  rewrite reparameterize_sample by (unfold noise_W; cbn [shape]; congruence).
  cbn [output_dim set_W b_mu b_rho]. rewrite built_output_dim0, zeros_vector.
  rewrite built_b_mu0. cbv iota beta.
  cbn [b_rho set_W]. rewrite built_b_rho0. cbv iota beta.
  cbn [data shape]. rewrite repeat_length.
  rewrite (normal_zero_entries (exp (- 3)) (fun i => g (d * u + i)%nat)).
  rewrite (map_seq_shift (fun k => exp (- 3) * g k)).
  change (Tensor [u] (map (fun k => exp (- 3) * g k) (seq (d * u) u)))
    with (noise_b g d u).
  rewrite reparameterize_sample by (unfold noise_b; cbn [shape]; congruence).
  unfold matmul. rewrite HX. cbn [shape sample]. rewrite built_W_mu_shape0.
  destruct (Nat.eqb_spec k d) as [E | E]; [contradiction | reflexivity].
Qed.



End MoreForwardFacts.

(** X1. [ProbabilisticDense.build] stores its argument in [input_dim] and
    assigns nothing but the four parameters after it: the retained samples
    [W] and [b], [units], [output_dim] and [init] are as before, whether
    the call returns or raises.  Building a layer again therefore leaves
    the samples of the former parameters in place. *)
Theorem build_keeps_samples
        (v : pyval) (l : ProbabilisticDense.t) (g : stream) :
  let l' := self (snd (ProbabilisticDense.build v (World l g))) in
  ProbabilisticDense.input_dim l' = v
  /\ ProbabilisticDense.W l' = ProbabilisticDense.W l
  /\ ProbabilisticDense.b l' = ProbabilisticDense.b l
  /\ ProbabilisticDense.units l' = ProbabilisticDense.units l
  /\ ProbabilisticDense.output_dim l' = ProbabilisticDense.output_dim l
  /\ ProbabilisticDense.init l' = ProbabilisticDense.init l.
Proof.
  unfold ProbabilisticDense.build, ProbabilisticDense.call_init.
  cbv [bind ret attr setattr with_rng self rng].
  cbn [ProbabilisticDense.input_dim ProbabilisticDense.output_dim
       ProbabilisticDense.init ProbabilisticDense.set_input_dim].
  destruct (ProbabilisticDense.init l _ v _ g) as [[wm |] g1];
    [| cbn; repeat split].
  cbv iota beta.
  cbn [ProbabilisticDense.input_dim ProbabilisticDense.output_dim
       ProbabilisticDense.init ProbabilisticDense.set_input_dim
       ProbabilisticDense.set_W_mu self rng].
  destruct (ProbabilisticDense.init l _ v _ g1) as [[wr |] g2];
    [| cbn; repeat split].
  cbv iota beta.
  cbn [ProbabilisticDense.input_dim ProbabilisticDense.output_dim
       ProbabilisticDense.init ProbabilisticDense.set_input_dim
       ProbabilisticDense.set_W_mu ProbabilisticDense.set_W_rho self rng].
  destruct (ProbabilisticDense.init l _ v _ g2) as [[bm |] g3];
    [| cbn; repeat split].
  cbv iota beta.
  cbn [ProbabilisticDense.input_dim ProbabilisticDense.output_dim
       ProbabilisticDense.init ProbabilisticDense.set_input_dim
       ProbabilisticDense.set_W_mu ProbabilisticDense.set_W_rho
       ProbabilisticDense.set_b_mu self rng].
  destruct (ProbabilisticDense.init l _ v _ g3) as [[br |] g4];
    cbn; repeat split.
Qed.

(** X2. On a built layer of input width [d], a forward call on a batch of
    another width raises at the matrix product, and by then it has
    replaced both retained samples by those of this call and has taken its
    [d * u + u] variates off the generator. *)
Theorem forward_wrong_width_overwrites
        (d u n k : nat) (wm wr bm br X : tensor)
        (l : ProbabilisticDense.t) (g : stream) :
  Contract.built d u wm wr bm br l -> shape X = [n; k] -> k <> d ->
  exists l' : ProbabilisticDense.t,
    ProbabilisticDense.forward X (World l g)
    = (Err RuntimeError, World l' (Contract.after_noise g d u))
    /\ ProbabilisticDense.W l'
       = Some (Contract.sample wm wr (Contract.noise_W g d u))
    /\ ProbabilisticDense.b l'
       = Some (Contract.sample bm br (Contract.noise_b g d u))
    /\ Contract.built d u wm wr bm br l'.
Proof.
  intros B HX Hk. eexists. split; [exact (@forward_wrong_width d u n k wm wr bm br X l g B HX Hk) |].
  split; [reflexivity |]. split; [reflexivity |].
  apply (built_only_samples B). eexists. eexists. reflexivity.
Qed.

Lemma forward_wrong_width_overwrites_witness :
  exists l' : ProbabilisticDense.t,
    ProbabilisticDense.forward (Tensor [1; 2]%nat [1; 2]%R)
      (World Examples.unit_layer Examples.ones)
    = (Err RuntimeError, World l' (Contract.after_noise Examples.ones 1 1))
    /\ ProbabilisticDense.W l'
       = Some (Contract.sample (Examples.mat11 0) (Examples.mat11 0)
                 (Contract.noise_W Examples.ones 1 1)).
Proof.
  destruct (@forward_wrong_width_overwrites 1 1 1 2
              (Examples.mat11 0) (Examples.mat11 0)
              (Examples.vec [0%R]) (Examples.vec [0%R])
              (Tensor [1; 2]%nat [1; 2]%R) Examples.unit_layer Examples.ones)
    as (l' & Run & HW & _).
  - constructor; reflexivity.
  - reflexivity.
  - lia.
  - exists l'. split; [exact Run | exact HW].
Defined.

(** X3. A layer constructed with a non-zero integer input width [d] and
    [u] units, by an initializer that keeps the sizes it is asked for, is
    built when the constructor returns: its retained samples are still
    missing, and a forward call on a batch of sizes [n, d] returns a tensor
    of sizes [n, u]. *)
Theorem constructor_builds
        (d u : nat) (init_fn : initializer) (g g' : stream)
        (l : ProbabilisticDense.t) :
  (0 < d)%nat -> Contract.shape_respecting init_fn ->
  ProbabilisticDense.__init__ (PyInt (Z.of_nat u)) init_fn (PyInt (Z.of_nat d)) g
  = (Ok l, g') ->
  ProbabilisticDense.W l = None /\ ProbabilisticDense.b l = None
  /\ exists wm wr bm br : tensor,
       Contract.built d u wm wr bm br l
       /\ forall (X : tensor) (n : nat) (g1 : stream),
            shape X = [n; d] ->
            exists (out : tensor) (w' : world ProbabilisticDense.t),
              ProbabilisticDense.forward X (World l g1) = (Ok out, w')
              /\ shape out = [n; u].
Proof.
  intros Hd Hinit Hnew. unfold ProbabilisticDense.__init__ in Hnew.
  cbn [ProbabilisticDense.input_dim truthy] in Hnew.
  destruct (Z.eqb_spec (Z.of_nat d) 0) as [E | E]; [lia |].
  cbn [negb] in Hnew.
  destruct (ProbabilisticDense.build _ _) as [[[] | e] w] eqn:Hb in Hnew;
    [| discriminate].
  injection Hnew as <- <-.
  eapply (@build_built d u) in Hb; [| reflexivity | reflexivity | exact Hinit].
  destruct Hb as (wm & wr & bm & br & B & HW & Hbias).
  split; [exact HW |]. split; [exact Hbias |].
  exists wm, wr, bm, br. split; [exact B |].
  intros X n g1 HX. eexists. eexists.
  split; [exact (@forward_run d u n wm wr bm br X _ g1 B HX) | reflexivity].
Qed.

Lemma constructor_builds_witness :
  exists (l : ProbabilisticDense.t) (out : tensor) (w' : world ProbabilisticDense.t),
    ProbabilisticDense.__init__ (PyInt 10) Examples.zeros_init (PyInt 4) Examples.ones
    = (Ok l, Examples.ones)
    /\ ProbabilisticDense.forward (Tensor [1; 4]%nat [1; 2; 3; 4]%R)
         (World l Examples.ones) = (Ok out, w')
    /\ shape out = [1; 10]%nat.
Proof.
  eexists.
  destruct (@constructor_builds 4 10 Examples.zeros_init Examples.ones Examples.ones
              _ ltac:(lia) zeros_init_shape_respecting eq_refl)
    as (_ & _ & wm & wr & bm & br & _ & Hf).
  destruct (Hf (Tensor [1; 4]%nat [1; 2; 3; 4]%R) 1%nat Examples.ones eq_refl)
    as (out & w' & Run & Hs).
  exists out, w'. split; [reflexivity |]. split; [exact Run | exact Hs].
Defined.



(** X5. Being built is kept by [forward]: whatever the batch and whatever
    the outcome, the layer a forward call leaves behind is built for the
    same widths, with the same four parameters. *)
Theorem forward_keeps_built
        (d u : nat) (wm wr bm br X : tensor)
        (l : ProbabilisticDense.t) (g : stream) :
  Contract.built d u wm wr bm br l ->
  Contract.built d u wm wr bm br
    (self (snd (ProbabilisticDense.forward X (World l g)))).
Proof.
  intros B.
  destruct (ProbabilisticDense.forward X (World l g)) as [r w'] eqn:E.
  apply forward_frame in E. exact (built_only_samples B E).
Qed.

Lemma forward_keeps_built_witness :
  Contract.built 1 1 (Examples.mat11 0) (Examples.mat11 0)
    (Examples.vec [0%R]) (Examples.vec [0%R])
    (self (snd (ProbabilisticDense.forward (Tensor [3]%nat [1; 2; 3]%R)
                  (World Examples.unit_layer Examples.ones)))).
Proof.
  apply forward_keeps_built. constructor; reflexivity.
Defined.

(* ===================================================================== *)
(** * Dense and Conv2D *)
(* ===================================================================== *)

(** X6. [Dense.__init__] with an input width that counts as true but is
    not an [int] (a float, [True], a non-empty string) does not construct
    a layer: the guard of [build] raises [AssertionError] before
    [torch.nn.Linear] is created, and the generator is not used. *)
Theorem dense_constructor_rejects_non_integer
        (Linear : Type)
        (TorchDense : pyval -> pyval -> stream -> result Linear * stream)
        (units_arg v : pyval) (init_fn : initializer) (g : stream) :
  truthy v = true -> type_is_int v = false ->
  Dense.__init__ TorchDense units_arg init_fn v g = (Err AssertionError, g).
Proof.
  intros Ht Hi. unfold Dense.__init__. cbn [Dense.input_dim]. rewrite Ht.
  now rewrite dense_build_guard.
Qed.

Lemma dense_constructor_rejects_non_integer_witness :
  Dense.__init__ (fun _ _ g => (Ok tt, g)) (PyInt 3) Examples.zeros_init
    (PyFloat 4) Examples.ones
  = (Err AssertionError, Examples.ones).
Proof.
  apply dense_constructor_rejects_non_integer; reflexivity.
Defined.

(** X7. [Dense.__init__] with an input width that counts as false ([None],
    but also the integer 0) returns a layer without building it: the
    attribute [layer] does not exist, so both [params] and [forward] raise
    [AttributeError] and change nothing. *)
Theorem dense_constructor_skips_build
        (Linear : Type)
        (TorchDense : pyval -> pyval -> stream -> result Linear * stream)
        (linear_parameters : Linear -> list tensor)
        (linear_forward : Linear -> tensor -> result tensor)
        (units_arg v : pyval) (init_fn : initializer) (g g' : stream)
        (X : tensor) :
  truthy v = false ->
  exists l : Dense.t Linear,
    Dense.__init__ TorchDense units_arg init_fn v g = (Ok l, g)
    /\ Dense.layer l = None
    /\ Dense.params linear_parameters (World l g')
       = (Err (AttributeError "layer"), World l g')
    /\ Dense.forward linear_forward X (World l g')
       = (Err (AttributeError "layer"), World l g').
Proof.
  intros Hv. unfold Dense.__init__. cbn [Dense.input_dim]. rewrite Hv.
  eexists. repeat split.
Qed.

Lemma dense_constructor_skips_build_witness :
  exists l : Dense.t unit,
    Dense.__init__ (fun _ _ g => (Ok tt, g)) (PyInt 3) Examples.zeros_init
      (PyInt 0) Examples.ones = (Ok l, Examples.ones)
    /\ Dense.forward (fun _ X => Ok X) (Examples.mat11 2) (World l Examples.ones)
       = (Err (AttributeError "layer"), World l Examples.ones).
Proof.
  destruct (@dense_constructor_skips_build unit (fun _ _ g => (Ok tt, g))
              (fun _ => []) (fun _ X => Ok X) (PyInt 3) (PyInt 0)
              Examples.zeros_init Examples.ones Examples.ones (Examples.mat11 2)
              eq_refl) as (l & Hl & _ & _ & Hf).
  exists l. split; [exact Hl | exact Hf].
Defined.

Section ConvFacts.

Variable Conv : Type.
Variable TorchConv2D : Z -> Z -> list Z -> Z -> stream -> result Conv * stream.

Import Contract.

Local Ltac conv_fields_in H :=
  cbv iota beta in H;
  cbn [Conv2D.kernel_size Conv2D.stride Conv2D.filters Conv2D.init
       Conv2D.input_dim Conv2D.output_dim Conv2D.layer
       Conv2D.set_input_dim Conv2D.set_output_dim Conv2D.set_layer] in H.

Local Ltac conv_fields :=
  cbv iota beta;
  cbn [Conv2D.kernel_size Conv2D.stride Conv2D.filters Conv2D.init
       Conv2D.input_dim Conv2D.output_dim Conv2D.layer
       Conv2D.set_input_dim Conv2D.set_output_dim Conv2D.set_layer].

(** Everything a returning [Conv2D.build] call has gone through. *)
Lemma conv_build_inv (dims : list Z) (l : Conv2D.t Conv) (g : stream)
      (w' : world (Conv2D.t Conv)) :
  Conv2D.build TorchConv2D dims (World l g) = (Returns tt, w') ->
  exists k0 k1 conv g',
    (2 <= length dims)%nat
    /\ nth_error (Conv2D.kernel_size l) 0 = Some k0
    /\ nth_error (Conv2D.kernel_size l) 1 = Some k1
    /\ Conv2D.stride l <> 0%Z
    /\ TorchConv2D (conv_channels dims) (Conv2D.filters l)
         (Conv2D.kernel_size l) (Conv2D.stride l) g = (Ok conv, g')
    /\ w' = World
              (Conv2D.Obj (Some (conv_dims dims)) (Conv2D.init l)
                 (Conv2D.filters l) (Conv2D.kernel_size l) (Conv2D.stride l)
                 (Some [PyInt (Conv2D.filters l);
                        PyFloat (inject_Z (nth 1 (conv_dims dims) 0%Z - k0)
                                 / inject_Z (Conv2D.stride l) + 1)%Q;
                        PyFloat (inject_Z (nth 2 (conv_dims dims) 0%Z - k1)
                                 / inject_Z (Conv2D.stride l) + 1)%Q])
                 (Some conv))
              g'.
Proof.
  unfold Conv2D.build, Conv2D.out_size, true_div, index.
  cbv [xbind xret xraise call attr setattr with_rng self rng].
  fold (conv_dims dims). fold (conv_channels dims).
  intros H.
  destruct (Nat.leb_spec 2 (length dims)) as [Hlen | Hlen];
    conv_fields_in H; [| discriminate].
  destruct (nth_error (Conv2D.kernel_size l) 0) as [k0 |];
    conv_fields_in H; [| discriminate].
  destruct (Conv2D.stride l =? 0)%Z eqn:Es;
    conv_fields_in H; [discriminate |].
  destruct (nth_error (Conv2D.kernel_size l) 1) as [k1 |];
    conv_fields_in H; [| discriminate].
  rewrite Es in H. conv_fields_in H.
  destruct (TorchConv2D _ _ _ _ g) as [[conv | e] g'] eqn:Ec;
    conv_fields_in H; [| discriminate].
  apply Z.eqb_neq in Es.
  injection H as <-.
  exists k0, k1, conv, g'. repeat split; try assumption; reflexivity.
Qed.

Lemma conv_build_returns (dims : list Z) (l : Conv2D.t Conv) (g g' : stream)
      (k0 k1 : Z) (conv : Conv) :
  (2 <= length dims)%nat ->
  nth_error (Conv2D.kernel_size l) 0 = Some k0 ->
  nth_error (Conv2D.kernel_size l) 1 = Some k1 ->
  Conv2D.stride l <> 0%Z ->
  TorchConv2D (conv_channels dims) (Conv2D.filters l)
    (Conv2D.kernel_size l) (Conv2D.stride l) g = (Ok conv, g') ->
  Conv2D.build TorchConv2D dims (World l g)
  = (Returns tt,
     World
       (Conv2D.Obj (Some (conv_dims dims)) (Conv2D.init l)
          (Conv2D.filters l) (Conv2D.kernel_size l) (Conv2D.stride l)
          (Some [PyInt (Conv2D.filters l);
                 PyFloat (inject_Z (nth 1 (conv_dims dims) 0%Z - k0)
                          / inject_Z (Conv2D.stride l) + 1)%Q;
                 PyFloat (inject_Z (nth 2 (conv_dims dims) 0%Z - k1)
                          / inject_Z (Conv2D.stride l) + 1)%Q])
          (Some conv))
       g').
Proof.
  intros Hlen Hk0 Hk1 Hs Hc.
  unfold Conv2D.build, Conv2D.out_size, true_div, index.
  cbv [xbind xret xraise call attr setattr with_rng self rng].
  fold (conv_dims dims). fold (conv_channels dims).
  destruct (Nat.leb_spec 2 (length dims)) as [_ | Hlt]; [| lia].
  conv_fields. rewrite Hk0. conv_fields.
  apply Z.eqb_neq in Hs. rewrite Hs.
  conv_fields. rewrite Hk1. conv_fields. rewrite Hs. conv_fields.
  rewrite Hc. reflexivity.
Qed.

End ConvFacts.

(** X8. [Conv2D.build] on two sizes [[h, w]] takes the input as one
    channel: it stores [input_dim = [1, h, w]], creates the convolution
    with one input channel, and sets
    [output_dim = [filters, (h - k0) / stride + 1, (w - k1) / stride + 1]]
    for the kernel sizes [k0, k1]. *)
Theorem conv_build_two_sizes
        (Conv : Type)
        (TorchConv2D : Z -> Z -> list Z -> Z -> stream -> result Conv * stream)
        (h w k0 k1 : Z) (ks : list Z) (l : Conv2D.t Conv) (g g' : stream)
        (conv : Conv) :
  Conv2D.kernel_size l = k0 :: k1 :: ks ->
  Conv2D.stride l <> 0%Z ->
  TorchConv2D 1%Z (Conv2D.filters l) (Conv2D.kernel_size l) (Conv2D.stride l) g
  = (Ok conv, g') ->
  Conv2D.build TorchConv2D [h; w] (World l g)
  = (Returns tt,
     World (Conv2D.Obj (Some [1%Z; h; w]) (Conv2D.init l) (Conv2D.filters l)
              (Conv2D.kernel_size l) (Conv2D.stride l)
              (Some [PyInt (Conv2D.filters l);
                     PyFloat (inject_Z (h - k0) / inject_Z (Conv2D.stride l) + 1)%Q;
                     PyFloat (inject_Z (w - k1) / inject_Z (Conv2D.stride l) + 1)%Q])
              (Some conv))
           g').
Proof.
  intros Hk Hs Hc.
  apply (@conv_build_returns Conv TorchConv2D [h; w] l g g' k0 k1 conv).
  - cbn. lia.
  - now rewrite Hk.
  - now rewrite Hk.
  - exact Hs.
  - exact Hc.
Qed.

Lemma conv_build_two_sizes_witness :
  Conv2D.build (fun _ _ _ _ g => (Ok tt, g)) [28; 28]%Z
    (World (Conv2D.Obj None Examples.zeros_init 8 [5; 5]%Z 1 None None)
           Examples.ones)
  = (Returns tt,
     World (Conv2D.Obj (Some [1; 28; 28]%Z) Examples.zeros_init 8 [5; 5]%Z 1
              (Some [PyInt 8;
                     PyFloat (inject_Z (28 - 5) / inject_Z 1 + 1)%Q;
                     PyFloat (inject_Z (28 - 5) / inject_Z 1 + 1)%Q])
              (Some tt))
           Examples.ones).
Proof.
  apply (@conv_build_two_sizes unit (fun _ _ _ _ g => (Ok tt, g))
           28 28 5 5 []
           (Conv2D.Obj None Examples.zeros_init 8 [5; 5]%Z 1 None None)).
  - reflexivity.
  - cbn. lia.
  - reflexivity.
Defined.

(** X9. [Conv2D.build] on three sizes or more, [[c, h, w, ...]], stores
    them as they are, creates the convolution with [c] input channels and
    computes the output sizes from [h] and [w] alone: whatever follows the
    third size has no influence on [output_dim]. *)
Theorem conv_build_with_channels
        (Conv : Type)
        (TorchConv2D : Z -> Z -> list Z -> Z -> stream -> result Conv * stream)
        (c h w k0 k1 : Z) (more ks : list Z) (l : Conv2D.t Conv) (g g' : stream)
        (conv : Conv) :
  Conv2D.kernel_size l = k0 :: k1 :: ks ->
  Conv2D.stride l <> 0%Z ->
  TorchConv2D c (Conv2D.filters l) (Conv2D.kernel_size l) (Conv2D.stride l) g
  = (Ok conv, g') ->
  Conv2D.build TorchConv2D (c :: h :: w :: more) (World l g)
  = (Returns tt,
     World (Conv2D.Obj (Some (c :: h :: w :: more)) (Conv2D.init l)
              (Conv2D.filters l) (Conv2D.kernel_size l) (Conv2D.stride l)
              (Some [PyInt (Conv2D.filters l);
                     PyFloat (inject_Z (h - k0) / inject_Z (Conv2D.stride l) + 1)%Q;
                     PyFloat (inject_Z (w - k1) / inject_Z (Conv2D.stride l) + 1)%Q])
              (Some conv))
           g').
Proof.
  intros Hk Hs Hc.
  apply (@conv_build_returns Conv TorchConv2D (c :: h :: w :: more) l g g' k0 k1 conv).
  - cbn. lia.
  - now rewrite Hk.
  - now rewrite Hk.
  - exact Hs.
  - exact Hc.
Qed.

Lemma conv_build_with_channels_witness :
  Conv2D.build (fun _ _ _ _ g => (Ok tt, g)) [3; 32; 32; 7]%Z
    (World (Conv2D.Obj None Examples.zeros_init 8 [5; 3]%Z 2 None None)
           Examples.ones)
  = (Returns tt,
     World (Conv2D.Obj (Some [3; 32; 32; 7]%Z) Examples.zeros_init 8 [5; 3]%Z 2
              (Some [PyInt 8;
                     PyFloat (inject_Z (32 - 5) / inject_Z 2 + 1)%Q;
                     PyFloat (inject_Z (32 - 3) / inject_Z 2 + 1)%Q])
              (Some tt))
           Examples.ones).
Proof.
  apply (@conv_build_with_channels unit (fun _ _ _ _ g => (Ok tt, g))
           3 32 32 5 3 [7%Z] []
           (Conv2D.Obj None Examples.zeros_init 8 [5; 3]%Z 2 None None)).
  - reflexivity.
  - cbn. lia.
  - reflexivity.
Defined.

(** X10. [Conv2D.build] on fewer than two sizes raises [AssertionError]
    and leaves the layer as it was.  The constructor builds whenever
    [input_dim] is not [None], so it raises the same error on such sizes,
    also on the empty list, and returns an unbuilt layer only for
    [None]. *)
Theorem conv_build_needs_two_sizes
        (Conv : Type)
        (TorchConv2D : Z -> Z -> list Z -> Z -> stream -> result Conv * stream)
        (dims : list Z) :
  (length dims < 2)%nat ->
  (forall w : world (Conv2D.t Conv),
     Conv2D.build TorchConv2D dims w = (Raises (Builtin AssertionError), w))
  /\ (forall (f s : Z) (ks : list Z) (init_fn : initializer) (g : stream),
        Conv2D.__init__ TorchConv2D f ks s init_fn (Some dims) g
        = (Raises (Builtin AssertionError), g)
        /\ Conv2D.__init__ TorchConv2D f ks s init_fn None g
           = (Returns (Conv2D.Obj None init_fn f ks s None None), g)).
Proof.
  intros Hlen.
  assert (Hb : forall w : world (Conv2D.t Conv),
             Conv2D.build TorchConv2D dims w = (Raises (Builtin AssertionError), w)).
  { intros w. unfold Conv2D.build. cbv [xbind xraise xret].
    destruct (Nat.leb_spec 2 (length dims)); [lia | reflexivity]. }
  split; [exact Hb |].
  intros f s ks init_fn g. split; [| reflexivity].
  unfold Conv2D.__init__. cbn [Conv2D.input_dim]. now rewrite Hb.
Qed.

Lemma conv_build_needs_two_sizes_witness :
  Conv2D.__init__ (fun _ _ _ _ g => (Ok tt, g)) 8 [5; 5]%Z 1
    Examples.zeros_init (Some []) Examples.ones
  = (Raises (Builtin AssertionError), Examples.ones).
Proof.
  destruct (@conv_build_needs_two_sizes unit (fun _ _ _ _ g => (Ok tt, g)) [])
    as [_ Hnew].
  - cbn. lia.
  - apply Hnew.
Defined.

(** X11. A stride of 0 makes [Conv2D.build] raise [ZeroDivisionError] at
    the first output size, after [input_dim] has been overwritten (with the
    channel count in front when two sizes were given) and before
    [output_dim] and the convolution are assigned. *)
Theorem conv_build_zero_stride
        (Conv : Type)
        (TorchConv2D : Z -> Z -> list Z -> Z -> stream -> result Conv * stream)
        (dims : list Z) (k0 : Z) (ks : list Z) (l : Conv2D.t Conv) (g : stream) :
  (2 <= length dims)%nat ->
  Conv2D.kernel_size l = k0 :: ks ->
  Conv2D.stride l = 0%Z ->
  Conv2D.build TorchConv2D dims (World l g)
  = (Raises ZeroDivisionError,
     World (Conv2D.Obj (Some (Contract.conv_dims dims)) (Conv2D.init l)
              (Conv2D.filters l) (Conv2D.kernel_size l) (Conv2D.stride l)
              (Conv2D.output_dim l) (Conv2D.layer l))
           g).
Proof.
  intros Hlen Hk Hs.
  destruct l as [d0 i0 f0 kk st od ly].
  cbn [Conv2D.kernel_size Conv2D.stride] in Hk, Hs. subst kk st.
  unfold Conv2D.build, Conv2D.out_size, true_div, index.
  cbv [xbind xret xraise call attr setattr with_rng self rng].
  fold (Contract.conv_dims dims).
  destruct (Nat.leb_spec 2 (length dims)) as [_ | Hlt]; [| lia].
  reflexivity.
Qed.

Lemma conv_build_zero_stride_witness :
  Conv2D.build (fun _ _ _ _ g => (Ok tt, g)) [28; 28]%Z
    (World (Conv2D.Obj None Examples.zeros_init 8 [5; 5]%Z 0 None None)
           Examples.ones)
  = (Raises ZeroDivisionError,
     World (Conv2D.Obj (Some [1; 28; 28]%Z) Examples.zeros_init 8 [5; 5]%Z 0
              None None)
           Examples.ones).
Proof.
  apply (@conv_build_zero_stride unit (fun _ _ _ _ g => (Ok tt, g))
           [28; 28]%Z 5 [5%Z]
           (Conv2D.Obj None Examples.zeros_init 8 [5; 5]%Z 0 None None)).
  - cbn. lia.
  - reflexivity.
  - reflexivity.
Defined.

(** X12. Whenever [Conv2D.build] returns, [output_dim] holds the integer
    [filters] followed by two floats, also when the stride divides the
    sizes evenly; neither of the two passes the guard of [Dense.build],
    which raises [AssertionError] on it. *)
Theorem conv_output_sizes_are_floats
        (Conv : Type)
        (TorchConv2D : Z -> Z -> list Z -> Z -> stream -> result Conv * stream)
        (dims : list Z) (l : Conv2D.t Conv) (g : stream)
        (w' : world (Conv2D.t Conv)) :
  Conv2D.build TorchConv2D dims (World l g) = (Returns tt, w') ->
  exists q1 q2 : Q,
    Conv2D.output_dim (self w') = Some [PyInt (Conv2D.filters l); PyFloat q1; PyFloat q2]
    /\ forall (Linear : Type)
              (TorchDense : pyval -> pyval -> stream -> result Linear * stream)
              (w : world (Dense.t Linear)),
         Dense.build TorchDense (PyFloat q1) w = (Err AssertionError, w)
         /\ Dense.build TorchDense (PyFloat q2) w = (Err AssertionError, w).
Proof.
  intros H. apply conv_build_inv in H.
  destruct H as (k0 & k1 & conv & g' & _ & _ & _ & _ & _ & ->).
  eexists. eexists. split; [reflexivity |].
  intros Linear TorchDense w. split; now apply dense_build_guard.
Qed.

Lemma conv_output_sizes_are_floats_witness :
  exists q1 q2 : Q,
    Conv2D.output_dim
      (self (snd (Conv2D.build (fun _ _ _ _ g => (Ok tt, g)) [28; 28]%Z
                    (World (Conv2D.Obj None Examples.zeros_init 8 [4; 4]%Z 2
                              None None)
                           Examples.ones))))
    = Some [PyInt 8; PyFloat q1; PyFloat q2]
    /\ Dense.build (fun _ _ g => (Ok tt, g)) (PyFloat q1)
         (World (Dense.Obj PyNone Examples.zeros_init (PyInt 3) (PyInt 3) None)
                Examples.ones)
       = (Err AssertionError,
          World (Dense.Obj PyNone Examples.zeros_init (PyInt 3) (PyInt 3) None)
                Examples.ones).
Proof.
  destruct (@conv_output_sizes_are_floats unit (fun _ _ _ _ g => (Ok tt, g))
              [28; 28]%Z
              (Conv2D.Obj None Examples.zeros_init 8 [4; 4]%Z 2 None None)
              Examples.ones _ eq_refl) as (q1 & q2 & Ho & Hd).
  exists q1, q2. split; [exact Ho |].
  apply (Hd unit (fun _ _ g => (Ok tt, g))).
Defined.

(** X13. [Conv2D.forward] regroups the batch before the convolution sees
    it: with stored sizes [s] of non-zero product, a tensor of
    [n * prod(s)] entries reaches the convolution under the sizes
    [n :: s], its entries in the same order; a tensor whose number of
    entries is no multiple of [prod(s)] raises [RuntimeError] and the
    convolution is not called.  The layer and the generator are left as
    they were. *)
Theorem conv_forward_regroups
        (Conv : Type) (conv_forward : Conv -> tensor -> result tensor)
        (s : list nat) (conv : Conv) (l : Conv2D.t Conv) (g : stream)
        (X : tensor) :
  Conv2D.input_dim l = Some (map Z.of_nat s) ->
  Conv2D.layer l = Some conv ->
  numel s <> 0%nat ->
  (forall n : nat,
     numel (shape X) = (n * numel s)%nat ->
     Conv2D.forward conv_forward X (World l g)
     = (conv_forward conv (Tensor (n :: s) (data X)), World l g))
  /\ ((numel (shape X) mod numel s <> 0)%nat ->
      Conv2D.forward conv_forward X (World l g) = (Err RuntimeError, World l g)).
Proof.
  intros Hd Hl Hs. split.
  - intros n Hn. unfold Conv2D.forward, Layer.forward, Layer.to_variable.
    cbv [bind ret attr lift getattr self]. rewrite Hd.
    rewrite (@view_inferred X s n Hs Hn). now rewrite Hl.
  - intros Hn. unfold Conv2D.forward, Layer.forward, Layer.to_variable.
    cbv [bind ret attr lift getattr self]. rewrite Hd.
    now rewrite (@view_not_divisible X s Hs Hn).
Qed.

Lemma conv_forward_regroups_witness :
  Conv2D.forward (fun (_ : unit) X => Ok X) (Tensor [8]%nat [1; 2; 3; 4; 5; 6; 7; 8]%R)
    (World (Conv2D.Obj (Some [1; 2; 2]%Z) Examples.zeros_init 8 [1; 1]%Z 1
              None (Some tt))
           Examples.ones)
  = (Ok (Tensor [2; 1; 2; 2]%nat [1; 2; 3; 4; 5; 6; 7; 8]%R),
     World (Conv2D.Obj (Some [1; 2; 2]%Z) Examples.zeros_init 8 [1; 1]%Z 1
              None (Some tt))
           Examples.ones).
Proof.
  destruct (@conv_forward_regroups unit (fun _ X => Ok X) [1; 2; 2]%nat tt
              (Conv2D.Obj (Some [1; 2; 2]%Z) Examples.zeros_init 8 [1; 1]%Z 1
                 None (Some tt))
              Examples.ones (Tensor [8]%nat [1; 2; 3; 4; 5; 6; 7; 8]%R)
              eq_refl eq_refl ltac:(cbn; lia)) as [Hok _].
  apply (Hok 2%nat). reflexivity.
Defined.

(** X24. On a [Conv2D] layer constructed without input sizes, [forward]
    raises [TypeError]: the sizes, still [None], are unpacked for the view
    before the missing convolution is looked up, so the error is not the
    [AttributeError] of the other unbuilt layers.  Nothing is changed. *)
Theorem conv_forward_before_build
        (Conv : Type)
        (TorchConv2D : Z -> Z -> list Z -> Z -> stream -> result Conv * stream)
        (conv_forward : Conv -> tensor -> result tensor)
        (f s : Z) (ks : list Z) (init_fn : initializer) (X : tensor) (g g' : stream) :
  exists l : Conv2D.t Conv,
    Conv2D.__init__ TorchConv2D f ks s init_fn None g = (Returns l, g)
    /\ Conv2D.layer l = None
    /\ Conv2D.forward conv_forward X (World l g') = (Err TypeError, World l g').
Proof.
  eexists. repeat split.
Qed.

(* ===================================================================== *)
(** * Dropout and Recurrent *)
(* ===================================================================== *)

Section DropoutFacts.

Open Scope R_scope.

Lemma probabilities_full (p : R) (n : nat) :
  0 <= p <= 1 -> forallb is_probability (repeat p n) = true.
Proof.
  intros [H0 H1]. induction n as [| n IH]; [reflexivity |].
  cbn [repeat forallb]. rewrite IH. unfold is_probability.
  destruct (Rle_dec 0 p); [| contradiction].
  destruct (Rle_dec p 1); [reflexivity | contradiction].
Qed.

Lemma mask_entries (p : R) (g : stream) (n s : nat) :
  map (fun pu : R * R => if Rlt_dec (snd pu) (fst pu) then 1 else 0)
      (combine (repeat p n) (map g (seq s n)))
  = map (fun k => if Rlt_dec (g k) p then 1 else 0) (seq s n).
Proof.
  revert s. induction n as [| n IH]; intros s; cbn; [reflexivity |].
  now rewrite IH.
Qed.

(** The keep mask of one call on a tensor that has sizes: entry [k] is
    1 when variate [k] is below [p]. *)
Lemma dropout_run (X : tensor) (l : Dropout.t) (g : stream) :
  shape X <> [] -> well_formed X ->
  0 <= Dropout.p l <= 1 ->
  Dropout.forward X (World l g)
  = (Ok (Tensor (shape X)
           (map (fun xy : R * R => fst xy * snd xy)
              (combine (data X)
                 (map (fun k => if Rlt_dec (g k) (Dropout.p l) then 1 else 0)
                    (seq 0 (numel (shape X))))))),
     World l (fun i => g (numel (shape X) + i)%nat)).
Proof.
  intros Hs Hwf Hp.
  assert (F : full (shape X) (Dropout.p l)
              = Tensor (shape X) (repeat (Dropout.p l) (numel (shape X))))
    by (unfold full; destruct (shape X); [contradiction | reflexivity]).
  unfold Dropout.forward, Layer.forward, Layer.to_variable, bernoulli.
  cbv [bind ret attr lift draw self rng]. rewrite F. cbn [data shape].
  rewrite probabilities_full by exact Hp.
  rewrite repeat_length, mask_entries.
  rewrite broadcast2_same.
  - now rewrite pointwise2_ok by reflexivity.
  - reflexivity.
  - exact Hwf.
  - unfold well_formed. cbn [data shape]. now rewrite length_map, length_seq.
Qed.

(** On a tensor without sizes no mask entry is drawn, and the product
    with the empty mask is empty. *)
Lemma dropout_run_no_sizes (X : tensor) (l : Dropout.t) (g : stream) :
  shape X = [] ->
  Dropout.forward X (World l g) = (Ok (Tensor [0%nat] []), World l g).
Proof.
  intros Hs.
  unfold Dropout.forward, Layer.forward, Layer.to_variable, bernoulli.
  cbv [bind ret attr lift draw self rng]. rewrite Hs.
  cbn [full data shape forallb length seq map combine].
  unfold broadcast2. rewrite Hs. cbn [shape]. rewrite broadcast_shapes_nil_l.
  unfold expand, numel. cbn [fold_right Nat.mul seq map combine].
  reflexivity.
Qed.

Lemma mask_all_ones (xs : list R) (f : nat -> R) (s : nat) :
  (forall k, f k = 1) ->
  map (fun xy : R * R => fst xy * snd xy) (combine xs (map f (seq s (length xs))))
  = xs.
Proof.
  intros Hf. revert s. induction xs as [| x xs IH]; intros s; cbn; [reflexivity |].
  rewrite IH, Hf. f_equal. ring.
Qed.

Lemma mask_all_zeros (xs : list R) (f : nat -> R) (s : nat) :
  (forall k, f k = 0) ->
  map (fun xy : R * R => fst xy * snd xy) (combine xs (map f (seq s (length xs))))
  = repeat 0 (length xs).
Proof.
  intros Hf. revert s. induction xs as [| x xs IH]; intros s; cbn; [reflexivity |].
  rewrite IH, Hf. f_equal. ring.
Qed.

End DropoutFacts.

(** X14. [Dropout.forward] with [p] in [0, 1], on a tensor that has
    sizes, returns a tensor of the sizes of its input in which every entry
    is either the entry of the input or 0: entry [i] is kept when variate
    [i] of the generator is below [p], and no kept entry is rescaled.  It
    takes one variate per entry off the generator and leaves the layer as
    it was.  On a tensor without sizes the mask is the empty tensor: the
    call returns the empty tensor, of the one size 0, and takes no
    variate. *)
Theorem dropout_keeps_or_zeroes
        (X : tensor) (l : Dropout.t) (g : stream) :
  well_formed X -> (0 <= Dropout.p l <= 1)%R ->
  (shape X <> [] ->
   exists out : tensor,
     Dropout.forward X (World l g)
     = (Ok out, World l (fun i => g (numel (shape X) + i)%nat))
     /\ shape out = shape X
     /\ length (data out) = length (data X)
     /\ forall i, (i < length (data X))%nat ->
          nth i (data out) 0%R
          = (if Rlt_dec (g i) (Dropout.p l) then nth i (data X) 0%R else 0%R))
  /\ (shape X = [] ->
      Dropout.forward X (World l g) = (Ok (Tensor [0%nat] []), World l g)).
Proof.
  intros Hwf Hp. split; [| apply dropout_run_no_sizes].
  intros Hs. eexists. split; [exact (@dropout_run X l g Hs Hwf Hp) |].
  unfold well_formed in Hwf. cbn [shape data].
  split; [reflexivity |]. split.
  - rewrite length_map, length_combine, length_map, length_seq. lia.
  - intros i Hi.
    rewrite nth_map_combine by (rewrite ?length_map, ?length_seq; lia).
    rewrite nth_map_seq by lia. cbn [Nat.add].
    destruct (Rlt_dec (g i) (Dropout.p l)); ring.
Qed.

Lemma dropout_keeps_or_zeroes_witness :
  (exists out : tensor,
     Dropout.forward (Examples.vec [3; 4]%R)
       (World (Dropout.__init__ (1 / 2) Examples.zeros_init PyNone) Examples.ones)
     = (Ok out,
        World (Dropout.__init__ (1 / 2) Examples.zeros_init PyNone)
              (fun i => Examples.ones (2 + i)%nat))
     /\ shape out = [2]%nat)
  /\ Dropout.forward (Tensor [] [3%R])
       (World (Dropout.__init__ (1 / 2) Examples.zeros_init PyNone) Examples.ones)
     = (Ok (Tensor [0%nat] []),
        World (Dropout.__init__ (1 / 2) Examples.zeros_init PyNone) Examples.ones).
Proof.
  split.
  - destruct (@dropout_keeps_or_zeroes (Examples.vec [3; 4]%R)
                (Dropout.__init__ (1 / 2) Examples.zeros_init PyNone) Examples.ones)
      as [Sized _].
    + reflexivity.
    + cbn. lra.
    + destruct Sized as (out & Run & Hs & _); [discriminate |].
      exists out. split; [exact Run | exact Hs].
  - destruct (@dropout_keeps_or_zeroes (Tensor [] [3%R])
                (Dropout.__init__ (1 / 2) Examples.zeros_init PyNone) Examples.ones)
      as [_ Unsized].
    + reflexivity.
    + cbn. lra.
    + apply Unsized. reflexivity.
Defined.

(** X15. The [p] of [Dropout] is the probability of keeping an entry, not
    of dropping it: with variates in [0, 1), on a tensor that has sizes,
    [p = 1] returns the input unchanged and [p = 0] returns zeros
    everywhere.  On a tensor without sizes the call returns the empty
    tensor whatever [p] is, and not its input. *)
Theorem dropout_p_is_keep_probability
        (X : tensor) (l : Dropout.t) (g : stream) :
  well_formed X -> (forall k, (0 <= g k < 1)%R) ->
  (shape X <> [] ->
   (Dropout.p l = 1%R ->
    Dropout.forward X (World l g)
    = (Ok X, World l (fun i => g (numel (shape X) + i)%nat)))
   /\ (Dropout.p l = 0%R ->
       Dropout.forward X (World l g)
       = (Ok (Tensor (shape X) (repeat 0%R (length (data X)))),
          World l (fun i => g (numel (shape X) + i)%nat))))
  /\ (shape X = [] ->
      Dropout.forward X (World l g) = (Ok (Tensor [0%nat] []), World l g)
      /\ Tensor [0%nat] [] <> X).
Proof.
  intros Hwf Hg. split.
  - intros Hs. pose proof Hwf as Hlen. unfold well_formed in Hlen.
    split; intros Hp.
    + rewrite dropout_run by (try assumption; rewrite Hp; lra).
      rewrite Hp, <- Hlen, mask_all_ones.
      * now destruct X.
      * intros k. destruct (Rlt_dec (g k) 1) as [_ | N]; [reflexivity |].
        exfalso. apply N. apply Hg.
    + rewrite dropout_run by (try assumption; rewrite Hp; lra).
      rewrite Hp, <- Hlen, mask_all_zeros; [reflexivity |].
      intros k. destruct (Rlt_dec (g k) 0) as [N | _]; [| reflexivity].
      exfalso. destruct (Hg k). lra.
  - intros Hs. split; [now apply dropout_run_no_sizes |].
    intros <-. discriminate Hs.
Qed.

Lemma dropout_p_is_keep_probability_witness :
  Dropout.forward (Examples.vec [3; 4]%R)
    (World (Dropout.__init__ 0 Examples.zeros_init PyNone) (fun _ => (1 / 2)%R))
  = (Ok (Tensor [2]%nat [0; 0]%R),
     World (Dropout.__init__ 0 Examples.zeros_init PyNone) (fun _ => (1 / 2)%R))
  /\ Dropout.forward (Tensor [] [3%R])
       (World (Dropout.__init__ 1 Examples.zeros_init PyNone) (fun _ => (1 / 2)%R))
     = (Ok (Tensor [0%nat] []),
        World (Dropout.__init__ 1 Examples.zeros_init PyNone) (fun _ => (1 / 2)%R)).
Proof.
  split.
  - destruct (@dropout_p_is_keep_probability (Examples.vec [3; 4]%R)
                (Dropout.__init__ 0 Examples.zeros_init PyNone) (fun _ => (1 / 2)%R))
      as [Sized _].
    + reflexivity.
    + intros k. lra.
    + destruct Sized as [_ Hzero]; [discriminate |].
      apply Hzero. reflexivity.
  - destruct (@dropout_p_is_keep_probability (Tensor [] [3%R])
                (Dropout.__init__ 1 Examples.zeros_init PyNone) (fun _ => (1 / 2)%R))
      as [_ Unsized].
    + reflexivity.
    + intros k. lra.
    + apply Unsized. reflexivity.
Defined.

Section RecurrentFacts.

Variable RNN : Type.
Variable Hidden : Type.
Variable rnn_forward : RNN -> tensor -> option Hidden -> result (tensor * Hidden).

(** One forward call of a built layer, by the hidden state it hands to
    the network. *)
Lemma recurrent_run (X out : tensor) (h : Hidden) (rnn : RNN)
      (l : Recurrent.t RNN Hidden) (g : stream) :
  Recurrent.layer l = Some rnn ->
  rnn_forward rnn X
    (if Recurrent.stateful l then Recurrent.states l else None)
  = Ok (out, h) ->
  Recurrent.forward rnn_forward X (World l g)
  = (Ok out, World (Recurrent.set_states (Some h) l) g).
Proof.
  intros Hl Hr. unfold Recurrent.forward, Layer.forward, Layer.to_variable.
  cbv [bind ret attr lift getattr setattr self rng].
  destruct (Recurrent.stateful l); cbn [andb] in *.
  - destruct (Recurrent.states l) as [h0 |] eqn:Hst; cbv iota beta;
      rewrite Hl; cbv iota beta; rewrite ?Hst, Hr; reflexivity.
  - rewrite Hl. cbv iota beta. rewrite Hr. reflexivity.
Qed.

End RecurrentFacts.

(** X16. A [Recurrent] layer that is not stateful never hands a stored
    hidden state to the network: in two consecutive forward calls the
    second one runs the network from no state, although the first call
    has stored the state it ended in. *)
Theorem recurrent_stateless_restarts
        (RNN Hidden : Type)
        (rnn_forward : RNN -> tensor -> option Hidden -> result (tensor * Hidden))
        (X1 X2 out1 out2 : tensor) (h1 h2 : Hidden) (rnn : RNN)
        (l : Recurrent.t RNN Hidden) (g : stream) :
  Recurrent.stateful l = false ->
  Recurrent.layer l = Some rnn ->
  rnn_forward rnn X1 None = Ok (out1, h1) ->
  rnn_forward rnn X2 None = Ok (out2, h2) ->
  Recurrent.forward rnn_forward X1 (World l g)
  = (Ok out1, World (Recurrent.set_states (Some h1) l) g)
  /\ Recurrent.forward rnn_forward X2 (World (Recurrent.set_states (Some h1) l) g)
     = (Ok out2, World (Recurrent.set_states (Some h2) l) g).
Proof.
  intros Hs Hl H1 H2. split.
  - apply (@recurrent_run RNN Hidden rnn_forward X1 out1 h1 rnn l g Hl).
    now rewrite Hs.
  - rewrite (@recurrent_run RNN Hidden rnn_forward X2 out2 h2 rnn
               (Recurrent.set_states (Some h1) l) g).
    + reflexivity.
    + exact Hl.
    + cbn [Recurrent.stateful Recurrent.set_states]. now rewrite Hs.
Qed.

Lemma recurrent_stateless_restarts_witness :
  let step := fun (_ : unit) (X : tensor) (h : option nat) =>
                Ok (X, match h with Some n => S n | None => O end) in
  let l := Recurrent.Obj (PyInt 1) Examples.zeros_init (PyInt 1) (PyInt 1)
             [PyInt 1; PyInt 1] false None (Some tt) in
  Recurrent.forward step (Examples.mat11 2)
    (World (Recurrent.set_states (Some 0%nat) l) Examples.ones)
  = (Ok (Examples.mat11 2), World (Recurrent.set_states (Some 0%nat) l) Examples.ones).
Proof.
  intros step l.
  apply (@recurrent_stateless_restarts unit nat step
           (Examples.mat11 2) (Examples.mat11 2) (Examples.mat11 2) (Examples.mat11 2)
           0%nat 0%nat tt l Examples.ones); reflexivity.
Defined.

(** X17. A stateful [Recurrent] layer carries the hidden state from one
    forward call to the next: the first call on a layer without stored
    state runs the network from no state, the second call runs it from
    the state the first one ended in. *)
Theorem recurrent_stateful_carries_state
        (RNN Hidden : Type)
        (rnn_forward : RNN -> tensor -> option Hidden -> result (tensor * Hidden))
        (X1 X2 out1 out2 : tensor) (h1 h2 : Hidden) (rnn : RNN)
        (l : Recurrent.t RNN Hidden) (g : stream) :
  Recurrent.stateful l = true ->
  Recurrent.states l = None ->
  Recurrent.layer l = Some rnn ->
  rnn_forward rnn X1 None = Ok (out1, h1) ->
  rnn_forward rnn X2 (Some h1) = Ok (out2, h2) ->
  Recurrent.forward rnn_forward X1 (World l g)
  = (Ok out1, World (Recurrent.set_states (Some h1) l) g)
  /\ Recurrent.forward rnn_forward X2 (World (Recurrent.set_states (Some h1) l) g)
     = (Ok out2, World (Recurrent.set_states (Some h2) l) g).
Proof.
  intros Hs Hn Hl H1 H2. split.
  - apply (@recurrent_run RNN Hidden rnn_forward X1 out1 h1 rnn l g Hl).
    now rewrite Hs, Hn.
  - rewrite (@recurrent_run RNN Hidden rnn_forward X2 out2 h2 rnn
               (Recurrent.set_states (Some h1) l) g).
    + reflexivity.
    + exact Hl.
    + cbn [Recurrent.stateful Recurrent.states Recurrent.set_states].
      now rewrite Hs.
Qed.

Lemma recurrent_stateful_carries_state_witness :
  let step := fun (_ : unit) (X : tensor) (h : option nat) =>
                Ok (X, match h with Some n => S n | None => O end) in
  let l := Recurrent.Obj (PyInt 1) Examples.zeros_init (PyInt 1) (PyInt 1)
             [PyInt 1; PyInt 1] true None (Some tt) in
  Recurrent.forward step (Examples.mat11 2)
    (World (Recurrent.set_states (Some 0%nat) l) Examples.ones)
  = (Ok (Examples.mat11 2), World (Recurrent.set_states (Some 1%nat) l) Examples.ones).
Proof.
  intros step l.
  apply (@recurrent_stateful_carries_state unit nat step
           (Examples.mat11 2) (Examples.mat11 2) (Examples.mat11 2) (Examples.mat11 2)
           0%nat 1%nat tt l Examples.ones); reflexivity.
Defined.

(** X18. [clear_states] makes a stateful [Recurrent] layer start over:
    whatever state is stored, after [clear_states] the next forward call
    runs the network from no state and stores the state it ends in;
    nothing but the stored state is changed by [clear_states]. *)
Theorem recurrent_clear_states_restarts
        (RNN Hidden : Type)
        (rnn_forward : RNN -> tensor -> option Hidden -> result (tensor * Hidden))
        (X out : tensor) (h : Hidden) (rnn : RNN)
        (l : Recurrent.t RNN Hidden) (g : stream) :
  Recurrent.layer l = Some rnn ->
  rnn_forward rnn X None = Ok (out, h) ->
  Recurrent.clear_states (World l g)
  = (Ok tt, World (Recurrent.set_states None l) g)
  /\ bind (@Recurrent.clear_states RNN Hidden)
          (fun _ => Recurrent.forward rnn_forward X)
       (World l g)
     = (Ok out, World (Recurrent.set_states (Some h) l) g).
Proof.
  intros Hl Hr. split; [reflexivity |].
  unfold bind, Recurrent.clear_states, setattr. cbn [self rng].
  rewrite (@recurrent_run RNN Hidden rnn_forward X out h rnn
             (Recurrent.set_states None l) g).
  - reflexivity.
  - exact Hl.
  - cbn [Recurrent.stateful Recurrent.states Recurrent.set_states].
    now destruct (Recurrent.stateful l).
Qed.

Lemma recurrent_clear_states_restarts_witness :
  let step := fun (_ : unit) (X : tensor) (h : option nat) =>
                Ok (X, match h with Some n => S n | None => O end) in
  let l := Recurrent.Obj (PyInt 1) Examples.zeros_init (PyInt 1) (PyInt 1)
             [PyInt 1; PyInt 1] true (Some 5%nat) (Some tt) in
  bind (@Recurrent.clear_states unit nat)
       (fun _ => Recurrent.forward step (Examples.mat11 2))
    (World l Examples.ones)
  = (Ok (Examples.mat11 2), World (Recurrent.set_states (Some 0%nat) l) Examples.ones).
Proof.
  intros step l.
  apply (@recurrent_clear_states_restarts unit nat step
           (Examples.mat11 2) (Examples.mat11 2) 0%nat tt l Examples.ones);
    reflexivity.
Defined.

(* ===================================================================== *)
(** * Flatten and TimeDistributed *)
(* ===================================================================== *)

Section ViewInversion.

Lemma sizes_product (k : Z) (sizes : list Z) :
  (0 <= k)%Z ->
  existsb (fun z => (z <? -1)%Z) sizes = false ->
  Z.of_nat (numel (map (fun z => if (z =? -1)%Z then Z.to_nat k else Z.to_nat z)
                       sizes))
  = (known_product sizes * k ^ Z.of_nat (holes sizes))%Z.
Proof.
  intros Hk. induction sizes as [| z sizes IH]; intros Hneg.
  - reflexivity.
  - cbn [existsb] in Hneg. apply orb_false_elim in Hneg.
    destruct Hneg as [Hz Hrest]. apply Z.ltb_ge in Hz.
    specialize (IH Hrest).
    cbn [map]. unfold numel in *. cbn [fold_right].
    rewrite Nat2Z.inj_mul, IH.
    unfold known_product, holes. cbn [filter].
    destruct (Z.eqb_spec z (-1)) as [E | E]; cbn [negb length fold_right].
    + rewrite Z2Nat.id by exact Hk.
      rewrite Nat2Z.inj_succ, Z.pow_succ_r by lia. ring.
    + rewrite Z2Nat.id by lia. ring.
Qed.

Lemma no_hole_sizes (sizes : list Z) :
  holes sizes = 0%nat ->
  map (fun z => if (z =? -1)%Z then Z.to_nat 0 else Z.to_nat z) sizes
  = map Z.to_nat sizes.
Proof.
  unfold holes. induction sizes as [| z sizes IH]; intros H; [reflexivity |].
  cbn [filter map] in *.
  destruct (Z.eqb_spec z (-1)); [discriminate |].
  now rewrite IH.
Qed.

(** A view that returns keeps the entries, their order and their
    number. *)
Lemma view_inv (t t' : tensor) (sizes : list Z) :
  view t sizes = Ok t' ->
  data t' = data t /\ numel (shape t') = numel (shape t).
Proof.
  unfold view. intros H.
  destruct (existsb (fun z => (z <? -1)%Z) sizes) eqn:Hneg; [discriminate |].
  destruct (holes sizes) as [| [| n]] eqn:Hh; [| | discriminate].
  - destruct (Z.eqb_spec (known_product sizes) (Z.of_nat (numel (shape t))))
      as [E | E]; [| discriminate].
    injection H as <-. split; [reflexivity |]. cbn [shape].
    apply Nat2Z.inj. rewrite <- E, <- (no_hole_sizes sizes Hh).
    rewrite sizes_product by (try lia; assumption).
    rewrite Hh. cbn. ring.
  - destruct (Z.eqb_spec (known_product sizes) 0) as [E0 | E0]; [discriminate |].
    destruct (Z.eqb_spec (Z.of_nat (numel (shape t)) mod known_product sizes) 0)
      as [E | E]; [| discriminate].
    injection H as <-. split; [reflexivity |]. cbn [shape].
    apply Nat2Z.inj.
    assert (Hq : (0 <= Z.of_nat (numel (shape t)) / known_product sizes)%Z).
    { apply Z.div_exact in E; [| exact E0].
      assert (Hn : (0 <= Z.of_nat (numel (shape t)))%Z) by lia.
      set (q := (Z.of_nat (numel (shape t)) / known_product sizes)%Z) in *.
      assert (Hp : (0 <= known_product sizes)%Z).
      { unfold known_product. clear - Hneg.
        induction sizes as [| z sizes IH]; cbn [filter fold_right]; [lia |].
        cbn [existsb] in Hneg. apply orb_false_elim in Hneg.
        destruct Hneg as [Hz Hrest]. apply Z.ltb_ge in Hz.
        destruct (Z.eqb_spec z (-1)); cbn [negb fold_right]; [now apply IH |].
        apply Z.mul_nonneg_nonneg; [lia | now apply IH]. }
      nia. }
    rewrite sizes_product by assumption.
    rewrite Hh. cbn [Z.of_nat]. rewrite Z.pow_1_r.
    apply Z.div_exact in E; [| exact E0]. lia.
Qed.

End ViewInversion.

(** X19. The constructor of [Flatten] never builds, also when it is given
    the input sizes: on the layer it returns, [forward] raises
    [AttributeError] for the missing [output_dim] on any tensor that has a
    first size, and [IndexError] on a tensor without sizes; the layer is
    left as it was. *)
Theorem flatten_constructor_never_builds
        (init_fn : initializer) (dims : option (list Z)) (X : tensor) (g : stream) :
  let l := Flatten.__init__ init_fn dims in
  Flatten.output_dim l = None
  /\ (shape X <> [] ->
      Flatten.forward X (World l g)
      = (Raises (Builtin (AttributeError "output_dim")), World l g))
  /\ (shape X = [] ->
      Flatten.forward X (World l g) = (Raises IndexError, World l g)).
Proof.
  intros l. split; [reflexivity |].
  unfold Flatten.forward, Layer.forward, Layer.to_variable.
  cbv [xbind call ret getattr self]. split; intros H.
  - destruct (shape X) as [| n rest]; [contradiction | reflexivity].
  - now rewrite H.
Qed.

Lemma flatten_constructor_never_builds_witness :
  Flatten.forward (Tensor [2; 3]%nat [1; 2; 3; 4; 5; 6]%R)
    (World (Flatten.__init__ Examples.zeros_init (Some [3]%Z)) Examples.ones)
  = (Raises (Builtin (AttributeError "output_dim")),
     World (Flatten.__init__ Examples.zeros_init (Some [3]%Z)) Examples.ones).
Proof.
  destruct (@flatten_constructor_never_builds Examples.zeros_init (Some [3]%Z)
              (Tensor [2; 3]%nat [1; 2; 3; 4; 5; 6]%R) Examples.ones)
    as (_ & Hattr & _).
  apply Hattr. discriminate.
Defined.

(** X20. After [build(dims)] has set [output_dim] to a product [m >= 0],
    [forward] on a tensor of sizes [n :: rest] returns exactly when
    [n * m] is the number of its entries: the result has sizes [n, m] and
    the entries of the input in the same order; otherwise the view raises
    [RuntimeError].  In both cases the layer is left as [build] left
    it. *)
Theorem flatten_build_then_forward
        (np_prod : list Z -> Z) (dims : list Z) (m n : nat) (rest : list nat)
        (X : tensor) (l : Flatten.t) (g : stream) :
  np_prod dims = Z.of_nat m -> shape X = n :: rest ->
  let l' := Flatten.Obj (Some dims) (Flatten.init l) (Some (Z.of_nat m)) in
  Flatten.build np_prod dims (World l g) = (Ok tt, World l' g)
  /\ ((n * m = n * numel rest)%nat ->
      Flatten.forward X (World l' g)
      = (Returns (Tensor [n; m] (data X)), World l' g))
  /\ ((n * m <> n * numel rest)%nat ->
      Flatten.forward X (World l' g)
      = (Raises (Builtin RuntimeError), World l' g)).
Proof.
  intros Hm HX l'. split.
  - unfold Flatten.build. cbv [bind setattr self rng]. now rewrite Hm.
  - assert (Hv : view X [Z.of_nat n; Z.of_nat m]
                 = if (n * m =? n * numel rest)%nat
                   then Ok (Tensor [n; m] (data X)) else Err RuntimeError).
    { change [Z.of_nat n; Z.of_nat m] with (map Z.of_nat [n; m]).
      rewrite view_sizes, HX, numel_matrix.
      unfold numel. cbn [fold_right]. reflexivity. }
    unfold Flatten.forward, Layer.forward, Layer.to_variable.
    cbv [xbind xret call ret lift getattr self]. rewrite HX.
    cbn [Flatten.output_dim l']. rewrite Hv.
    split; intros H.
    + apply Nat.eqb_eq in H. now rewrite H.
    + apply Nat.eqb_neq in H. now rewrite H.
Qed.

Lemma flatten_build_then_forward_witness :
  Flatten.forward (Tensor [2; 1; 3]%nat [1; 2; 3; 4; 5; 6]%R)
    (World (Flatten.Obj (Some [1; 3]%Z) Examples.zeros_init (Some 3%Z)) Examples.ones)
  = (Returns (Tensor [2; 3]%nat [1; 2; 3; 4; 5; 6]%R),
     World (Flatten.Obj (Some [1; 3]%Z) Examples.zeros_init (Some 3%Z)) Examples.ones).
Proof.
  destruct (@flatten_build_then_forward (fold_right Z.mul 1%Z) [1; 3]%Z 3 2 [1; 3]%nat
              (Tensor [2; 1; 3]%nat [1; 2; 3; 4; 5; 6]%R)
              (Flatten.__init__ Examples.zeros_init None) Examples.ones
              eq_refl eq_refl) as (_ & Hok & _).
  apply Hok. reflexivity.
Defined.

(** X21. Whatever [output_dim] holds, a [Flatten.forward] call that
    returns has changed the sizes only: the result has the entries of the
    input in the same order, viewing it under the sizes of the input gives
    the input back, and the layer and the generator are as before. *)
Theorem flatten_round_trip
        (X out : tensor) (w w' : world Flatten.t) :
  Flatten.forward X w = (Returns out, w') ->
  w' = w
  /\ data out = data X
  /\ view out (map Z.of_nat (shape X)) = Ok X.
Proof.
  unfold Flatten.forward, Layer.forward, Layer.to_variable.
  cbv [xbind xret xraise call ret lift getattr]. intros H.
  destruct (shape X) as [| n rest] eqn:HX; [discriminate |].
  destruct (Flatten.output_dim (self w)) as [m |]; [| discriminate].
  destruct (view X [Z.of_nat n; m]) as [v |] eqn:Hv; [| discriminate].
  injection H as <- <-.
  apply view_inv in Hv. destruct Hv as [Hd Hn].
  split; [reflexivity |]. split; [exact Hd |].
  rewrite view_sizes, <- HX, Hn, Nat.eqb_refl, Hd. now destruct X.
Qed.

Lemma flatten_round_trip_witness :
  view (Tensor [2; 3]%nat [1; 2; 3; 4; 5; 6]%R) (map Z.of_nat [2; 1; 3]%nat)
  = Ok (Tensor [2; 1; 3]%nat [1; 2; 3; 4; 5; 6]%R).
Proof.
  apply (@flatten_round_trip (Tensor [2; 1; 3]%nat [1; 2; 3; 4; 5; 6]%R)
           (Tensor [2; 3]%nat [1; 2; 3; 4; 5; 6]%R)
           (World (Flatten.Obj (Some [1; 3]%Z) Examples.zeros_init (Some 3%Z))
                  Examples.ones)
           (World (Flatten.Obj (Some [1; 3]%Z) Examples.zeros_init (Some 3%Z))
                  Examples.ones)).
  reflexivity.
Defined.

(** X22. [TimeDistributed.forward] on a tensor that does not have exactly
    three sizes raises [ValueError] when the sizes are unpacked: the
    wrapped layer is not called, and the layer and the generator are left
    as they were. *)
Theorem time_distributed_needs_three_sizes
        (L : Type) (inner_forward : tensor -> MX L tensor)
        (X : tensor) (w : world (TimeDistributed.t L)) :
  length (shape X) <> 3%nat ->
  TimeDistributed.forward inner_forward X w = (Raises (Builtin ValueError), w).
Proof.
  intros H. unfold TimeDistributed.forward.
  destruct (shape X) as [| a [| b [| c [| d rest]]]]; try reflexivity.
  cbn in H. contradiction.
Qed.

Lemma time_distributed_needs_three_sizes_witness :
  TimeDistributed.forward
    (fun X => call (ProbabilisticDense.forward X)) (Examples.mat11 2)
    (World (TimeDistributed.Obj Examples.unit_layer) Examples.ones)
  = (Raises (Builtin ValueError),
     World (TimeDistributed.Obj Examples.unit_layer) Examples.ones).
Proof.
  apply time_distributed_needs_three_sizes. cbn. lia.
Defined.


